(** * The FUSB302 Type-C / USB-PD port controller: protocol core

    A shallow embedding of the state machine of [drivers/mfd/fusb302.c]:
    CC debounce, the PD message codec as far as the state machine reads
    it, the connection state machine with its per-state handlers, the
    auto-VDM engine and the notification publisher.

    Conventions of the embedding.
    - C integers are [Z]; bit operations are [Z.land], [Z.lor],
      [Z.shiftl], [Z.shiftr].  The counters of the port context
      ([debounce_cnt], [caps_counter], [hardrst_count], [msg_id], ...)
      are incremented without wrap-around: their declared widths live in
      [fusb302.h], and every use of [msg_id] masks it with [0x7].
    - The port context [struct fusb30x_chip] is the record
      [fusb30x_chip]; a handler [void f(chip, evt)] is a function
      [fusb30x_chip -> fusb30x_chip].
    - What one tick reads from the hardware (interrupt registers,
      comparator and VBUS status, the receive FIFO) is an argument of the
      tick, the record [hw_inputs]; what a tick does to its collaborators
      (frames written to the transmit FIFO, hard-reset signalling, VBUS
      switching, published notifications) is appended to the [trace]
      field.  Register writes that only configure the transceiver are
      not recorded. *)

From Stdlib Require Import ZArith List Bool Lia.
Import ListNotations.
Open Scope Z_scope.

(** ** Constants and macros defined in fusb302.c *)

Definition BIT (n : Z) : Z := Z.shiftl 1 n.

Definition TYPEC_CC_VOLT_OPEN : Z := 0.
Definition TYPEC_CC_VOLT_RA : Z := 1.
Definition TYPEC_CC_VOLT_RD : Z := 2.
Definition TYPEC_CC_VOLT_RP : Z := 3.

Definition EVENT_CC : Z := BIT 0.
Definition EVENT_RX : Z := BIT 1.
Definition EVENT_TX : Z := BIT 2.
Definition EVENT_REC_RESET : Z := BIT 3.
Definition EVENT_WORK_CONTINUE : Z := BIT 5.
Definition EVENT_TIMER_MUX : Z := BIT 6.
Definition EVENT_TIMER_STATE : Z := BIT 7.
Definition EVENT_DELAY_CC : Z := BIT 8.
Definition FLAG_EVENT : Z :=
  Z.lor (Z.lor EVENT_RX EVENT_TIMER_MUX) EVENT_TIMER_STATE.

(** [evt & FLAG] used as a C condition. *)
Definition has (evt flag : Z) : bool := negb (Z.land evt flag =? 0).

(** Truth value of a C integer. *)
Definition truthy (x : Z) : bool := negb (x =? 0).

Definition u32 (x : Z) : Z := Z.land x 0xffffffff.

Definition MODE_DP_PIN_A : Z := BIT 0.
Definition MODE_DP_PIN_B : Z := BIT 1.
Definition MODE_DP_PIN_C : Z := BIT 2.
Definition MODE_DP_PIN_D : Z := BIT 3.
Definition MODE_DP_PIN_E : Z := BIT 4.
Definition MODE_DP_PIN_F : Z := BIT 5.

(** Pin configs B/D/F support multi-function. *)
Definition MODE_DP_PIN_MF_MASK : Z :=
  Z.lor (Z.lor MODE_DP_PIN_B MODE_DP_PIN_D) MODE_DP_PIN_F.
(** Pin configs A/B support BR2 signaling levels. *)
Definition MODE_DP_PIN_BR2_MASK : Z := Z.lor MODE_DP_PIN_A MODE_DP_PIN_B.
(** Pin configs C/D/E/F support DP signaling levels. *)
Definition MODE_DP_PIN_DP_MASK : Z :=
  Z.lor (Z.lor (Z.lor MODE_DP_PIN_C MODE_DP_PIN_D) MODE_DP_PIN_E) MODE_DP_PIN_F.

Definition PD_DP_PIN_CAPS (x : Z) : Z :=
  if truthy (Z.land (Z.shiftr x 6) 1)
  then Z.land (Z.shiftr x 16) 0x3f
  else Z.land (Z.shiftr x 8) 0x3f.
Definition PD_DP_SIGNAL_GEN2 (x : Z) : Z := Z.land (Z.shiftr x 3) 1.
Definition PD_VDO_DPSTS_MF_PREF (x : Z) : Z := Z.land (Z.shiftr x 4) 1.

(** [x & ~mask] on unsigned values. *)
Definition clear_bits (x mask : Z) : Z := Z.land x (Z.lnot mask).

(** [31 - __builtin_clz(x)] for [x > 0]: the index of the highest set bit. *)
Definition high_bit (x : Z) : Z := Z.log2 x.

(** ** Declarations of fusb302.h

    The header is not part of the sources at hand.  What the state
    machine needs of it is modelled here. *)

(** Modelled from the spec: the header fields of a PD message, which
    [fusb302.h] extracts with [PD_HEADER_CNT] and [PD_HEADER_TYPE].  The
    layout (object count in bits 14:12, message type in bits 3:0) is the
    one [set_mesg] packs in fusb302.c. *)
Definition PD_HEADER_CNT (header : Z) : Z := Z.land (Z.shiftr header 12) 7.
Definition PD_HEADER_TYPE (header : Z) : Z := Z.land header 0xf.

Definition PACKET_IS_CONTROL_MSG (header type : Z) : bool :=
  (PD_HEADER_CNT header =? 0) && (PD_HEADER_TYPE header =? type).
Definition PACKET_IS_DATA_MSG (header type : Z) : bool :=
  negb (PD_HEADER_CNT header =? 0) && (PD_HEADER_TYPE header =? type).

(** Modelled from the spec: the control and data message types of the
    enums of [fusb302.h], numbered as the USB-PD message header does. *)
Definition CMT_GOODCRC : Z := 1.
Definition CMT_ACCEPT : Z := 3.
Definition CMT_REJECT : Z := 4.
Definition CMT_PS_RDY : Z := 6.
Definition CMT_GETSINKCAP : Z := 8.
Definition CMT_DR_SWAP : Z := 9.
Definition CMT_PR_SWAP : Z := 10.
Definition CMT_VCONN_SWAP : Z := 11.
Definition CMT_WAIT : Z := 12.
Definition CMT_SOFTRESET : Z := 13.

Definition DMT_SOURCECAPABILITIES : Z := 1.
Definition DMT_REQUEST : Z := 2.
Definition DMT_SINKCAPABILITIES : Z := 4.
Definition DMT_VENDERDEFINED : Z := 15.

(** The [is_DMT] argument of [set_mesg]. *)
Definition CONTROLMESSAGE : bool := false.
Definition DATAMESSAGE : bool := true.

(** Modelled from the spec: the structured-VDM header (struct type in
    bit 15, command type in bits 7:6, command in bits 4:0), as
    [set_vdm_mesg] packs it, and the command codes of the DisplayPort
    alternate mode. *)
Definition GET_VDMHEAD_STRUCT_TYPE (head : Z) : Z := Z.land (Z.shiftr head 15) 1.
Definition GET_VDMHEAD_CMD_TYPE (head : Z) : Z := Z.land (Z.shiftr head 6) 3.
Definition GET_VDMHEAD_CMD (head : Z) : Z := Z.land head 0x1f.

Definition VDM_TYPE_INIT : Z := 0.
Definition VDM_TYPE_ACK : Z := 1.
Definition VDM_TYPE_NACK : Z := 2.
Definition VDM_TYPE_BUSY : Z := 3.

Definition VDM_DISCOVERY_ID : Z := 1.
Definition VDM_DISCOVERY_SVIDS : Z := 2.
Definition VDM_DISCOVERY_MODES : Z := 3.
Definition VDM_ENTER_MODE : Z := 4.
Definition VDM_EXIT_MODE : Z := 5.
Definition VDM_ATTENTION : Z := 6.
Definition VDM_DP_STATUS_UPDATE : Z := 16.
Definition VDM_DP_CONFIG : Z := 17.

(** Modelled from the spec: the states of the auto-VDM engine in the
    order of section 4.4, [chip->vdm_state++] stepping to the next one. *)
Definition VDM_STATE_DISCOVERY_ID : Z := 0.
Definition VDM_STATE_DISCOVERY_SVID : Z := 1.
Definition VDM_STATE_DISCOVERY_MODES : Z := 2.
Definition VDM_STATE_ENTER_MODE : Z := 3.
Definition VDM_STATE_UPDATE_STATUS : Z := 4.
Definition VDM_STATE_DP_CONFIG : Z := 5.
Definition VDM_STATE_NOTIFY : Z := 6.
Definition VDM_STATE_READY : Z := 7.
Definition VDM_STATE_ERR : Z := 8.

(** Modelled from the spec: the DisplayPort status VDO (bits 8:0 are
    defined, bit 7 is the HPD level), see the comment above
    [PD_VDO_DPSTS_HPD_IRQ] in fusb302.c. *)
Definition GET_DP_STATUS (status : Z) : Z := Z.land status 0x1ff.
Definition GET_DP_STATUS_HPD (status : Z) : Z := Z.land (Z.shiftr status 7) 1.

(** Modelled from the spec: power data objects (supply type in bits
    31:30; fixed supply: voltage in bits 19:10, current in bits 9:0;
    battery: voltage in bits 29:20, current in bits 9:0). *)
Definition CAP_POWER_TYPE (pdo : Z) : Z := Z.land (Z.shiftr pdo 30) 3.
Definition CAP_FPDO_VOLTAGE (pdo : Z) : Z := Z.land (Z.shiftr pdo 10) 0x3ff.
Definition CAP_FPDO_CURRENT (pdo : Z) : Z := Z.land pdo 0x3ff.
Definition CAP_VPDO_VOLTAGE (pdo : Z) : Z := Z.land (Z.shiftr pdo 20) 0x3ff.
Definition CAP_VPDO_CURRENT (pdo : Z) : Z := Z.land pdo 0x3ff.

(** The errno values the VDM senders return, as tags. *)
Inductive vdm_result : Type :=
  | VDM_OK
  | VDM_EINPROGRESS
  | VDM_EPIPE
  | VDM_ETIMEDOUT.

(** [enum connection_state]: the states fusb302.c names. *)
Inductive connection_state : Type :=
  | disabled
  | error_recovery
  | unattached
  | attach_wait_sink
  | attach_wait_source
  | attached_source
  | attached_sink
  | attach_try_src
  | attach_try_snk
  | attach_wait_audio_acc
  | attached_audio_acc
  | policy_src_startup
  | policy_src_discovery
  | policy_src_send_caps
  | policy_src_negotiate_cap
  | policy_src_transition_supply
  | policy_src_cap_response
  | policy_src_transition_default
  | policy_src_ready
  | policy_src_get_sink_caps
  | policy_src_send_hardrst
  | policy_src_send_softrst
  | policy_src_softrst
  | policy_snk_startup
  | policy_snk_discovery
  | policy_snk_wait_caps
  | policy_snk_evaluate_caps
  | policy_snk_select_cap
  | policy_snk_transition_sink
  | policy_snk_transition_default
  | policy_snk_ready
  | policy_snk_send_hardrst
  | policy_snk_send_softrst
  | policy_snk_softrst
  | policy_src_prs_evaluate
  | policy_src_prs_accept
  | policy_src_prs_reject
  | policy_src_prs_transition_to_off
  | policy_src_prs_assert_rd
  | policy_src_prs_source_off
  | policy_src_prs_send_swap
  | policy_snk_prs_evaluate
  | policy_snk_prs_accept
  | policy_snk_prs_reject
  | policy_snk_prs_send_swap
  | policy_snk_prs_transition_to_off
  | policy_snk_prs_assert_rp
  | policy_snk_prs_source_on
  | policy_vcs_ufp_evaluate_swap
  | policy_vcs_ufp_accept
  | policy_vcs_ufp_reject
  | policy_vcs_ufp_wait_for_dfp_vconn
  | policy_vcs_ufp_turn_off_vconn
  | policy_vcs_ufp_turn_on_vconn
  | policy_vcs_ufp_send_ps_rdy
  | policy_vcs_dfp_send_swap
  | policy_vcs_dfp_wait_for_ufp_vconn
  | policy_vcs_dfp_turn_off_vconn
  | policy_vcs_dfp_turn_on_vconn
  | policy_vcs_dfp_send_ps_rdy
  | policy_drs_ufp_evaluate
  | policy_drs_ufp_accept
  | policy_drs_ufp_reject
  | policy_drs_ufp_change
  | policy_drs_ufp_send_swap
  | policy_drs_dfp_evaluate
  | policy_drs_dfp_accept
  | policy_drs_dfp_reject
  | policy_drs_dfp_change
  | policy_drs_dfp_send_swap.

Scheme Equality for connection_state.

(** [enum tx_state]; [tx_idle] is the value 0 that [policy_send_data]
    and [policy_send_hardrst] switch on. *)
Inductive tx_state_t : Type := tx_idle | tx_busy | tx_failed | tx_success.

Inductive role_mode : Type :=
  | ROLE_MODE_NONE | ROLE_MODE_DRP | ROLE_MODE_UFP | ROLE_MODE_DFP | ROLE_MODE_ASS.

Inductive typec_cc_polarity : Type := TYPEC_POLARITY_CC1 | TYPEC_POLARITY_CC2.

Inductive CC_ORIENTATION : Type :=
  | TYPEC_ORIENTATION_NONE | TYPEC_ORIENTATION_CC1 | TYPEC_ORIENTATION_CC2.

(** [POWER_ROLE_SINK] and [DATA_ROLE_UFP] are the zero values: the code
    tests [chip->notify.power_role] and [chip->notify.data_role] as
    truth values and packs them as one header bit each. *)
Inductive power_role_t : Type := POWER_ROLE_SINK | POWER_ROLE_SOURCE.
Inductive data_role_t : Type := DATA_ROLE_UFP | DATA_ROLE_DFP.

Definition is_source (r : power_role_t) : bool :=
  match r with POWER_ROLE_SOURCE => true | POWER_ROLE_SINK => false end.
Definition is_dfp (r : data_role_t) : bool :=
  match r with DATA_ROLE_DFP => true | DATA_ROLE_UFP => false end.
Definition power_role_bit (r : power_role_t) : Z := if is_source r then 1 else 0.
Definition data_role_bit (r : data_role_t) : Z := if is_dfp r then 1 else 0.

Definition role_mode_eqb (a b : role_mode) : bool :=
  match a, b with
  | ROLE_MODE_NONE, ROLE_MODE_NONE | ROLE_MODE_DRP, ROLE_MODE_DRP
  | ROLE_MODE_UFP, ROLE_MODE_UFP | ROLE_MODE_DFP, ROLE_MODE_DFP
  | ROLE_MODE_ASS, ROLE_MODE_ASS => true
  | _, _ => false
  end.

Definition orientation_eqb (a b : CC_ORIENTATION) : bool :=
  match a, b with
  | TYPEC_ORIENTATION_NONE, TYPEC_ORIENTATION_NONE
  | TYPEC_ORIENTATION_CC1, TYPEC_ORIENTATION_CC1
  | TYPEC_ORIENTATION_CC2, TYPEC_ORIENTATION_CC2 => true
  | _, _ => false
  end.

(** The numeric constants of [fusb302.h] that the state machine only
    compares with or stores: retry bounds, timer durations in
    milliseconds with the [T_DISABLED] sentinel, and the bits of the
    toggle-state byte [cc_state].  They are parameters of the model. *)
Record fusb302_h : Type := {
  N_DEBOUNCE_CNT : Z;
  N_CAPS_COUNT : Z;
  N_HARDRESET_COUNT : Z;
  T_DISABLED : Z;
  T_BMC_TIMEOUT : Z;
  T_SENDER_RESPONSE : Z;
  T_SRC_TRANSITION : Z;
  T_SRC_RECOVER : Z;
  T_SRC_RECOVER_MAX : Z;
  T_SRC_TURN_ON : Z;
  T_NO_RESPONSE : Z;
  T_TYPEC_SEND_SOURCECAP : Z;
  T_TYPEC_SINK_WAIT_CAP : Z;
  T_PS_TRANSITION : Z;
  T_PS_HARD_RESET_MAX : Z;
  T_SAFE_0V : Z;
  T_PD_SOURCE_ON : Z;
  T_PD_SOURCE_OFF : Z;
  T_PD_TRY_DRP : Z;
  T_PD_VCONN_SRC_ON : Z;
  T_PD_SWAP_SOURCE_START : Z;
  CC_STATE_TOGSS_CC1 : Z;
  CC_STATE_TOGSS_CC2 : Z;
  CC_STATE_TOGSS_IS_UFP : Z;
  CC_STATE_TOGSS_IS_DFP : Z;
  CC_STATE_TOGSS_IS_ACC : Z;
  CC_STATE_TOGSS_ROLE : Z
}.

(** One instance of the header, with the protocol timings of USB-PD and
    a ten-sample debounce, used to run the model on concrete inputs. *)
Definition sample_h : fusb302_h := {|
  N_DEBOUNCE_CNT := 10 - 1;
  N_CAPS_COUNT := 50;
  N_HARDRESET_COUNT := 0;
  T_DISABLED := 0xffff;
  T_BMC_TIMEOUT := 5;
  T_SENDER_RESPONSE := 30;
  T_SRC_TRANSITION := 30;
  T_SRC_RECOVER := 830;
  T_SRC_RECOVER_MAX := 1000;
  T_SRC_TURN_ON := 275;
  T_NO_RESPONSE := 5000;
  T_TYPEC_SEND_SOURCECAP := 100;
  T_TYPEC_SINK_WAIT_CAP := 500;
  T_PS_TRANSITION := 500;
  T_PS_HARD_RESET_MAX := 35;
  T_SAFE_0V := 650;
  T_PD_SOURCE_ON := 480;
  T_PD_SOURCE_OFF := 920;
  T_PD_TRY_DRP := 75;
  T_PD_VCONN_SRC_ON := 100;
  T_PD_SWAP_SOURCE_START := 20;
  CC_STATE_TOGSS_CC1 := BIT 0;
  CC_STATE_TOGSS_CC2 := BIT 1;
  CC_STATE_TOGSS_IS_UFP := BIT 2;
  CC_STATE_TOGSS_IS_DFP := BIT 3;
  CC_STATE_TOGSS_IS_ACC := BIT 4;
  CC_STATE_TOGSS_ROLE := Z.lor (Z.lor (BIT 2) (BIT 3)) (BIT 4)
|}.

(** ** The port context *)

(** [struct PD_CAP_INFO]: the fields [set_mesg] packs into a source PDO. *)
Record PD_CAP_INFO : Type := {
  supply_type : Z;
  dual_role_power : Z;
  usb_suspend_support : Z;
  externally_powered : Z;
  usb_communications_cap : Z;
  data_role_swap : Z;
  peak_current : Z
}.

(** [struct notify_info]: the snapshot published to the observer. *)
Record notify_info : Type := {
  orientation : CC_ORIENTATION;
  power_role : power_role_t;
  data_role : data_role_t;
  is_cc_connected : bool;
  is_pd_connected : bool;
  is_enter_mode : bool;
  pin_assignment_support : Z;
  pin_assignment_def : Z;
  attention : bool;
  dp_status : Z;
  dp_caps : Z
}.

(** What [platform_fusb_notify] hands to the connector-state observer:
    cable flip, SuperSpeed, the USB / USB-host / DisplayPort states and,
    for a sink under a PD contract, the fast-charge property
    [pd_output_cur << 15 | pd_output_vol]. *)
Record extcon_update : Type := {
  ext_flip : bool;
  ext_usb_ss : bool;
  ext_usb : bool;
  ext_usb_host : bool;
  ext_disp_dp : bool;
  ext_chg_usb_fast : option Z
}.

(** What a tick does to its collaborators, in the order it happens. *)
Inductive output : Type :=
  | OutTx (head : Z) (load : list Z)
  | OutHardReset
  | OutVbus (vbus_5v vbus_other : bool)
  | OutHeadphone (inserted : bool)
  | OutNotify (snapshot : notify_info) (ext : extcon_update).

(** [struct fusb30x_chip], without the handles of the kernel services
    (regmap, work queue, timers, GPIOs) and without the fields that only
    mirror register values.  [retry] is the [static int retry] of
    [tcpc_alert]; [trace] lists the outputs so far, oldest first. *)
Record fusb30x_chip : Type := {
  role : role_mode;
  try_role : role_mode;
  try_role_complete : bool;
  conn_state : connection_state;
  sub_state : Z;
  val_tmp : Z;
  work_continue : Z;
  cc_state : Z;
  cc1 : Z;
  cc2 : Z;
  cc_polarity : typec_cc_polarity;
  debounce_cnt : Z;
  caps_counter : Z;
  send_head : Z;
  send_load : list Z;
  rec_head : Z;
  rec_load : list Z;
  msg_id : Z;
  tx_state : tx_state_t;
  hardrst_count : Z;
  pos_power : Z;
  partner_cap : list Z;
  n_caps_used : Z;
  source_power_supply : list Z;
  source_max_current : list Z;
  pd_cap_info : PD_CAP_INFO;
  vdm_state : Z;
  vdm_substate : Z;
  vdm_send_state : Z;
  vdm_svid : list Z;
  vdm_svid_num : Z;
  vdm_id : Z;
  vconn_enabled : bool;
  vconn_supported : bool;
  is_pd_support : bool;
  pd_output_vol : Z;
  pd_output_cur : Z;
  vbus_begin : bool;
  timer_state : Z;
  timer_mux : Z;
  notify : notify_info;
  notify_cmp : notify_info;
  retry : bool;
  trace : list output
}.

(** Field updates: [with_f v chip] is [chip] after [chip->f = v]. *)
Definition notify_with_orientation (v : CC_ORIENTATION) (n : notify_info) : notify_info :=
  Build_notify_info v (power_role n) (data_role n) (is_cc_connected n) (is_pd_connected
    n) (is_enter_mode n) (pin_assignment_support n) (pin_assignment_def n) (attention n)
    (dp_status n) (dp_caps n).

Definition notify_with_power_role (v : power_role_t) (n : notify_info) : notify_info :=
  Build_notify_info (orientation n) v (data_role n) (is_cc_connected n) (is_pd_connected
    n) (is_enter_mode n) (pin_assignment_support n) (pin_assignment_def n) (attention n)
    (dp_status n) (dp_caps n).

Definition notify_with_data_role (v : data_role_t) (n : notify_info) : notify_info :=
  Build_notify_info (orientation n) (power_role n) v (is_cc_connected n)
    (is_pd_connected n) (is_enter_mode n) (pin_assignment_support n) (pin_assignment_def
    n) (attention n) (dp_status n) (dp_caps n).

Definition notify_with_is_cc_connected (v : bool) (n : notify_info) : notify_info :=
  Build_notify_info (orientation n) (power_role n) (data_role n) v (is_pd_connected n)
    (is_enter_mode n) (pin_assignment_support n) (pin_assignment_def n) (attention n)
    (dp_status n) (dp_caps n).

Definition notify_with_is_pd_connected (v : bool) (n : notify_info) : notify_info :=
  Build_notify_info (orientation n) (power_role n) (data_role n) (is_cc_connected n) v
    (is_enter_mode n) (pin_assignment_support n) (pin_assignment_def n) (attention n)
    (dp_status n) (dp_caps n).

Definition notify_with_is_enter_mode (v : bool) (n : notify_info) : notify_info :=
  Build_notify_info (orientation n) (power_role n) (data_role n) (is_cc_connected n)
    (is_pd_connected n) v (pin_assignment_support n) (pin_assignment_def n) (attention
    n) (dp_status n) (dp_caps n).

Definition notify_with_pin_assignment_support (v : Z) (n : notify_info) : notify_info :=
  Build_notify_info (orientation n) (power_role n) (data_role n) (is_cc_connected n)
    (is_pd_connected n) (is_enter_mode n) v (pin_assignment_def n) (attention n)
    (dp_status n) (dp_caps n).

Definition notify_with_pin_assignment_def (v : Z) (n : notify_info) : notify_info :=
  Build_notify_info (orientation n) (power_role n) (data_role n) (is_cc_connected n)
    (is_pd_connected n) (is_enter_mode n) (pin_assignment_support n) v (attention n)
    (dp_status n) (dp_caps n).

Definition notify_with_attention (v : bool) (n : notify_info) : notify_info :=
  Build_notify_info (orientation n) (power_role n) (data_role n) (is_cc_connected n)
    (is_pd_connected n) (is_enter_mode n) (pin_assignment_support n) (pin_assignment_def
    n) v (dp_status n) (dp_caps n).

Definition notify_with_dp_status (v : Z) (n : notify_info) : notify_info :=
  Build_notify_info (orientation n) (power_role n) (data_role n) (is_cc_connected n)
    (is_pd_connected n) (is_enter_mode n) (pin_assignment_support n) (pin_assignment_def
    n) (attention n) v (dp_caps n).

Definition notify_with_dp_caps (v : Z) (n : notify_info) : notify_info :=
  Build_notify_info (orientation n) (power_role n) (data_role n) (is_cc_connected n)
    (is_pd_connected n) (is_enter_mode n) (pin_assignment_support n) (pin_assignment_def
    n) (attention n) (dp_status n) v.

Definition with_try_role_complete (v : bool) (chip : fusb30x_chip) : fusb30x_chip :=
  Build_fusb30x_chip (role chip) (try_role chip) v (conn_state chip) (sub_state chip)
    (val_tmp chip) (work_continue chip) (cc_state chip) (cc1 chip) (cc2 chip)
    (cc_polarity chip) (debounce_cnt chip) (caps_counter chip) (send_head chip)
    (send_load chip) (rec_head chip) (rec_load chip) (msg_id chip) (tx_state chip)
    (hardrst_count chip) (pos_power chip) (partner_cap chip) (n_caps_used chip)
    (source_power_supply chip) (source_max_current chip) (pd_cap_info chip) (vdm_state
    chip) (vdm_substate chip) (vdm_send_state chip) (vdm_svid chip) (vdm_svid_num chip)
    (vdm_id chip) (vconn_enabled chip) (vconn_supported chip) (is_pd_support chip)
    (pd_output_vol chip) (pd_output_cur chip) (vbus_begin chip) (timer_state chip)
    (timer_mux chip) (notify chip) (notify_cmp chip) (retry chip) (trace chip).

Definition with_conn_state (v : connection_state) (chip : fusb30x_chip) : fusb30x_chip :=
  Build_fusb30x_chip (role chip) (try_role chip) (try_role_complete chip) v (sub_state
    chip) (val_tmp chip) (work_continue chip) (cc_state chip) (cc1 chip) (cc2 chip)
    (cc_polarity chip) (debounce_cnt chip) (caps_counter chip) (send_head chip)
    (send_load chip) (rec_head chip) (rec_load chip) (msg_id chip) (tx_state chip)
    (hardrst_count chip) (pos_power chip) (partner_cap chip) (n_caps_used chip)
    (source_power_supply chip) (source_max_current chip) (pd_cap_info chip) (vdm_state
    chip) (vdm_substate chip) (vdm_send_state chip) (vdm_svid chip) (vdm_svid_num chip)
    (vdm_id chip) (vconn_enabled chip) (vconn_supported chip) (is_pd_support chip)
    (pd_output_vol chip) (pd_output_cur chip) (vbus_begin chip) (timer_state chip)
    (timer_mux chip) (notify chip) (notify_cmp chip) (retry chip) (trace chip).

Definition with_sub_state (v : Z) (chip : fusb30x_chip) : fusb30x_chip :=
  Build_fusb30x_chip (role chip) (try_role chip) (try_role_complete chip) (conn_state
    chip) v (val_tmp chip) (work_continue chip) (cc_state chip) (cc1 chip) (cc2 chip)
    (cc_polarity chip) (debounce_cnt chip) (caps_counter chip) (send_head chip)
    (send_load chip) (rec_head chip) (rec_load chip) (msg_id chip) (tx_state chip)
    (hardrst_count chip) (pos_power chip) (partner_cap chip) (n_caps_used chip)
    (source_power_supply chip) (source_max_current chip) (pd_cap_info chip) (vdm_state
    chip) (vdm_substate chip) (vdm_send_state chip) (vdm_svid chip) (vdm_svid_num chip)
    (vdm_id chip) (vconn_enabled chip) (vconn_supported chip) (is_pd_support chip)
    (pd_output_vol chip) (pd_output_cur chip) (vbus_begin chip) (timer_state chip)
    (timer_mux chip) (notify chip) (notify_cmp chip) (retry chip) (trace chip).

Definition with_val_tmp (v : Z) (chip : fusb30x_chip) : fusb30x_chip :=
  Build_fusb30x_chip (role chip) (try_role chip) (try_role_complete chip) (conn_state
    chip) (sub_state chip) v (work_continue chip) (cc_state chip) (cc1 chip) (cc2 chip)
    (cc_polarity chip) (debounce_cnt chip) (caps_counter chip) (send_head chip)
    (send_load chip) (rec_head chip) (rec_load chip) (msg_id chip) (tx_state chip)
    (hardrst_count chip) (pos_power chip) (partner_cap chip) (n_caps_used chip)
    (source_power_supply chip) (source_max_current chip) (pd_cap_info chip) (vdm_state
    chip) (vdm_substate chip) (vdm_send_state chip) (vdm_svid chip) (vdm_svid_num chip)
    (vdm_id chip) (vconn_enabled chip) (vconn_supported chip) (is_pd_support chip)
    (pd_output_vol chip) (pd_output_cur chip) (vbus_begin chip) (timer_state chip)
    (timer_mux chip) (notify chip) (notify_cmp chip) (retry chip) (trace chip).

Definition with_work_continue (v : Z) (chip : fusb30x_chip) : fusb30x_chip :=
  Build_fusb30x_chip (role chip) (try_role chip) (try_role_complete chip) (conn_state
    chip) (sub_state chip) (val_tmp chip) v (cc_state chip) (cc1 chip) (cc2 chip)
    (cc_polarity chip) (debounce_cnt chip) (caps_counter chip) (send_head chip)
    (send_load chip) (rec_head chip) (rec_load chip) (msg_id chip) (tx_state chip)
    (hardrst_count chip) (pos_power chip) (partner_cap chip) (n_caps_used chip)
    (source_power_supply chip) (source_max_current chip) (pd_cap_info chip) (vdm_state
    chip) (vdm_substate chip) (vdm_send_state chip) (vdm_svid chip) (vdm_svid_num chip)
    (vdm_id chip) (vconn_enabled chip) (vconn_supported chip) (is_pd_support chip)
    (pd_output_vol chip) (pd_output_cur chip) (vbus_begin chip) (timer_state chip)
    (timer_mux chip) (notify chip) (notify_cmp chip) (retry chip) (trace chip).

Definition with_cc_state (v : Z) (chip : fusb30x_chip) : fusb30x_chip :=
  Build_fusb30x_chip (role chip) (try_role chip) (try_role_complete chip) (conn_state
    chip) (sub_state chip) (val_tmp chip) (work_continue chip) v (cc1 chip) (cc2 chip)
    (cc_polarity chip) (debounce_cnt chip) (caps_counter chip) (send_head chip)
    (send_load chip) (rec_head chip) (rec_load chip) (msg_id chip) (tx_state chip)
    (hardrst_count chip) (pos_power chip) (partner_cap chip) (n_caps_used chip)
    (source_power_supply chip) (source_max_current chip) (pd_cap_info chip) (vdm_state
    chip) (vdm_substate chip) (vdm_send_state chip) (vdm_svid chip) (vdm_svid_num chip)
    (vdm_id chip) (vconn_enabled chip) (vconn_supported chip) (is_pd_support chip)
    (pd_output_vol chip) (pd_output_cur chip) (vbus_begin chip) (timer_state chip)
    (timer_mux chip) (notify chip) (notify_cmp chip) (retry chip) (trace chip).

Definition with_cc1 (v : Z) (chip : fusb30x_chip) : fusb30x_chip :=
  Build_fusb30x_chip (role chip) (try_role chip) (try_role_complete chip) (conn_state
    chip) (sub_state chip) (val_tmp chip) (work_continue chip) (cc_state chip) v (cc2
    chip) (cc_polarity chip) (debounce_cnt chip) (caps_counter chip) (send_head chip)
    (send_load chip) (rec_head chip) (rec_load chip) (msg_id chip) (tx_state chip)
    (hardrst_count chip) (pos_power chip) (partner_cap chip) (n_caps_used chip)
    (source_power_supply chip) (source_max_current chip) (pd_cap_info chip) (vdm_state
    chip) (vdm_substate chip) (vdm_send_state chip) (vdm_svid chip) (vdm_svid_num chip)
    (vdm_id chip) (vconn_enabled chip) (vconn_supported chip) (is_pd_support chip)
    (pd_output_vol chip) (pd_output_cur chip) (vbus_begin chip) (timer_state chip)
    (timer_mux chip) (notify chip) (notify_cmp chip) (retry chip) (trace chip).

Definition with_cc2 (v : Z) (chip : fusb30x_chip) : fusb30x_chip :=
  Build_fusb30x_chip (role chip) (try_role chip) (try_role_complete chip) (conn_state
    chip) (sub_state chip) (val_tmp chip) (work_continue chip) (cc_state chip) (cc1
    chip) v (cc_polarity chip) (debounce_cnt chip) (caps_counter chip) (send_head chip)
    (send_load chip) (rec_head chip) (rec_load chip) (msg_id chip) (tx_state chip)
    (hardrst_count chip) (pos_power chip) (partner_cap chip) (n_caps_used chip)
    (source_power_supply chip) (source_max_current chip) (pd_cap_info chip) (vdm_state
    chip) (vdm_substate chip) (vdm_send_state chip) (vdm_svid chip) (vdm_svid_num chip)
    (vdm_id chip) (vconn_enabled chip) (vconn_supported chip) (is_pd_support chip)
    (pd_output_vol chip) (pd_output_cur chip) (vbus_begin chip) (timer_state chip)
    (timer_mux chip) (notify chip) (notify_cmp chip) (retry chip) (trace chip).

Definition with_cc_polarity (v : typec_cc_polarity) (chip : fusb30x_chip) : fusb30x_chip :=
  Build_fusb30x_chip (role chip) (try_role chip) (try_role_complete chip) (conn_state
    chip) (sub_state chip) (val_tmp chip) (work_continue chip) (cc_state chip) (cc1
    chip) (cc2 chip) v (debounce_cnt chip) (caps_counter chip) (send_head chip)
    (send_load chip) (rec_head chip) (rec_load chip) (msg_id chip) (tx_state chip)
    (hardrst_count chip) (pos_power chip) (partner_cap chip) (n_caps_used chip)
    (source_power_supply chip) (source_max_current chip) (pd_cap_info chip) (vdm_state
    chip) (vdm_substate chip) (vdm_send_state chip) (vdm_svid chip) (vdm_svid_num chip)
    (vdm_id chip) (vconn_enabled chip) (vconn_supported chip) (is_pd_support chip)
    (pd_output_vol chip) (pd_output_cur chip) (vbus_begin chip) (timer_state chip)
    (timer_mux chip) (notify chip) (notify_cmp chip) (retry chip) (trace chip).

Definition with_debounce_cnt (v : Z) (chip : fusb30x_chip) : fusb30x_chip :=
  Build_fusb30x_chip (role chip) (try_role chip) (try_role_complete chip) (conn_state
    chip) (sub_state chip) (val_tmp chip) (work_continue chip) (cc_state chip) (cc1
    chip) (cc2 chip) (cc_polarity chip) v (caps_counter chip) (send_head chip)
    (send_load chip) (rec_head chip) (rec_load chip) (msg_id chip) (tx_state chip)
    (hardrst_count chip) (pos_power chip) (partner_cap chip) (n_caps_used chip)
    (source_power_supply chip) (source_max_current chip) (pd_cap_info chip) (vdm_state
    chip) (vdm_substate chip) (vdm_send_state chip) (vdm_svid chip) (vdm_svid_num chip)
    (vdm_id chip) (vconn_enabled chip) (vconn_supported chip) (is_pd_support chip)
    (pd_output_vol chip) (pd_output_cur chip) (vbus_begin chip) (timer_state chip)
    (timer_mux chip) (notify chip) (notify_cmp chip) (retry chip) (trace chip).

Definition with_caps_counter (v : Z) (chip : fusb30x_chip) : fusb30x_chip :=
  Build_fusb30x_chip (role chip) (try_role chip) (try_role_complete chip) (conn_state
    chip) (sub_state chip) (val_tmp chip) (work_continue chip) (cc_state chip) (cc1
    chip) (cc2 chip) (cc_polarity chip) (debounce_cnt chip) v (send_head chip)
    (send_load chip) (rec_head chip) (rec_load chip) (msg_id chip) (tx_state chip)
    (hardrst_count chip) (pos_power chip) (partner_cap chip) (n_caps_used chip)
    (source_power_supply chip) (source_max_current chip) (pd_cap_info chip) (vdm_state
    chip) (vdm_substate chip) (vdm_send_state chip) (vdm_svid chip) (vdm_svid_num chip)
    (vdm_id chip) (vconn_enabled chip) (vconn_supported chip) (is_pd_support chip)
    (pd_output_vol chip) (pd_output_cur chip) (vbus_begin chip) (timer_state chip)
    (timer_mux chip) (notify chip) (notify_cmp chip) (retry chip) (trace chip).

Definition with_send_head (v : Z) (chip : fusb30x_chip) : fusb30x_chip :=
  Build_fusb30x_chip (role chip) (try_role chip) (try_role_complete chip) (conn_state
    chip) (sub_state chip) (val_tmp chip) (work_continue chip) (cc_state chip) (cc1
    chip) (cc2 chip) (cc_polarity chip) (debounce_cnt chip) (caps_counter chip) v
    (send_load chip) (rec_head chip) (rec_load chip) (msg_id chip) (tx_state chip)
    (hardrst_count chip) (pos_power chip) (partner_cap chip) (n_caps_used chip)
    (source_power_supply chip) (source_max_current chip) (pd_cap_info chip) (vdm_state
    chip) (vdm_substate chip) (vdm_send_state chip) (vdm_svid chip) (vdm_svid_num chip)
    (vdm_id chip) (vconn_enabled chip) (vconn_supported chip) (is_pd_support chip)
    (pd_output_vol chip) (pd_output_cur chip) (vbus_begin chip) (timer_state chip)
    (timer_mux chip) (notify chip) (notify_cmp chip) (retry chip) (trace chip).

Definition with_send_load (v : list Z) (chip : fusb30x_chip) : fusb30x_chip :=
  Build_fusb30x_chip (role chip) (try_role chip) (try_role_complete chip) (conn_state
    chip) (sub_state chip) (val_tmp chip) (work_continue chip) (cc_state chip) (cc1
    chip) (cc2 chip) (cc_polarity chip) (debounce_cnt chip) (caps_counter chip)
    (send_head chip) v (rec_head chip) (rec_load chip) (msg_id chip) (tx_state chip)
    (hardrst_count chip) (pos_power chip) (partner_cap chip) (n_caps_used chip)
    (source_power_supply chip) (source_max_current chip) (pd_cap_info chip) (vdm_state
    chip) (vdm_substate chip) (vdm_send_state chip) (vdm_svid chip) (vdm_svid_num chip)
    (vdm_id chip) (vconn_enabled chip) (vconn_supported chip) (is_pd_support chip)
    (pd_output_vol chip) (pd_output_cur chip) (vbus_begin chip) (timer_state chip)
    (timer_mux chip) (notify chip) (notify_cmp chip) (retry chip) (trace chip).

Definition with_rec_head (v : Z) (chip : fusb30x_chip) : fusb30x_chip :=
  Build_fusb30x_chip (role chip) (try_role chip) (try_role_complete chip) (conn_state
    chip) (sub_state chip) (val_tmp chip) (work_continue chip) (cc_state chip) (cc1
    chip) (cc2 chip) (cc_polarity chip) (debounce_cnt chip) (caps_counter chip)
    (send_head chip) (send_load chip) v (rec_load chip) (msg_id chip) (tx_state chip)
    (hardrst_count chip) (pos_power chip) (partner_cap chip) (n_caps_used chip)
    (source_power_supply chip) (source_max_current chip) (pd_cap_info chip) (vdm_state
    chip) (vdm_substate chip) (vdm_send_state chip) (vdm_svid chip) (vdm_svid_num chip)
    (vdm_id chip) (vconn_enabled chip) (vconn_supported chip) (is_pd_support chip)
    (pd_output_vol chip) (pd_output_cur chip) (vbus_begin chip) (timer_state chip)
    (timer_mux chip) (notify chip) (notify_cmp chip) (retry chip) (trace chip).

Definition with_rec_load (v : list Z) (chip : fusb30x_chip) : fusb30x_chip :=
  Build_fusb30x_chip (role chip) (try_role chip) (try_role_complete chip) (conn_state
    chip) (sub_state chip) (val_tmp chip) (work_continue chip) (cc_state chip) (cc1
    chip) (cc2 chip) (cc_polarity chip) (debounce_cnt chip) (caps_counter chip)
    (send_head chip) (send_load chip) (rec_head chip) v (msg_id chip) (tx_state chip)
    (hardrst_count chip) (pos_power chip) (partner_cap chip) (n_caps_used chip)
    (source_power_supply chip) (source_max_current chip) (pd_cap_info chip) (vdm_state
    chip) (vdm_substate chip) (vdm_send_state chip) (vdm_svid chip) (vdm_svid_num chip)
    (vdm_id chip) (vconn_enabled chip) (vconn_supported chip) (is_pd_support chip)
    (pd_output_vol chip) (pd_output_cur chip) (vbus_begin chip) (timer_state chip)
    (timer_mux chip) (notify chip) (notify_cmp chip) (retry chip) (trace chip).

Definition with_msg_id (v : Z) (chip : fusb30x_chip) : fusb30x_chip :=
  Build_fusb30x_chip (role chip) (try_role chip) (try_role_complete chip) (conn_state
    chip) (sub_state chip) (val_tmp chip) (work_continue chip) (cc_state chip) (cc1
    chip) (cc2 chip) (cc_polarity chip) (debounce_cnt chip) (caps_counter chip)
    (send_head chip) (send_load chip) (rec_head chip) (rec_load chip) v (tx_state chip)
    (hardrst_count chip) (pos_power chip) (partner_cap chip) (n_caps_used chip)
    (source_power_supply chip) (source_max_current chip) (pd_cap_info chip) (vdm_state
    chip) (vdm_substate chip) (vdm_send_state chip) (vdm_svid chip) (vdm_svid_num chip)
    (vdm_id chip) (vconn_enabled chip) (vconn_supported chip) (is_pd_support chip)
    (pd_output_vol chip) (pd_output_cur chip) (vbus_begin chip) (timer_state chip)
    (timer_mux chip) (notify chip) (notify_cmp chip) (retry chip) (trace chip).

Definition with_tx_state (v : tx_state_t) (chip : fusb30x_chip) : fusb30x_chip :=
  Build_fusb30x_chip (role chip) (try_role chip) (try_role_complete chip) (conn_state
    chip) (sub_state chip) (val_tmp chip) (work_continue chip) (cc_state chip) (cc1
    chip) (cc2 chip) (cc_polarity chip) (debounce_cnt chip) (caps_counter chip)
    (send_head chip) (send_load chip) (rec_head chip) (rec_load chip) (msg_id chip) v
    (hardrst_count chip) (pos_power chip) (partner_cap chip) (n_caps_used chip)
    (source_power_supply chip) (source_max_current chip) (pd_cap_info chip) (vdm_state
    chip) (vdm_substate chip) (vdm_send_state chip) (vdm_svid chip) (vdm_svid_num chip)
    (vdm_id chip) (vconn_enabled chip) (vconn_supported chip) (is_pd_support chip)
    (pd_output_vol chip) (pd_output_cur chip) (vbus_begin chip) (timer_state chip)
    (timer_mux chip) (notify chip) (notify_cmp chip) (retry chip) (trace chip).

Definition with_hardrst_count (v : Z) (chip : fusb30x_chip) : fusb30x_chip :=
  Build_fusb30x_chip (role chip) (try_role chip) (try_role_complete chip) (conn_state
    chip) (sub_state chip) (val_tmp chip) (work_continue chip) (cc_state chip) (cc1
    chip) (cc2 chip) (cc_polarity chip) (debounce_cnt chip) (caps_counter chip)
    (send_head chip) (send_load chip) (rec_head chip) (rec_load chip) (msg_id chip)
    (tx_state chip) v (pos_power chip) (partner_cap chip) (n_caps_used chip)
    (source_power_supply chip) (source_max_current chip) (pd_cap_info chip) (vdm_state
    chip) (vdm_substate chip) (vdm_send_state chip) (vdm_svid chip) (vdm_svid_num chip)
    (vdm_id chip) (vconn_enabled chip) (vconn_supported chip) (is_pd_support chip)
    (pd_output_vol chip) (pd_output_cur chip) (vbus_begin chip) (timer_state chip)
    (timer_mux chip) (notify chip) (notify_cmp chip) (retry chip) (trace chip).

Definition with_pos_power (v : Z) (chip : fusb30x_chip) : fusb30x_chip :=
  Build_fusb30x_chip (role chip) (try_role chip) (try_role_complete chip) (conn_state
    chip) (sub_state chip) (val_tmp chip) (work_continue chip) (cc_state chip) (cc1
    chip) (cc2 chip) (cc_polarity chip) (debounce_cnt chip) (caps_counter chip)
    (send_head chip) (send_load chip) (rec_head chip) (rec_load chip) (msg_id chip)
    (tx_state chip) (hardrst_count chip) v (partner_cap chip) (n_caps_used chip)
    (source_power_supply chip) (source_max_current chip) (pd_cap_info chip) (vdm_state
    chip) (vdm_substate chip) (vdm_send_state chip) (vdm_svid chip) (vdm_svid_num chip)
    (vdm_id chip) (vconn_enabled chip) (vconn_supported chip) (is_pd_support chip)
    (pd_output_vol chip) (pd_output_cur chip) (vbus_begin chip) (timer_state chip)
    (timer_mux chip) (notify chip) (notify_cmp chip) (retry chip) (trace chip).

Definition with_partner_cap (v : list Z) (chip : fusb30x_chip) : fusb30x_chip :=
  Build_fusb30x_chip (role chip) (try_role chip) (try_role_complete chip) (conn_state
    chip) (sub_state chip) (val_tmp chip) (work_continue chip) (cc_state chip) (cc1
    chip) (cc2 chip) (cc_polarity chip) (debounce_cnt chip) (caps_counter chip)
    (send_head chip) (send_load chip) (rec_head chip) (rec_load chip) (msg_id chip)
    (tx_state chip) (hardrst_count chip) (pos_power chip) v (n_caps_used chip)
    (source_power_supply chip) (source_max_current chip) (pd_cap_info chip) (vdm_state
    chip) (vdm_substate chip) (vdm_send_state chip) (vdm_svid chip) (vdm_svid_num chip)
    (vdm_id chip) (vconn_enabled chip) (vconn_supported chip) (is_pd_support chip)
    (pd_output_vol chip) (pd_output_cur chip) (vbus_begin chip) (timer_state chip)
    (timer_mux chip) (notify chip) (notify_cmp chip) (retry chip) (trace chip).

Definition with_vdm_state (v : Z) (chip : fusb30x_chip) : fusb30x_chip :=
  Build_fusb30x_chip (role chip) (try_role chip) (try_role_complete chip) (conn_state
    chip) (sub_state chip) (val_tmp chip) (work_continue chip) (cc_state chip) (cc1
    chip) (cc2 chip) (cc_polarity chip) (debounce_cnt chip) (caps_counter chip)
    (send_head chip) (send_load chip) (rec_head chip) (rec_load chip) (msg_id chip)
    (tx_state chip) (hardrst_count chip) (pos_power chip) (partner_cap chip)
    (n_caps_used chip) (source_power_supply chip) (source_max_current chip) (pd_cap_info
    chip) v (vdm_substate chip) (vdm_send_state chip) (vdm_svid chip) (vdm_svid_num
    chip) (vdm_id chip) (vconn_enabled chip) (vconn_supported chip) (is_pd_support chip)
    (pd_output_vol chip) (pd_output_cur chip) (vbus_begin chip) (timer_state chip)
    (timer_mux chip) (notify chip) (notify_cmp chip) (retry chip) (trace chip).

Definition with_vdm_substate (v : Z) (chip : fusb30x_chip) : fusb30x_chip :=
  Build_fusb30x_chip (role chip) (try_role chip) (try_role_complete chip) (conn_state
    chip) (sub_state chip) (val_tmp chip) (work_continue chip) (cc_state chip) (cc1
    chip) (cc2 chip) (cc_polarity chip) (debounce_cnt chip) (caps_counter chip)
    (send_head chip) (send_load chip) (rec_head chip) (rec_load chip) (msg_id chip)
    (tx_state chip) (hardrst_count chip) (pos_power chip) (partner_cap chip)
    (n_caps_used chip) (source_power_supply chip) (source_max_current chip) (pd_cap_info
    chip) (vdm_state chip) v (vdm_send_state chip) (vdm_svid chip) (vdm_svid_num chip)
    (vdm_id chip) (vconn_enabled chip) (vconn_supported chip) (is_pd_support chip)
    (pd_output_vol chip) (pd_output_cur chip) (vbus_begin chip) (timer_state chip)
    (timer_mux chip) (notify chip) (notify_cmp chip) (retry chip) (trace chip).

Definition with_vdm_send_state (v : Z) (chip : fusb30x_chip) : fusb30x_chip :=
  Build_fusb30x_chip (role chip) (try_role chip) (try_role_complete chip) (conn_state
    chip) (sub_state chip) (val_tmp chip) (work_continue chip) (cc_state chip) (cc1
    chip) (cc2 chip) (cc_polarity chip) (debounce_cnt chip) (caps_counter chip)
    (send_head chip) (send_load chip) (rec_head chip) (rec_load chip) (msg_id chip)
    (tx_state chip) (hardrst_count chip) (pos_power chip) (partner_cap chip)
    (n_caps_used chip) (source_power_supply chip) (source_max_current chip) (pd_cap_info
    chip) (vdm_state chip) (vdm_substate chip) v (vdm_svid chip) (vdm_svid_num chip)
    (vdm_id chip) (vconn_enabled chip) (vconn_supported chip) (is_pd_support chip)
    (pd_output_vol chip) (pd_output_cur chip) (vbus_begin chip) (timer_state chip)
    (timer_mux chip) (notify chip) (notify_cmp chip) (retry chip) (trace chip).

Definition with_vdm_svid (v : list Z) (chip : fusb30x_chip) : fusb30x_chip :=
  Build_fusb30x_chip (role chip) (try_role chip) (try_role_complete chip) (conn_state
    chip) (sub_state chip) (val_tmp chip) (work_continue chip) (cc_state chip) (cc1
    chip) (cc2 chip) (cc_polarity chip) (debounce_cnt chip) (caps_counter chip)
    (send_head chip) (send_load chip) (rec_head chip) (rec_load chip) (msg_id chip)
    (tx_state chip) (hardrst_count chip) (pos_power chip) (partner_cap chip)
    (n_caps_used chip) (source_power_supply chip) (source_max_current chip) (pd_cap_info
    chip) (vdm_state chip) (vdm_substate chip) (vdm_send_state chip) v (vdm_svid_num
    chip) (vdm_id chip) (vconn_enabled chip) (vconn_supported chip) (is_pd_support chip)
    (pd_output_vol chip) (pd_output_cur chip) (vbus_begin chip) (timer_state chip)
    (timer_mux chip) (notify chip) (notify_cmp chip) (retry chip) (trace chip).

Definition with_vdm_svid_num (v : Z) (chip : fusb30x_chip) : fusb30x_chip :=
  Build_fusb30x_chip (role chip) (try_role chip) (try_role_complete chip) (conn_state
    chip) (sub_state chip) (val_tmp chip) (work_continue chip) (cc_state chip) (cc1
    chip) (cc2 chip) (cc_polarity chip) (debounce_cnt chip) (caps_counter chip)
    (send_head chip) (send_load chip) (rec_head chip) (rec_load chip) (msg_id chip)
    (tx_state chip) (hardrst_count chip) (pos_power chip) (partner_cap chip)
    (n_caps_used chip) (source_power_supply chip) (source_max_current chip) (pd_cap_info
    chip) (vdm_state chip) (vdm_substate chip) (vdm_send_state chip) (vdm_svid chip) v
    (vdm_id chip) (vconn_enabled chip) (vconn_supported chip) (is_pd_support chip)
    (pd_output_vol chip) (pd_output_cur chip) (vbus_begin chip) (timer_state chip)
    (timer_mux chip) (notify chip) (notify_cmp chip) (retry chip) (trace chip).

Definition with_vdm_id (v : Z) (chip : fusb30x_chip) : fusb30x_chip :=
  Build_fusb30x_chip (role chip) (try_role chip) (try_role_complete chip) (conn_state
    chip) (sub_state chip) (val_tmp chip) (work_continue chip) (cc_state chip) (cc1
    chip) (cc2 chip) (cc_polarity chip) (debounce_cnt chip) (caps_counter chip)
    (send_head chip) (send_load chip) (rec_head chip) (rec_load chip) (msg_id chip)
    (tx_state chip) (hardrst_count chip) (pos_power chip) (partner_cap chip)
    (n_caps_used chip) (source_power_supply chip) (source_max_current chip) (pd_cap_info
    chip) (vdm_state chip) (vdm_substate chip) (vdm_send_state chip) (vdm_svid chip)
    (vdm_svid_num chip) v (vconn_enabled chip) (vconn_supported chip) (is_pd_support
    chip) (pd_output_vol chip) (pd_output_cur chip) (vbus_begin chip) (timer_state chip)
    (timer_mux chip) (notify chip) (notify_cmp chip) (retry chip) (trace chip).

Definition with_vconn_enabled (v : bool) (chip : fusb30x_chip) : fusb30x_chip :=
  Build_fusb30x_chip (role chip) (try_role chip) (try_role_complete chip) (conn_state
    chip) (sub_state chip) (val_tmp chip) (work_continue chip) (cc_state chip) (cc1
    chip) (cc2 chip) (cc_polarity chip) (debounce_cnt chip) (caps_counter chip)
    (send_head chip) (send_load chip) (rec_head chip) (rec_load chip) (msg_id chip)
    (tx_state chip) (hardrst_count chip) (pos_power chip) (partner_cap chip)
    (n_caps_used chip) (source_power_supply chip) (source_max_current chip) (pd_cap_info
    chip) (vdm_state chip) (vdm_substate chip) (vdm_send_state chip) (vdm_svid chip)
    (vdm_svid_num chip) (vdm_id chip) v (vconn_supported chip) (is_pd_support chip)
    (pd_output_vol chip) (pd_output_cur chip) (vbus_begin chip) (timer_state chip)
    (timer_mux chip) (notify chip) (notify_cmp chip) (retry chip) (trace chip).

Definition with_is_pd_support (v : bool) (chip : fusb30x_chip) : fusb30x_chip :=
  Build_fusb30x_chip (role chip) (try_role chip) (try_role_complete chip) (conn_state
    chip) (sub_state chip) (val_tmp chip) (work_continue chip) (cc_state chip) (cc1
    chip) (cc2 chip) (cc_polarity chip) (debounce_cnt chip) (caps_counter chip)
    (send_head chip) (send_load chip) (rec_head chip) (rec_load chip) (msg_id chip)
    (tx_state chip) (hardrst_count chip) (pos_power chip) (partner_cap chip)
    (n_caps_used chip) (source_power_supply chip) (source_max_current chip) (pd_cap_info
    chip) (vdm_state chip) (vdm_substate chip) (vdm_send_state chip) (vdm_svid chip)
    (vdm_svid_num chip) (vdm_id chip) (vconn_enabled chip) (vconn_supported chip) v
    (pd_output_vol chip) (pd_output_cur chip) (vbus_begin chip) (timer_state chip)
    (timer_mux chip) (notify chip) (notify_cmp chip) (retry chip) (trace chip).

Definition with_pd_output_vol (v : Z) (chip : fusb30x_chip) : fusb30x_chip :=
  Build_fusb30x_chip (role chip) (try_role chip) (try_role_complete chip) (conn_state
    chip) (sub_state chip) (val_tmp chip) (work_continue chip) (cc_state chip) (cc1
    chip) (cc2 chip) (cc_polarity chip) (debounce_cnt chip) (caps_counter chip)
    (send_head chip) (send_load chip) (rec_head chip) (rec_load chip) (msg_id chip)
    (tx_state chip) (hardrst_count chip) (pos_power chip) (partner_cap chip)
    (n_caps_used chip) (source_power_supply chip) (source_max_current chip) (pd_cap_info
    chip) (vdm_state chip) (vdm_substate chip) (vdm_send_state chip) (vdm_svid chip)
    (vdm_svid_num chip) (vdm_id chip) (vconn_enabled chip) (vconn_supported chip)
    (is_pd_support chip) v (pd_output_cur chip) (vbus_begin chip) (timer_state chip)
    (timer_mux chip) (notify chip) (notify_cmp chip) (retry chip) (trace chip).

Definition with_pd_output_cur (v : Z) (chip : fusb30x_chip) : fusb30x_chip :=
  Build_fusb30x_chip (role chip) (try_role chip) (try_role_complete chip) (conn_state
    chip) (sub_state chip) (val_tmp chip) (work_continue chip) (cc_state chip) (cc1
    chip) (cc2 chip) (cc_polarity chip) (debounce_cnt chip) (caps_counter chip)
    (send_head chip) (send_load chip) (rec_head chip) (rec_load chip) (msg_id chip)
    (tx_state chip) (hardrst_count chip) (pos_power chip) (partner_cap chip)
    (n_caps_used chip) (source_power_supply chip) (source_max_current chip) (pd_cap_info
    chip) (vdm_state chip) (vdm_substate chip) (vdm_send_state chip) (vdm_svid chip)
    (vdm_svid_num chip) (vdm_id chip) (vconn_enabled chip) (vconn_supported chip)
    (is_pd_support chip) (pd_output_vol chip) v (vbus_begin chip) (timer_state chip)
    (timer_mux chip) (notify chip) (notify_cmp chip) (retry chip) (trace chip).

Definition with_vbus_begin (v : bool) (chip : fusb30x_chip) : fusb30x_chip :=
  Build_fusb30x_chip (role chip) (try_role chip) (try_role_complete chip) (conn_state
    chip) (sub_state chip) (val_tmp chip) (work_continue chip) (cc_state chip) (cc1
    chip) (cc2 chip) (cc_polarity chip) (debounce_cnt chip) (caps_counter chip)
    (send_head chip) (send_load chip) (rec_head chip) (rec_load chip) (msg_id chip)
    (tx_state chip) (hardrst_count chip) (pos_power chip) (partner_cap chip)
    (n_caps_used chip) (source_power_supply chip) (source_max_current chip) (pd_cap_info
    chip) (vdm_state chip) (vdm_substate chip) (vdm_send_state chip) (vdm_svid chip)
    (vdm_svid_num chip) (vdm_id chip) (vconn_enabled chip) (vconn_supported chip)
    (is_pd_support chip) (pd_output_vol chip) (pd_output_cur chip) v (timer_state chip)
    (timer_mux chip) (notify chip) (notify_cmp chip) (retry chip) (trace chip).

Definition with_timer_state (v : Z) (chip : fusb30x_chip) : fusb30x_chip :=
  Build_fusb30x_chip (role chip) (try_role chip) (try_role_complete chip) (conn_state
    chip) (sub_state chip) (val_tmp chip) (work_continue chip) (cc_state chip) (cc1
    chip) (cc2 chip) (cc_polarity chip) (debounce_cnt chip) (caps_counter chip)
    (send_head chip) (send_load chip) (rec_head chip) (rec_load chip) (msg_id chip)
    (tx_state chip) (hardrst_count chip) (pos_power chip) (partner_cap chip)
    (n_caps_used chip) (source_power_supply chip) (source_max_current chip) (pd_cap_info
    chip) (vdm_state chip) (vdm_substate chip) (vdm_send_state chip) (vdm_svid chip)
    (vdm_svid_num chip) (vdm_id chip) (vconn_enabled chip) (vconn_supported chip)
    (is_pd_support chip) (pd_output_vol chip) (pd_output_cur chip) (vbus_begin chip) v
    (timer_mux chip) (notify chip) (notify_cmp chip) (retry chip) (trace chip).

Definition with_timer_mux (v : Z) (chip : fusb30x_chip) : fusb30x_chip :=
  Build_fusb30x_chip (role chip) (try_role chip) (try_role_complete chip) (conn_state
    chip) (sub_state chip) (val_tmp chip) (work_continue chip) (cc_state chip) (cc1
    chip) (cc2 chip) (cc_polarity chip) (debounce_cnt chip) (caps_counter chip)
    (send_head chip) (send_load chip) (rec_head chip) (rec_load chip) (msg_id chip)
    (tx_state chip) (hardrst_count chip) (pos_power chip) (partner_cap chip)
    (n_caps_used chip) (source_power_supply chip) (source_max_current chip) (pd_cap_info
    chip) (vdm_state chip) (vdm_substate chip) (vdm_send_state chip) (vdm_svid chip)
    (vdm_svid_num chip) (vdm_id chip) (vconn_enabled chip) (vconn_supported chip)
    (is_pd_support chip) (pd_output_vol chip) (pd_output_cur chip) (vbus_begin chip)
    (timer_state chip) v (notify chip) (notify_cmp chip) (retry chip) (trace chip).

Definition with_notify (v : notify_info) (chip : fusb30x_chip) : fusb30x_chip :=
  Build_fusb30x_chip (role chip) (try_role chip) (try_role_complete chip) (conn_state
    chip) (sub_state chip) (val_tmp chip) (work_continue chip) (cc_state chip) (cc1
    chip) (cc2 chip) (cc_polarity chip) (debounce_cnt chip) (caps_counter chip)
    (send_head chip) (send_load chip) (rec_head chip) (rec_load chip) (msg_id chip)
    (tx_state chip) (hardrst_count chip) (pos_power chip) (partner_cap chip)
    (n_caps_used chip) (source_power_supply chip) (source_max_current chip) (pd_cap_info
    chip) (vdm_state chip) (vdm_substate chip) (vdm_send_state chip) (vdm_svid chip)
    (vdm_svid_num chip) (vdm_id chip) (vconn_enabled chip) (vconn_supported chip)
    (is_pd_support chip) (pd_output_vol chip) (pd_output_cur chip) (vbus_begin chip)
    (timer_state chip) (timer_mux chip) v (notify_cmp chip) (retry chip) (trace chip).

Definition with_notify_cmp (v : notify_info) (chip : fusb30x_chip) : fusb30x_chip :=
  Build_fusb30x_chip (role chip) (try_role chip) (try_role_complete chip) (conn_state
    chip) (sub_state chip) (val_tmp chip) (work_continue chip) (cc_state chip) (cc1
    chip) (cc2 chip) (cc_polarity chip) (debounce_cnt chip) (caps_counter chip)
    (send_head chip) (send_load chip) (rec_head chip) (rec_load chip) (msg_id chip)
    (tx_state chip) (hardrst_count chip) (pos_power chip) (partner_cap chip)
    (n_caps_used chip) (source_power_supply chip) (source_max_current chip) (pd_cap_info
    chip) (vdm_state chip) (vdm_substate chip) (vdm_send_state chip) (vdm_svid chip)
    (vdm_svid_num chip) (vdm_id chip) (vconn_enabled chip) (vconn_supported chip)
    (is_pd_support chip) (pd_output_vol chip) (pd_output_cur chip) (vbus_begin chip)
    (timer_state chip) (timer_mux chip) (notify chip) v (retry chip) (trace chip).

Definition with_retry (v : bool) (chip : fusb30x_chip) : fusb30x_chip :=
  Build_fusb30x_chip (role chip) (try_role chip) (try_role_complete chip) (conn_state
    chip) (sub_state chip) (val_tmp chip) (work_continue chip) (cc_state chip) (cc1
    chip) (cc2 chip) (cc_polarity chip) (debounce_cnt chip) (caps_counter chip)
    (send_head chip) (send_load chip) (rec_head chip) (rec_load chip) (msg_id chip)
    (tx_state chip) (hardrst_count chip) (pos_power chip) (partner_cap chip)
    (n_caps_used chip) (source_power_supply chip) (source_max_current chip) (pd_cap_info
    chip) (vdm_state chip) (vdm_substate chip) (vdm_send_state chip) (vdm_svid chip)
    (vdm_svid_num chip) (vdm_id chip) (vconn_enabled chip) (vconn_supported chip)
    (is_pd_support chip) (pd_output_vol chip) (pd_output_cur chip) (vbus_begin chip)
    (timer_state chip) (timer_mux chip) (notify chip) (notify_cmp chip) v (trace chip).

Definition with_trace (v : list output) (chip : fusb30x_chip) : fusb30x_chip :=
  Build_fusb30x_chip (role chip) (try_role chip) (try_role_complete chip) (conn_state
    chip) (sub_state chip) (val_tmp chip) (work_continue chip) (cc_state chip) (cc1
    chip) (cc2 chip) (cc_polarity chip) (debounce_cnt chip) (caps_counter chip)
    (send_head chip) (send_load chip) (rec_head chip) (rec_load chip) (msg_id chip)
    (tx_state chip) (hardrst_count chip) (pos_power chip) (partner_cap chip)
    (n_caps_used chip) (source_power_supply chip) (source_max_current chip) (pd_cap_info
    chip) (vdm_state chip) (vdm_substate chip) (vdm_send_state chip) (vdm_svid chip)
    (vdm_svid_num chip) (vdm_id chip) (vconn_enabled chip) (vconn_supported chip)
    (is_pd_support chip) (pd_output_vol chip) (pd_output_cur chip) (vbus_begin chip)
    (timer_state chip) (timer_mux chip) (notify chip) (notify_cmp chip) (retry chip) v.


(** ** Helpers of the embedding *)

Definition notify_info_eqb (a b : notify_info) : bool :=
  orientation_eqb (orientation a) (orientation b)
  && Bool.eqb (is_source (power_role a)) (is_source (power_role b))
  && Bool.eqb (is_dfp (data_role a)) (is_dfp (data_role b))
  && Bool.eqb (is_cc_connected a) (is_cc_connected b)
  && Bool.eqb (is_pd_connected a) (is_pd_connected b)
  && Bool.eqb (is_enter_mode a) (is_enter_mode b)
  && (pin_assignment_support a =? pin_assignment_support b)
  && (pin_assignment_def a =? pin_assignment_def b)
  && Bool.eqb (attention a) (attention b)
  && (dp_status a =? dp_status b)
  && (dp_caps a =? dp_caps b).

(** [memset(&chip->notify, 0, sizeof(struct notify_info))]. *)
Definition notify_zero : notify_info := {|
  orientation := TYPEC_ORIENTATION_NONE;
  power_role := POWER_ROLE_SINK;
  data_role := DATA_ROLE_UFP;
  is_cc_connected := false;
  is_pd_connected := false;
  is_enter_mode := false;
  pin_assignment_support := 0;
  pin_assignment_def := 0;
  attention := false;
  dp_status := 0;
  dp_caps := 0
|}.

(** Reading [a[i]] of a C array kept as a list.  An index outside the
    array (the code has one: [rec_load[pos_power - 1]] with [pos_power]
    0 in [set_mesg]) reads 0 in the model. *)
Definition load_nth (l : list Z) (i : Z) : Z :=
  if i <? 0 then 0 else nth (Z.to_nat i) l 0.

Fixpoint list_set (l : list Z) (i : nat) (v : Z) : list Z :=
  match l, i with
  | [], _ => []
  | _ :: t, O => v :: t
  | x :: t, S j => x :: list_set t j v
  end.

(** Writing [a[i] = v]; the model ignores a store outside the array. *)
Definition load_set (l : list Z) (i : Z) (v : Z) : list Z :=
  if i <? 0 then l else list_set l (Z.to_nat i) v.

Definition emit (o : output) (chip : fusb30x_chip) : fusb30x_chip :=
  with_trace (trace chip ++ [o]) chip.

(** Little-endian 32-bit words of a byte buffer, as [memcpy] into a
    [u32] array lays them out. *)
Definition le32 (b0 b1 b2 b3 : Z) : Z :=
  Z.lor (Z.lor b0 (Z.shiftl b1 8)) (Z.lor (Z.shiftl b2 16) (Z.shiftl b3 24)).

Fixpoint words_of_bytes (n : nat) (buf : list Z) : list Z :=
  match n with
  | O => []
  | S k =>
      le32 (nth 0 buf 0) (nth 1 buf 0) (nth 2 buf 0) (nth 3 buf 0)
      :: words_of_bytes k (skipn 4 buf)
  end.

(** [regmap_raw_read(chip->regmap, FUSB_REG_FIFO, buf, n)]: the next [n]
    bytes of the receive FIFO; an empty FIFO reads as zero bytes. *)
Definition fifo_read (fifo : list Z) (n : nat) : list Z * list Z :=
  (map (fun b => Z.land b 0xff) (firstn n (fifo ++ repeat 0 n)), skipn n fifo).

(** ** What a tick reads from the hardware *)

(** The comparator readings one call of [tcpm_get_cc] can take:
    [STATUS0_BC_LVL] non-zero with the pull-downs on and the measure
    block on CC1 / CC2, and [STATUS0_COMP] against [cc_meas_high] and
    [cc_meas_low] with the pull-up on CC1 / CC2. *)
Record cc_meas : Type := {
  bc_lvl_cc1 : bool;
  bc_lvl_cc2 : bool;
  comp_high_cc1 : bool;
  comp_low_cc1 : bool;
  comp_high_cc2 : bool;
  comp_low_cc2 : bool
}.

(** The reads of one tick.  [interrupt_*], [interrupta_*] and
    [interruptb_*] say whether the bit is set in the interrupt register
    read by [tcpc_alert]; [alert_comp] and [status1a] are its reads of
    [STATUS0_COMP] and of [FUSB_REG_STATUS1A].  [detach_cc] and
    [detach_vbus] are what [fusb_try_detach] measures, [state_cc] and
    [state_vbus] what the state handler measures.  [rx_fifo] is the
    content of the receive FIFO and [charge_dev] the limits
    (max_vol, max_cur) of the charger, if there is one. *)
Record hw_inputs : Type := {
  interrupt_comp_chng : bool;
  interrupt_vbusok : bool;
  interrupta_togdone : bool;
  interrupta_txsent : bool;
  interrupta_hardrst : bool;
  interrupta_retryfail : bool;
  interrupta_hardsent : bool;
  interruptb_gcrcsent : bool;
  alert_comp : bool;
  status1a : Z;
  detach_cc : cc_meas;
  detach_vbus : bool;
  state_cc : cc_meas;
  state_vbus : bool;
  rx_fifo : list Z;
  charge_dev : option (Z * Z)
}.

Definition cc_meas_none : cc_meas := {|
  bc_lvl_cc1 := false; bc_lvl_cc2 := false;
  comp_high_cc1 := false; comp_low_cc1 := false;
  comp_high_cc2 := false; comp_low_cc2 := false
|}.

(** A tick with no interrupt pending and nothing to measure. *)
Definition hw_quiet : hw_inputs := {|
  interrupt_comp_chng := false;
  interrupt_vbusok := false;
  interrupta_togdone := false;
  interrupta_txsent := false;
  interrupta_hardrst := false;
  interrupta_retryfail := false;
  interrupta_hardsent := false;
  interruptb_gcrcsent := false;
  alert_comp := false;
  status1a := 0;
  detach_cc := cc_meas_none;
  detach_vbus := false;
  state_cc := cc_meas_none;
  state_vbus := false;
  rx_fifo := [];
  charge_dev := None
|}.

(** ** The functions of fusb302.c, in the order of the file *)

Section Machine.

Variable h : fusb302_h.

Definition CC_STATE_ROLE (chip : fusb30x_chip) : Z :=
  Z.land (cc_state chip) (CC_STATE_TOGSS_ROLE h).

(** The loop of [fusb_set_pos_power], from index [n - 1] down to 0,
    leaving at the first PDO that fits. *)
Fixpoint fusb_set_pos_power_from (n : nat) (max_vol max_cur : Z)
    (chip : fusb30x_chip) : fusb30x_chip :=
  match n with
  | O => chip
  | S i =>
      let pdo := load_nth (rec_load chip) (Z.of_nat i) in
      let take (vol cur : Z) :=
        let chip := with_pos_power (Z.of_nat i + 1) chip in
        let chip := with_pd_output_vol (vol * 50) chip in
        with_pd_output_cur (cur * 10) chip in
      if CAP_POWER_TYPE pdo =? 0 then
        (* Fixed Supply *)
        if (CAP_FPDO_VOLTAGE pdo * 50 <=? max_vol)
           && (CAP_FPDO_CURRENT pdo * 10 <=? max_cur)
        then take (CAP_FPDO_VOLTAGE pdo) (CAP_FPDO_CURRENT pdo)
        else fusb_set_pos_power_from i max_vol max_cur chip
      else if CAP_POWER_TYPE pdo =? 1 then
        (* Battery *)
        if (CAP_VPDO_VOLTAGE pdo * 50 <=? max_vol)
           && (CAP_VPDO_CURRENT pdo * 10 <=? max_cur)
        then take (CAP_VPDO_VOLTAGE pdo) (CAP_VPDO_CURRENT pdo)
        else fusb_set_pos_power_from i max_vol max_cur chip
      else fusb_set_pos_power_from i max_vol max_cur chip
  end.

Definition fusb_set_pos_power (max_vol max_cur : Z) (chip : fusb30x_chip)
    : fusb30x_chip :=
  fusb_set_pos_power_from (Z.to_nat (PD_HEADER_CNT (rec_head chip)))
    max_vol max_cur chip.

(** [charge] is [None] when there is no "charge-dev" power supply, and
    otherwise the limits read from it (0 for a property that could not
    be read). *)
Definition fusb302_set_pos_power_by_charge_ic (charge : option (Z * Z))
    (chip : fusb30x_chip) : fusb30x_chip :=
  match charge with
  | None => chip
  | Some (max_vol, max_cur) =>
      if (0 <? max_vol) && (0 <? max_cur)
      then fusb_set_pos_power max_vol max_cur chip
      else chip
  end.

(** The extcon values computed from a snapshot. *)
Definition extcon_of (chip : fusb30x_chip) : extcon_update :=
  let n := notify chip in
  let plugged := is_cc_connected n || is_pd_connected n in
  let flip :=
    if orientation_eqb (orientation n) TYPEC_ORIENTATION_NONE then false
    else negb (orientation_eqb (orientation n) TYPEC_ORIENTATION_CC1) in
  let dp := is_enter_mode n in
  let dfp := dp || is_dfp (data_role n) in
  let ufp := negb dp && negb (is_dfp (data_role n)) && plugged in
  let usb_ss :=
    if dp then truthy (Z.land (pin_assignment_def n) MODE_DP_PIN_MF_MASK)
    else is_dfp (data_role n) || plugged in
  let hpd := dp && truthy (GET_DP_STATUS_HPD (dp_status n)) in
  {| ext_flip := flip;
     ext_usb_ss := usb_ss;
     ext_usb := ufp;
     ext_usb_host := dfp;
     ext_disp_dp := dp && hpd;
     ext_chg_usb_fast :=
       if negb (is_source (power_role n)) && is_pd_connected n
          && (0 <? pd_output_vol chip) && (0 <? pd_output_cur chip)
       then Some (Z.lor (Z.shiftl (pd_output_cur chip) 15) (pd_output_vol chip))
       else None |}.

(** [memcmp] over [struct notify_info] is equality of every field: the
    two structs live in the zero-allocated port context, the code writes
    them field by field or copies one onto the other, so their padding
    bytes agree. *)
Definition platform_fusb_notify (chip : fusb30x_chip) : fusb30x_chip :=
  let chip :=
    if is_cc_connected (notify chip) then
      with_notify
        (notify_with_orientation
           (match cc_polarity chip with
            | TYPEC_POLARITY_CC1 => TYPEC_ORIENTATION_CC1
            | TYPEC_POLARITY_CC2 => TYPEC_ORIENTATION_CC2
            end) (notify chip)) chip
    else chip in
  (* avoid notify repeated *)
  if notify_info_eqb (notify chip) (notify_cmp chip) then chip
  else
    let chip := with_notify (notify_with_attention false (notify chip)) chip in
    let chip := with_notify_cmp (notify chip) chip in
    emit (OutNotify (notify chip) (extcon_of chip)) chip.

Definition platform_set_vbus_lvl_enable (vbus_5v vbus_other : bool)
    (chip : fusb30x_chip) : fusb30x_chip :=
  emit (OutVbus vbus_5v vbus_other) chip.

Definition set_state (state : connection_state) (chip : fusb30x_chip)
    : fusb30x_chip :=
  let chip := with_conn_state state chip in
  let chip := with_sub_state 0 chip in
  let chip := with_val_tmp 0 chip in
  with_work_continue (Z.lor (work_continue chip) EVENT_WORK_CONTINUE) chip.

(** The do-while loop of [tcpm_get_message]: read the 3-byte header
    peek, then the data objects and the CRC, and again while the frame
    is a GoodCRC.  The result is the header, the buffer of the last
    frame and what is left in the FIFO.  [fuel] bounds the iterations;
    [S (length fifo)] is enough, see [tcpm_get_message_loop_fuel]. *)
Fixpoint tcpm_get_message_loop (fuel : nat) (fifo : list Z)
    : Z * list Z * list Z :=
  let '(buf, fifo1) := fifo_read fifo 3 in
  let head :=
    Z.lor (Z.land (nth 1 buf 0) 0xff)
          (Z.land (Z.shiftl (nth 2 buf 0) 8) 0xff00) in
  let len := Z.shiftl (PD_HEADER_CNT head) 2 in
  let '(buf, fifo2) := fifo_read fifo1 (Z.to_nat (len + 4)) in
  match fuel with
  | O => (head, buf, fifo2)
  | S fuel' =>
      (* ignore good_crc message *)
      if PACKET_IS_CONTROL_MSG head CMT_GOODCRC
      then tcpm_get_message_loop fuel' fifo2
      else (head, buf, fifo2)
  end.

Definition tcpm_get_message (fifo : list Z) (chip : fusb30x_chip)
    : fusb30x_chip :=
  let '(head, buf, _) := tcpm_get_message_loop (S (length fifo)) fifo in
  let chip := with_rec_head head chip in
  let cnt := Z.to_nat (PD_HEADER_CNT head) in
  (* memcpy(chip->rec_load, buf, len) *)
  with_rec_load (words_of_bytes cnt buf ++ skipn cnt (rec_load chip)) chip.

(** [tcpm_get_cc_pull_up] returns OPEN when the comparator is above
    [cc_meas_high] (the three retries never change the result), else RD
    or RA by the comparison with [cc_meas_low]. *)
Definition tcpm_get_cc_pull_up (comp_high comp_low : bool) : Z :=
  if comp_high then TYPEC_CC_VOLT_OPEN
  else if comp_low then TYPEC_CC_VOLT_RD else TYPEC_CC_VOLT_RA.

Definition tcpm_get_cc_pull_down (bc_lvl : bool) : Z :=
  if bc_lvl then TYPEC_CC_VOLT_RP else TYPEC_CC_VOLT_OPEN.

Definition tcpm_get_cc (chip : fusb30x_chip) (m : cc_meas) : Z * Z :=
  if CC_STATE_ROLE chip =? CC_STATE_TOGSS_IS_UFP h then
    (tcpm_get_cc_pull_down (bc_lvl_cc1 m), tcpm_get_cc_pull_down (bc_lvl_cc2 m))
  else if CC_STATE_ROLE chip =? CC_STATE_TOGSS_IS_DFP h then
    if has (cc_state chip) (CC_STATE_TOGSS_CC1 h)
    then (tcpm_get_cc_pull_up (comp_high_cc1 m) (comp_low_cc1 m), TYPEC_CC_VOLT_OPEN)
    else (TYPEC_CC_VOLT_OPEN, tcpm_get_cc_pull_up (comp_high_cc2 m) (comp_low_cc2 m))
  else
    (tcpm_get_cc_pull_up (comp_high_cc1 m) (comp_low_cc1 m),
     tcpm_get_cc_pull_up (comp_high_cc2 m) (comp_low_cc2 m)).

Definition tcpm_set_polarity (polarity : typec_cc_polarity)
    (chip : fusb30x_chip) : fusb30x_chip :=
  with_cc_polarity polarity chip.

Definition tcpm_set_vconn (enable : bool) (chip : fusb30x_chip)
    : fusb30x_chip :=
  with_vconn_enabled enable chip.

Definition tcpm_init (chip : fusb30x_chip) : fusb30x_chip :=
  let chip := platform_set_vbus_lvl_enable false false chip in
  let chip := with_notify (notify_with_is_cc_connected false (notify chip)) chip in
  let chip := with_cc_state 0 chip in
  tcpm_set_vconn false chip.

Definition pd_execute_hard_reset (chip : fusb30x_chip) : fusb30x_chip :=
  let chip := with_msg_id 0 chip in
  let chip := with_vdm_state VDM_STATE_DISCOVERY_ID chip in
  if is_source (power_role (notify chip))
  then set_state policy_src_transition_default chip
  else set_state policy_snk_transition_default chip.

Definition set_cc_state (reg : Z) : Z :=
  let reg := Z.shiftr reg 3 in
  if has reg (CC_STATE_TOGSS_IS_UFP h) then
    if Z.land reg 0x03 =? 0x03
    then Z.lor (CC_STATE_TOGSS_IS_ACC h) 0x03
    else Z.lor (CC_STATE_TOGSS_IS_UFP h) (Z.land reg 0x03)
  else Z.lor (CC_STATE_TOGSS_IS_DFP h) (Z.land reg 0x03).

(** [tcpc_alert]: the interrupt registers turned into event bits. *)
Definition tcpc_alert (hw : hw_inputs) (chip : fusb30x_chip) (evt : Z)
    : fusb30x_chip * Z :=
  let evt :=
    if interrupt_comp_chng hw
       && negb (CC_STATE_ROLE chip =? CC_STATE_TOGSS_IS_UFP h)
       && alert_comp hw
    then Z.lor evt EVENT_CC else evt in
  let evt :=
    if interrupt_vbusok hw && is_cc_connected (notify chip)
    then Z.lor evt EVENT_CC else evt in
  let '(chip, evt) :=
    if interrupta_togdone hw
    then (with_cc_state (Z.land (set_cc_state (status1a hw)) 0xff) chip,
          Z.lor evt EVENT_CC)
    else (chip, evt) in
  let '(chip, evt) :=
    if interrupta_txsent hw
    then (with_tx_state tx_success chip, Z.lor evt EVENT_TX)
    else (chip, evt) in
  let evt := if interruptb_gcrcsent hw then Z.lor evt EVENT_RX else evt in
  let '(chip, evt) :=
    if interrupta_hardrst hw
    then (pd_execute_hard_reset chip, Z.lor evt EVENT_REC_RESET)
    else (chip, evt) in
  let '(chip, evt) :=
    if interrupta_retryfail hw
    then (with_tx_state tx_failed chip, Z.lor evt EVENT_TX)
    else (chip, evt) in
  if interrupta_hardsent hw then
    (* The fusb PD should be reset once to sync adapter PD signal after
       fusb sent hard reset cmd. *)
    if negb (retry chip) then
      (pd_execute_hard_reset (with_retry true chip), evt)
    else
      let chip := with_retry false chip in
      let chip := with_tx_state tx_success chip in
      let chip := with_timer_state (T_DISABLED h) chip in
      (chip, Z.lor evt EVENT_TX)
  else (chip, evt).

Definition mux_alert (chip : fusb30x_chip) (evt : Z) : fusb30x_chip * Z :=
  let '(chip, evt) :=
    if timer_mux chip =? 0
    then (with_timer_mux (T_DISABLED h) chip, Z.lor evt EVENT_TIMER_MUX)
    else (chip, evt) in
  let '(chip, evt) :=
    if timer_state chip =? 0
    then (with_timer_state (T_DISABLED h) chip, Z.lor evt EVENT_TIMER_STATE)
    else (chip, evt) in
  if truthy (work_continue chip)
  then (with_work_continue 0 chip, Z.lor evt (work_continue chip))
  else (chip, evt).

Definition set_state_unattached (chip : fusb30x_chip) : fusb30x_chip :=
  let chip :=
    if is_cc_connected (notify chip)
       && (CC_STATE_ROLE chip =? CC_STATE_TOGSS_IS_ACC h)
    then emit (OutHeadphone false) chip else chip in
  let chip := tcpm_init chip in
  let chip := set_state unattached chip in
  (* claer notify_info *)
  let chip := with_notify notify_zero chip in
  let chip := platform_fusb_notify chip in
  with_try_role_complete false chip.

(** The source PDOs [set_mesg] writes for [i] in [0, n). *)
Fixpoint source_caps_load (n : nat) (chip : fusb30x_chip) : list Z :=
  match n with
  | O => send_load chip
  | S i =>
      let info := pd_cap_info chip in
      load_set (source_caps_load i chip) (Z.of_nat i)
        (u32
           (Z.lor (Z.shiftl (supply_type info) 30)
           (Z.lor (Z.shiftl (dual_role_power info) 29)
           (Z.lor (Z.shiftl (usb_suspend_support info) 28)
           (Z.lor (Z.shiftl (externally_powered info) 27)
           (Z.lor (Z.shiftl (usb_communications_cap info) 26)
           (Z.lor (Z.shiftl (data_role_swap info) 25)
           (Z.lor (Z.shiftl (peak_current info) 20)
           (Z.lor (Z.shiftl (load_nth (source_power_supply chip) (Z.of_nat i)) 10)
                  (load_nth (source_max_current chip) (Z.of_nat i)))))))))))
  end.

Definition set_mesg (cmd : Z) (is_DMT : bool) (chip : fusb30x_chip)
    : fusb30x_chip :=
  let head :=
    Z.lor (Z.lor (Z.lor
      (Z.shiftl (Z.land (msg_id chip) 0x7) 9)
      (Z.shiftl (Z.land (power_role_bit (power_role (notify chip))) 0x1) 8))
      (Z.shiftl 1 6))
      (Z.shiftl (Z.land (data_role_bit (data_role (notify chip))) 0x1) 5) in
  let chip := with_send_head head chip in
  if is_DMT then
    if cmd =? DMT_SOURCECAPABILITIES then
      let chip :=
        with_send_head
          (Z.lor (send_head chip)
             (Z.lor (Z.shiftl (Z.land (n_caps_used chip) 0x3) 12)
                    (Z.land cmd 0xf))) chip in
      with_send_load (source_caps_load (Z.to_nat (n_caps_used chip)) chip) chip
    else if cmd =? DMT_REQUEST then
      let chip :=
        with_send_head
          (Z.lor (send_head chip) (Z.lor (Z.shiftl 1 12) (Z.land cmd 0xf)))
          chip in
      (* send request with FVRDO *)
      let load0 :=
        u32 (Z.lor (Z.shiftl (pos_power chip) 28) (Z.shiftl 1 26)) in
      let pdo := load_nth (rec_load chip) (pos_power chip - 1) in
      let load0 :=
        if CAP_POWER_TYPE pdo =? 0 then
          (* Fixed Supply *)
          Z.lor (Z.lor load0 (Z.land (Z.shiftl (CAP_FPDO_VOLTAGE pdo) 10) 0x3ff))
                (Z.land (CAP_FPDO_CURRENT pdo) 0x3ff)
        else if CAP_POWER_TYPE pdo =? 1 then
          (* Battery *)
          Z.lor (Z.lor load0 (Z.land (Z.shiftl (CAP_VPDO_VOLTAGE pdo) 10) 0x3ff))
                (Z.land (CAP_VPDO_CURRENT pdo) 0x3ff)
        else load0 in
      with_send_load (load_set (send_load chip) 0 load0) chip
    else chip
  else with_send_head (Z.lor (send_head chip) (Z.land cmd 0xf)) chip.

(** The DisplayPort pin assignment: higher pin configs are chosen over
    lower ones; 0 when no candidate is left. *)
Definition pd_dfp_dp_get_pin_assignment (caps status : Z) : Z :=
  let pin_caps := PD_DP_PIN_CAPS caps in
  (* if don't want multi-function then ignore those pin configs *)
  let pin_caps :=
    if negb (truthy (PD_VDO_DPSTS_MF_PREF status))
    then clear_bits pin_caps MODE_DP_PIN_MF_MASK else pin_caps in
  (* revisit if DFP drives USB Gen 2 signals *)
  let pin_caps :=
    if truthy (PD_DP_SIGNAL_GEN2 caps)
    then clear_bits pin_caps MODE_DP_PIN_DP_MASK
    else clear_bits pin_caps MODE_DP_PIN_BR2_MASK in
  (* if C/D present they have precedence over E/F for USB-C->USB-C *)
  let pin_caps :=
    if truthy (Z.land pin_caps (Z.lor MODE_DP_PIN_C MODE_DP_PIN_D))
    then clear_bits pin_caps (Z.lor MODE_DP_PIN_E MODE_DP_PIN_F)
    else pin_caps in
  (* returns undefined for zero *)
  if negb (truthy pin_caps) then 0
  else
    (* choosing higher pin config over lower ones *)
    Z.shiftl 1 (high_bit pin_caps).

Definition set_vdm_mesg (cmd type mode : Z) (chip : fusb30x_chip)
    : fusb30x_chip :=
  let head :=
    Z.lor (Z.lor (Z.lor (Z.lor
      (Z.shiftl (Z.land (msg_id chip) 0x7) 9)
      (Z.shiftl (Z.land (power_role_bit (power_role (notify chip))) 0x1) 8))
      (Z.shiftl 1 6))
      (Z.shiftl (Z.land (data_role_bit (data_role (notify chip))) 0x1) 5))
      (Z.land DMT_VENDERDEFINED 0xf) in
  let load0 := Z.lor (Z.lor (Z.shiftl 1 15) (Z.shiftl type 6)) cmd in
  let chip := with_send_head head chip in
  let chip := with_send_load (load_set (send_load chip) 0 (u32 load0)) chip in
  let or_head (v : Z) (chip : fusb30x_chip) :=
    with_send_head (Z.lor (send_head chip) v) chip in
  let or_load0 (v : Z) (chip : fusb30x_chip) :=
    with_send_load
      (load_set (send_load chip) 0 (u32 (Z.lor (load_nth (send_load chip) 0) v)))
      chip in
  if (cmd =? VDM_DISCOVERY_ID) || (cmd =? VDM_DISCOVERY_SVIDS)
     || (cmd =? VDM_ATTENTION) then
    let chip := or_load0 (Z.shiftl 0xff00 16) chip in
    or_head (Z.shiftl 1 12) chip
  else if cmd =? VDM_DISCOVERY_MODES then
    let chip :=
      or_load0
        (Z.shiftl (load_nth (vdm_svid chip) (Z.shiftr (val_tmp chip) 1)) 16)
        chip in
    or_head (Z.shiftl 1 12) chip
  else if cmd =? VDM_ENTER_MODE then
    let chip := or_head (Z.shiftl 1 12) chip in
    or_load0 (Z.lor (Z.shiftl mode 8) (Z.shiftl 0xff01 16)) chip
  else if cmd =? VDM_EXIT_MODE then
    let chip := or_head (Z.shiftl 1 12) chip in
    or_load0 (Z.lor (Z.shiftl 0x0f 8) (Z.shiftl 0xff01 16)) chip
  else if cmd =? VDM_DP_STATUS_UPDATE then
    let chip := or_head (Z.shiftl 2 12) chip in
    let chip := or_load0 (Z.lor (Z.shiftl 1 8) (Z.shiftl 0xff01 16)) chip in
    with_send_load (load_set (send_load chip) 1 5) chip
  else if cmd =? VDM_DP_CONFIG then
    let chip := or_head (Z.shiftl 2 12) chip in
    let chip := or_load0 (Z.lor (Z.shiftl 1 8) (Z.shiftl 0xff01 16)) chip in
    let chip :=
      with_notify
        (notify_with_pin_assignment_def
           (pd_dfp_dp_get_pin_assignment (dp_caps (notify chip))
              (dp_status (notify chip)))
           (notify chip)) chip in
    with_send_load
      (load_set (send_load chip) 1
         (u32 (Z.lor (Z.lor (Z.shiftl (pin_assignment_def (notify chip)) 8)
                            (Z.shiftl 1 2)) 2)))
      chip
  else chip.

(** The result is the port context and the value returned,
    [chip->tx_state]. *)
Definition policy_send_hardrst (evt : Z) (chip : fusb30x_chip)
    : fusb30x_chip * tx_state_t :=
  let chip :=
    match tx_state chip with
    | tx_idle =>
        let chip := emit OutHardReset chip in
        let chip := with_tx_state tx_busy chip in
        with_timer_state (T_BMC_TIMEOUT h) chip
    | _ =>
        if has evt EVENT_TIMER_STATE then with_tx_state tx_success chip
        else chip
    end in
  (chip, tx_state chip).

(** In state 0 the frame (header and [PD_HEADER_CNT] data objects) is
    written to the transmit FIFO; otherwise the call waits for the
    result that [tcpc_alert] stores in [tx_state]. *)
Definition policy_send_data (chip : fusb30x_chip)
    : fusb30x_chip * tx_state_t :=
  let chip :=
    match tx_state chip with
    | tx_idle =>
        let cnt := Z.to_nat (PD_HEADER_CNT (send_head chip)) in
        let chip :=
          emit (OutTx (send_head chip) (firstn cnt (send_load chip))) chip in
        with_tx_state tx_busy chip
    | _ => (* wait Tx result *) chip
    end in
  (chip, tx_state chip).

(** The loop of the [VDM_DISCOVERY_SVIDS] acknowledgement over the
    received data objects [idx]: two SVIDs per object, stopping at the
    first that is zero. *)
Fixpoint store_svids (idx : list Z) (chip : fusb30x_chip) : fusb30x_chip :=
  match idx with
  | [] => chip
  | i :: rest =>
      let tmp := Z.land (Z.shiftr (load_nth (rec_load chip) (i + 1)) 16) 0x0000ffff in
      if truthy tmp then
        let chip := with_vdm_svid (load_set (vdm_svid chip) (i * 2) tmp) chip in
        let chip := with_vdm_svid_num (vdm_svid_num chip + 1) chip in
        let tmp := Z.land (load_nth (rec_load chip) (i + 1)) 0x0000ffff in
        if truthy tmp then
          let chip :=
            with_vdm_svid (load_set (vdm_svid chip) (i * 2 + 1) tmp) chip in
          let chip := with_vdm_svid_num (vdm_svid_num chip + 1) chip in
          store_svids rest chip
        else chip
      else chip
  end.

Definition process_vdm_msg (chip : fusb30x_chip) : fusb30x_chip :=
  let vdm_header := load_nth (rec_load chip) 0 in
  (* can't procee unstructed vdm msg *)
  if negb (truthy (GET_VDMHEAD_STRUCT_TYPE vdm_header)) then chip
  else if GET_VDMHEAD_CMD_TYPE vdm_header =? VDM_TYPE_INIT then
    if GET_VDMHEAD_CMD vdm_header =? VDM_ATTENTION then
      let n := notify chip in
      let n := notify_with_dp_status (GET_DP_STATUS (load_nth (rec_load chip) 1)) n in
      let n := notify_with_attention true n in
      platform_fusb_notify (with_notify n chip)
    else chip
  else if GET_VDMHEAD_CMD_TYPE vdm_header =? VDM_TYPE_ACK then
    let cmd := GET_VDMHEAD_CMD vdm_header in
    if cmd =? VDM_DISCOVERY_ID then
      with_vdm_id (load_nth (rec_load chip) 1) chip
    else if cmd =? VDM_DISCOVERY_SVIDS then
      store_svids [0; 1; 2; 3; 4; 5] chip
    else if cmd =? VDM_DISCOVERY_MODES then
      (* indicate there are some vdo modes *)
      if 1 <? PD_HEADER_CNT (rec_head chip) then
        let tmp := load_nth (rec_load chip) 1 in
        if negb (truthy (Z.land (Z.shiftr tmp 8) 0x3f))
           && negb (truthy (Z.land (Z.shiftr tmp 16) 0x3f))
        then with_val_tmp (Z.lor (val_tmp chip) 1) chip
        else
          let n := notify chip in
          let n := notify_with_dp_caps (load_nth (rec_load chip) 1) n in
          let n := notify_with_pin_assignment_def 0 n in
          let n := notify_with_pin_assignment_support (PD_DP_PIN_CAPS tmp) n in
          let chip := with_notify n chip in
          with_val_tmp (Z.lor (val_tmp chip) 1) chip
      else chip
    else if cmd =? VDM_ENTER_MODE then with_val_tmp 1 chip
    else if cmd =? VDM_DP_STATUS_UPDATE then
      let n := notify chip in
      let n := notify_with_dp_status (GET_DP_STATUS (load_nth (rec_load chip) 1)) n in
      with_val_tmp 1 (with_notify n chip)
    else if cmd =? VDM_DP_CONFIG then
      let chip := with_val_tmp 1 chip in
      with_notify (notify_with_is_enter_mode true (notify chip)) chip
    else chip
  else if GET_VDMHEAD_CMD_TYPE vdm_header =? VDM_TYPE_NACK then
    (* disable vdm *)
    with_vdm_state VDM_STATE_ERR chip
  else chip.

(** The [switch (chip->vdm_send_state)] shared by the six VDM senders:
    [case 0] runs [case0] and falls into [case 1], which tries the
    transmission and falls into [default] once [vdm_send_state] is 2;
    [dflt] is the body of [default] followed by the function's last
    [return -EINPROGRESS]. *)
Definition vdm_send_switch (case0 : fusb30x_chip -> fusb30x_chip)
    (dflt : fusb30x_chip -> fusb30x_chip * vdm_result)
    (chip : fusb30x_chip) : fusb30x_chip * vdm_result :=
  let entry := vdm_send_state chip in
  let chip := if entry =? 0 then case0 chip else chip in
  if (entry =? 0) || (entry =? 1) then
    let '(chip, tmp) := policy_send_data chip in
    match tmp with
    | tx_failed =>
        (* disable auto_vdm_machine *)
        (with_vdm_state VDM_STATE_ERR chip, VDM_EPIPE)
    | _ =>
        let chip :=
          match tmp with
          | tx_success =>
              let chip := with_vdm_send_state (vdm_send_state chip + 1) chip in
              with_timer_state (T_SENDER_RESPONSE h) chip
          | _ => chip
          end in
        if negb (vdm_send_state chip =? 2) then (chip, VDM_EINPROGRESS)
        else dflt chip
    end
  else dflt chip.

(** The [default] block of five of the senders: done when [answered],
    timed out on [EVENT_TIMER_STATE]. *)
Definition vdm_send_wait (answered : fusb30x_chip -> bool)
    (done : fusb30x_chip -> fusb30x_chip) (evt : Z) (chip : fusb30x_chip)
    : fusb30x_chip * vdm_result :=
  if answered chip then (with_vdm_send_state 0 (done chip), VDM_OK)
  else if has evt EVENT_TIMER_STATE then
    let chip := with_vdm_state VDM_STATE_ERR chip in
    let chip :=
      with_work_continue (Z.lor (work_continue chip) EVENT_WORK_CONTINUE) chip in
    (chip, VDM_ETIMEDOUT)
  else (chip, VDM_EINPROGRESS).

Definition vdm_send_discoveryid (evt : Z) (chip : fusb30x_chip)
    : fusb30x_chip * vdm_result :=
  vdm_send_switch
    (fun chip =>
       let chip := set_vdm_mesg VDM_DISCOVERY_ID VDM_TYPE_INIT 0 chip in
       let chip := with_vdm_id 0 chip in
       let chip := with_tx_state tx_idle chip in
       with_vdm_send_state (vdm_send_state chip + 1) chip)
    (vdm_send_wait (fun chip => truthy (vdm_id chip)) (fun chip => chip) evt)
    chip.

Definition vdm_send_discoverysvid (evt : Z) (chip : fusb30x_chip)
    : fusb30x_chip * vdm_result :=
  vdm_send_switch
    (fun chip =>
       let chip := set_vdm_mesg VDM_DISCOVERY_SVIDS VDM_TYPE_INIT 0 chip in
       let chip := with_vdm_svid (repeat 0 12) chip in
       let chip := with_vdm_svid_num 0 chip in
       let chip := with_tx_state tx_idle chip in
       with_vdm_send_state (vdm_send_state chip + 1) chip)
    (vdm_send_wait (fun chip => truthy (vdm_svid_num chip)) (fun chip => chip) evt)
    chip.

Definition vdm_send_discoverymodes (evt : Z) (chip : fusb30x_chip)
    : fusb30x_chip * vdm_result :=
  if negb (Z.shiftr (val_tmp chip) 1 =? vdm_svid_num chip) then
    vdm_send_switch
      (fun chip =>
         let chip := set_vdm_mesg VDM_DISCOVERY_MODES VDM_TYPE_INIT 0 chip in
         let chip := with_tx_state tx_idle chip in
         with_vdm_send_state (vdm_send_state chip + 1) chip)
      (fun chip =>
         if has (val_tmp chip) 1 then
           let chip := with_val_tmp (Z.land (val_tmp chip) 0xfe) chip in
           let chip := with_val_tmp (val_tmp chip + 2) chip in
           let chip := with_vdm_send_state 0 chip in
           let chip :=
             with_work_continue
               (Z.lor (work_continue chip) EVENT_WORK_CONTINUE) chip in
           (chip, VDM_EINPROGRESS)
         else if has evt EVENT_TIMER_STATE then
           let chip := with_vdm_state VDM_STATE_ERR chip in
           let chip :=
             with_work_continue
               (Z.lor (work_continue chip) EVENT_WORK_CONTINUE) chip in
           (chip, VDM_ETIMEDOUT)
         else (chip, VDM_EINPROGRESS))
      chip
  else (with_val_tmp 0 chip, VDM_OK).

Definition vdm_send_entermode (evt : Z) (chip : fusb30x_chip)
    : fusb30x_chip * vdm_result :=
  vdm_send_switch
    (fun chip =>
       let chip := set_vdm_mesg VDM_ENTER_MODE VDM_TYPE_INIT 1 chip in
       let chip := with_tx_state tx_idle chip in
       let chip := with_vdm_send_state (vdm_send_state chip + 1) chip in
       with_notify (notify_with_is_enter_mode false (notify chip)) chip)
    (vdm_send_wait (fun chip => truthy (val_tmp chip)) (with_val_tmp 0) evt)
    chip.

Definition vdm_send_getdpstatus (evt : Z) (chip : fusb30x_chip)
    : fusb30x_chip * vdm_result :=
  vdm_send_switch
    (fun chip =>
       let chip := set_vdm_mesg VDM_DP_STATUS_UPDATE VDM_TYPE_INIT 1 chip in
       let chip := with_tx_state tx_idle chip in
       with_vdm_send_state (vdm_send_state chip + 1) chip)
    (vdm_send_wait (fun chip => truthy (val_tmp chip)) (with_val_tmp 0) evt)
    chip.

Definition vdm_send_dpconfig (evt : Z) (chip : fusb30x_chip)
    : fusb30x_chip * vdm_result :=
  vdm_send_switch
    (fun chip =>
       let chip := set_vdm_mesg VDM_DP_CONFIG VDM_TYPE_INIT 0 chip in
       let chip := with_tx_state tx_idle chip in
       with_vdm_send_state (vdm_send_state chip + 1) chip)
    (vdm_send_wait (fun chip => truthy (val_tmp chip)) (with_val_tmp 0) evt)
    chip.

(** The macro [AUTO_VDM_HANDLE]. *)
Definition AUTO_VDM_HANDLE
    (func : Z -> fusb30x_chip -> fusb30x_chip * vdm_result)
    (evt : Z) (chip : fusb30x_chip) : fusb30x_chip :=
  let '(chip, conditions) := func evt chip in
  match conditions with
  | VDM_OK =>
      let chip := with_vdm_state (vdm_state chip + 1) chip in
      with_work_continue (Z.lor (work_continue chip) EVENT_WORK_CONTINUE) chip
  | VDM_EINPROGRESS => chip
  | _ => with_vdm_state VDM_STATE_ERR chip
  end.

Definition auto_vdm_machine (evt : Z) (chip : fusb30x_chip) : fusb30x_chip :=
  let s := vdm_state chip in
  if s =? VDM_STATE_DISCOVERY_ID then
    AUTO_VDM_HANDLE vdm_send_discoveryid evt chip
  else if s =? VDM_STATE_DISCOVERY_SVID then
    AUTO_VDM_HANDLE vdm_send_discoverysvid evt chip
  else if s =? VDM_STATE_DISCOVERY_MODES then
    AUTO_VDM_HANDLE vdm_send_discoverymodes evt chip
  else if s =? VDM_STATE_ENTER_MODE then
    AUTO_VDM_HANDLE vdm_send_entermode evt chip
  else if s =? VDM_STATE_UPDATE_STATUS then
    AUTO_VDM_HANDLE vdm_send_getdpstatus evt chip
  else if s =? VDM_STATE_DP_CONFIG then
    AUTO_VDM_HANDLE vdm_send_dpconfig evt chip
  else if s =? VDM_STATE_NOTIFY then
    let chip := platform_fusb_notify chip in
    with_vdm_state VDM_STATE_READY chip
  else chip.

(** *** State handlers: attach detection *)

Definition fusb_state_disabled (evt : Z) (chip : fusb30x_chip) : fusb30x_chip :=
  (* Do nothing *)
  chip.

Definition polarity_of_cc_state (chip : fusb30x_chip) : typec_cc_polarity :=
  if has (cc_state chip) (CC_STATE_TOGSS_CC1 h)
  then TYPEC_POLARITY_CC1 else TYPEC_POLARITY_CC2.

Definition fusb_state_unattached (hw : hw_inputs) (evt : Z)
    (chip : fusb30x_chip) : fusb30x_chip :=
  let chip := with_notify (notify_with_is_cc_connected false (notify chip)) chip in
  let chip := with_is_pd_support false chip in
  if has evt EVENT_CC && truthy (cc_state chip) then
    let chip :=
      if CC_STATE_ROLE chip =? CC_STATE_TOGSS_IS_UFP h
      then set_state attach_wait_sink chip
      else if CC_STATE_ROLE chip =? CC_STATE_TOGSS_IS_DFP h
      then set_state attach_wait_source chip
      else set_state attach_wait_audio_acc chip in
    let chip := with_vbus_begin (state_vbus hw) chip in
    let chip := tcpm_set_polarity (polarity_of_cc_state chip) chip in
    let '(c1, c2) := tcpm_get_cc chip (state_cc hw) in
    let chip := with_cc1 c1 chip in
    let chip := with_cc2 c2 chip in
    let chip := with_debounce_cnt 0 chip in
    with_timer_mux 2 chip
  else chip.

Definition is_try_mode (mode : role_mode) : bool :=
  match mode with
  | ROLE_MODE_NONE | ROLE_MODE_DRP | ROLE_MODE_ASS => false
  | _ => true
  end.

Definition fusb_state_try_attach_set (mode : role_mode) (chip : fusb30x_chip)
    : fusb30x_chip :=
  if negb (is_try_mode mode) then chip
  else
    let chip := tcpm_init chip in
    let chip := with_timer_mux (T_PD_TRY_DRP h) chip in
    set_state
      (if role_mode_eqb mode ROLE_MODE_DFP then attach_try_src else attach_try_snk)
      chip.

(** The debounce step shared, word for word, by the three attach-wait
    handlers: count a sample equal to the stored pair, else store it and
    restart the count. *)
Definition debounce_sample (c1 c2 : Z) (chip : fusb30x_chip) : fusb30x_chip :=
  if (cc1 chip =? c1) && (cc2 chip =? c2) then
    with_debounce_cnt (debounce_cnt chip + 1) chip
  else
    let chip := with_cc1 c1 chip in
    let chip := with_cc2 c2 chip in
    with_debounce_cnt 0 chip.

Definition fusb_state_attach_wait_sink (hw : hw_inputs) (evt : Z)
    (chip : fusb30x_chip) : fusb30x_chip :=
  if has evt EVENT_TIMER_MUX then
    let after_vbus (chip : fusb30x_chip) : fusb30x_chip :=
      let '(c1, c2) := tcpm_get_cc chip (state_cc hw) in
      let chip := debounce_sample c1 c2 chip in
      if N_DEBOUNCE_CNT h <? debounce_cnt chip then
        let chip := with_timer_mux (T_DISABLED h) chip in
        if ((cc1 chip =? TYPEC_CC_VOLT_RP) && (cc2 chip =? TYPEC_CC_VOLT_OPEN))
           || ((cc2 chip =? TYPEC_CC_VOLT_RP) && (cc1 chip =? TYPEC_CC_VOLT_OPEN))
        then
          let chip := with_timer_mux (T_PD_SOURCE_ON h) chip in
          set_state attached_sink chip
        else set_state_unattached chip
      else with_timer_mux 2 chip in
    if state_vbus hw then
      let chip := with_timer_mux (T_DISABLED h) chip in
      if role_mode_eqb (role chip) ROLE_MODE_DRP
         && role_mode_eqb (try_role chip) ROLE_MODE_DFP
         && negb (try_role_complete chip)
      then fusb_state_try_attach_set ROLE_MODE_DFP chip
      else if try_role_complete chip then
        let chip := with_timer_mux (T_PD_SOURCE_ON h) chip in
        set_state attached_sink chip
      else after_vbus chip
    else after_vbus chip
  else chip.

Definition fusb_state_attach_wait_source (hw : hw_inputs) (evt : Z)
    (chip : fusb30x_chip) : fusb30x_chip :=
  if has evt EVENT_TIMER_MUX then
    let '(c1, c2) := tcpm_get_cc chip (state_cc hw) in
    let chip := debounce_sample c1 c2 chip in
    if N_DEBOUNCE_CNT h <? debounce_cnt chip then
      if (negb (truthy (cc1 chip)) || negb (truthy (cc2 chip)))
         && ((cc1 chip =? TYPEC_CC_VOLT_RD) || (cc2 chip =? TYPEC_CC_VOLT_RD))
      then
        if role_mode_eqb (role chip) ROLE_MODE_DRP
           && role_mode_eqb (try_role chip) ROLE_MODE_UFP
           && negb (try_role_complete chip)
        then fusb_state_try_attach_set ROLE_MODE_UFP chip
        else set_state attached_source chip
      else set_state_unattached chip
    else with_timer_mux 2 chip
  else chip.

Definition fusb_state_attached_source (evt : Z) (chip : fusb30x_chip)
    : fusb30x_chip :=
  let chip := platform_set_vbus_lvl_enable true false chip in
  let chip := tcpm_set_polarity (polarity_of_cc_state chip) chip in
  let chip := tcpm_set_vconn true chip in
  let n := notify chip in
  let n := notify_with_is_cc_connected true n in
  let n := notify_with_power_role POWER_ROLE_SOURCE n in
  let n := notify_with_data_role DATA_ROLE_DFP n in
  let chip := with_notify n chip in
  let chip := with_hardrst_count 0 chip in
  set_state policy_src_startup chip.

Definition fusb_state_attached_sink (hw : hw_inputs) (evt : Z)
    (chip : fusb30x_chip) : fusb30x_chip :=
  if state_vbus hw then
    let chip := with_timer_mux (T_DISABLED h) chip in
    let chip := with_timer_state (T_DISABLED h) chip in
    if negb (try_role_complete chip)
       && role_mode_eqb (try_role chip) ROLE_MODE_DFP
       && role_mode_eqb (role chip) ROLE_MODE_DRP
    then fusb_state_try_attach_set ROLE_MODE_DFP chip
    else
      let chip := with_try_role_complete true chip in
      let n := notify chip in
      let n := notify_with_is_cc_connected true n in
      let n := notify_with_power_role POWER_ROLE_SINK n in
      let n := notify_with_data_role DATA_ROLE_UFP n in
      let chip := with_notify n chip in
      let chip := with_hardrst_count 0 chip in
      set_state policy_snk_startup chip
  else if has evt EVENT_TIMER_MUX then set_state_unattached chip
  else with_timer_state 2 chip.

Definition fusb_state_try_attach (hw : hw_inputs) (evt : Z) (mode : role_mode)
    (chip : fusb30x_chip) : fusb30x_chip :=
  if has evt EVENT_CC && truthy (cc_state chip) then
    let chip := with_try_role_complete true chip in
    let chip :=
      if CC_STATE_ROLE chip =? CC_STATE_TOGSS_IS_UFP h then
        set_state
          (if role_mode_eqb mode ROLE_MODE_UFP
           then attach_wait_sink else error_recovery) chip
      else
        set_state
          (if role_mode_eqb mode ROLE_MODE_DFP
           then attach_wait_source else error_recovery) chip in
    let chip := tcpm_set_polarity (polarity_of_cc_state chip) chip in
    let '(c1, c2) := tcpm_get_cc chip (state_cc hw) in
    let chip := with_cc1 c1 chip in
    let chip := with_cc2 c2 chip in
    let chip := with_debounce_cnt 0 chip in
    with_timer_mux 2 chip
  else if has evt EVENT_TIMER_MUX then
    if negb (try_role_complete chip) then
      let chip := with_try_role_complete true chip in
      fusb_state_try_attach_set
        (if role_mode_eqb mode ROLE_MODE_DFP then ROLE_MODE_UFP else ROLE_MODE_DFP)
        chip
    else set_state error_recovery chip
  else chip.

Definition fusb_state_attach_wait_audio_acc (hw : hw_inputs) (evt : Z)
    (chip : fusb30x_chip) : fusb30x_chip :=
  if has evt EVENT_TIMER_MUX then
    let '(c1, c2) := tcpm_get_cc chip (state_cc hw) in
    let chip := debounce_sample c1 c2 chip in
    if N_DEBOUNCE_CNT h <? debounce_cnt chip then
      if (cc1 chip =? TYPEC_CC_VOLT_RA) && (cc2 chip =? TYPEC_CC_VOLT_RA)
      then with_timer_mux 2 (set_state attached_audio_acc chip)
      else set_state_unattached chip
    else with_timer_mux 2 chip
  else chip.

Definition fusb_state_attached_audio_acc (evt : Z) (chip : fusb30x_chip)
    : fusb30x_chip :=
  let chip := tcpm_set_polarity (polarity_of_cc_state chip) chip in
  let chip := with_notify (notify_with_is_cc_connected true (notify chip)) chip in
  let chip := with_hardrst_count 0 chip in
  let chip := set_state disabled chip in
  emit (OutHeadphone true) chip.

(** *** State handlers: source policy engine *)

Definition or_work_continue (chip : fusb30x_chip) : fusb30x_chip :=
  with_work_continue (Z.lor (work_continue chip) EVENT_WORK_CONTINUE) chip.

Definition fusb_soft_reset_parameter (chip : fusb30x_chip) : fusb30x_chip :=
  let chip := with_caps_counter 0 chip in
  let chip := with_msg_id 0 chip in
  let chip := with_vdm_state VDM_STATE_DISCOVERY_ID chip in
  let chip := with_vdm_substate 0 chip in
  let chip := with_vdm_send_state 0 chip in
  let chip := with_val_tmp 0 chip in
  with_pos_power 0 chip.

Definition fusb_state_src_startup (evt : Z) (chip : fusb30x_chip)
    : fusb30x_chip :=
  let chip := with_notify (notify_with_is_pd_connected false (notify chip)) chip in
  let chip := fusb_soft_reset_parameter chip in
  let chip := with_partner_cap (repeat 0 7) chip in
  let chip := tcpm_set_polarity (cc_polarity chip) chip in
  let chip := set_state policy_src_send_caps chip in
  platform_fusb_notify chip.

Definition fusb_state_src_discovery (evt : Z) (chip : fusb30x_chip)
    : fusb30x_chip :=
  if sub_state chip =? 0 then
    let chip := with_caps_counter (caps_counter chip + 1) chip in
    if caps_counter chip <? N_CAPS_COUNT h then
      let chip := with_timer_state (T_TYPEC_SEND_SOURCECAP h) chip in
      with_sub_state 1 chip
    else set_state disabled chip
  else
    if has evt EVENT_TIMER_STATE then set_state policy_src_send_caps chip
    else if has evt EVENT_TIMER_MUX then
      if negb (is_pd_support chip) then set_state disabled chip
      else if N_HARDRESET_COUNT h <? hardrst_count chip
      then set_state error_recovery chip
      else set_state policy_src_send_hardrst chip
    else chip.

Definition fusb_state_src_send_caps (evt : Z) (chip : fusb30x_chip)
    : fusb30x_chip :=
  let dflt (chip : fusb30x_chip) : fusb30x_chip :=
    if has evt EVENT_RX then
      if PACKET_IS_DATA_MSG (rec_head chip) DMT_REQUEST
      then set_state policy_src_negotiate_cap chip
      else set_state policy_src_send_softrst chip
    else if has evt EVENT_TIMER_STATE then
      if hardrst_count chip <=? N_HARDRESET_COUNT h
      then set_state policy_src_send_hardrst chip
      else set_state disabled chip
    else if has evt EVENT_TIMER_MUX then
      if negb (is_pd_support chip) then set_state disabled chip
      else if N_HARDRESET_COUNT h <? hardrst_count chip
      then set_state error_recovery chip
      else set_state policy_src_send_hardrst chip
    else chip in
  let entry := sub_state chip in
  let chip :=
    if entry =? 0 then
      let chip := set_mesg DMT_SOURCECAPABILITIES DATAMESSAGE chip in
      let chip := with_sub_state 1 chip in
      with_tx_state tx_idle chip
    else chip in
  if (entry =? 0) || (entry =? 1) then
    let '(chip, tmp) := policy_send_data chip in
    match tmp with
    | tx_failed => set_state policy_src_discovery chip
    | _ =>
        let chip :=
          match tmp with
          | tx_success =>
              let chip := with_hardrst_count 0 chip in
              let chip := with_caps_counter 0 chip in
              let chip := with_timer_state (T_SENDER_RESPONSE h) chip in
              let chip := with_timer_mux (T_DISABLED h) chip in
              let chip := with_sub_state (sub_state chip + 1) chip in
              with_is_pd_support true chip
          | _ => chip
          end in
        if negb (has evt FLAG_EVENT) then chip else dflt chip
    end
  else dflt chip.

(** The comparison [tmp > chip->n_caps_used] is between a [u32] and the
    capability count, which C converts to [u32]. *)
Definition fusb_state_src_negotiate_cap (evt : Z) (chip : fusb30x_chip)
    : fusb30x_chip :=
  (* base on evb1 *)
  let tmp := Z.land (Z.shiftr (load_nth (rec_load chip) 0) 28) 0x07 in
  if u32 (n_caps_used chip) <? tmp
  then set_state policy_src_cap_response chip
  else set_state policy_src_transition_supply chip.

Definition fusb_state_src_transition_supply (evt : Z) (chip : fusb30x_chip)
    : fusb30x_chip :=
  let entry := sub_state chip in
  let chip :=
    if entry =? 0 then
      let chip := set_mesg CMT_ACCEPT CONTROLMESSAGE chip in
      let chip := with_tx_state tx_idle chip in
      with_sub_state (sub_state chip + 1) chip
    else chip in
  if (entry =? 0) || (entry =? 1) then
    let '(chip, tmp) := policy_send_data chip in
    match tmp with
    | tx_success =>
        let chip := with_timer_state (T_SRC_TRANSITION h) chip in
        with_sub_state (sub_state chip + 1) chip
    | tx_failed => set_state policy_src_send_softrst chip
    | _ => chip
    end
  else if entry =? 2 then
    if has evt EVENT_TIMER_STATE then
      let chip := with_notify (notify_with_is_pd_connected true (notify chip)) chip in
      let chip := platform_set_vbus_lvl_enable true false chip in
      let chip := set_mesg CMT_PS_RDY CONTROLMESSAGE chip in
      let chip := with_tx_state tx_idle chip in
      let chip := with_sub_state (sub_state chip + 1) chip in
      or_work_continue chip
    else chip
  else
    let '(chip, tmp) := policy_send_data chip in
    match tmp with
    | tx_success => set_state policy_src_ready chip
    | tx_failed => set_state policy_src_send_softrst chip
    | _ => chip
    end.

Definition fusb_state_src_cap_response (evt : Z) (chip : fusb30x_chip)
    : fusb30x_chip :=
  let chip :=
    if sub_state chip =? 0 then
      let chip := set_mesg CMT_REJECT CONTROLMESSAGE chip in
      let chip := with_tx_state tx_idle chip in
      with_sub_state (sub_state chip + 1) chip
    else chip in
  let '(chip, tmp) := policy_send_data chip in
  match tmp with
  | tx_success =>
      if is_pd_connected (notify chip) then set_state policy_src_ready chip
      else set_state policy_src_send_hardrst chip
  | tx_failed => set_state policy_src_send_softrst chip
  | _ => chip
  end.

Definition fusb_state_src_transition_default (evt : Z) (chip : fusb30x_chip)
    : fusb30x_chip :=
  if sub_state chip =? 0 then
    let chip := with_notify (notify_with_is_pd_connected false (notify chip)) chip in
    let chip := platform_set_vbus_lvl_enable false false chip in
    let chip := with_timer_state (T_SRC_RECOVER h) chip in
    with_sub_state (sub_state chip + 1) chip
  else
    if has evt EVENT_TIMER_STATE then
      let chip := platform_set_vbus_lvl_enable true false chip in
      let chip := with_timer_mux (T_NO_RESPONSE h) chip in
      set_state policy_src_startup chip
    else chip.

Definition fusb_state_vcs_ufp_evaluate_swap (evt : Z) (chip : fusb30x_chip)
    : fusb30x_chip :=
  if vconn_supported chip then set_state policy_vcs_ufp_accept chip
  else set_state policy_vcs_ufp_reject chip.

Definition fusb_state_swap_msg_process (evt : Z) (chip : fusb30x_chip)
    : fusb30x_chip :=
  if has evt EVENT_RX then
    if PACKET_IS_CONTROL_MSG (rec_head chip) CMT_PR_SWAP then
      set_state policy_src_prs_evaluate chip
    else if PACKET_IS_CONTROL_MSG (rec_head chip) CMT_VCONN_SWAP then
      if is_dfp (data_role (notify chip)) then set_state (conn_state chip) chip
      else set_state policy_vcs_ufp_evaluate_swap chip
    else if PACKET_IS_CONTROL_MSG (rec_head chip) CMT_DR_SWAP then
      if is_dfp (data_role (notify chip))
      then set_state policy_drs_dfp_evaluate chip
      else set_state policy_drs_ufp_evaluate chip
    else chip
  else chip.

Definition VDM_IS_ACTIVE (chip : fusb30x_chip) : bool :=
  is_dfp (data_role (notify chip)) && (vdm_state chip <? VDM_STATE_READY).

Definition fusb_state_src_ready (evt : Z) (chip : fusb30x_chip)
    : fusb30x_chip :=
  let chip :=
    if has evt EVENT_RX then
      if PACKET_IS_DATA_MSG (rec_head chip) DMT_VENDERDEFINED then
        let chip := process_vdm_msg chip in
        let chip := or_work_continue chip in
        with_timer_state (T_DISABLED h) chip
      else if negb (VDM_IS_ACTIVE chip) then fusb_state_swap_msg_process evt chip
      else chip
    else chip in
  if negb (truthy (load_nth (partner_cap chip) 0))
  then set_state policy_src_get_sink_caps chip
  else if VDM_IS_ACTIVE chip then auto_vdm_machine evt chip
  else chip.

(** *** State handlers: swaps *)

Definition src_or_snk (chip : fusb30x_chip) (src snk : connection_state)
    : connection_state :=
  if is_source (power_role (notify chip)) then src else snk.

Definition fusb_state_prs_evaluate (evt : Z) (chip : fusb30x_chip)
    : fusb30x_chip :=
  if role_mode_eqb (role chip) ROLE_MODE_DRP
  then set_state policy_src_prs_accept chip
  else set_state policy_src_prs_reject chip.

Definition fusb_state_send_simple_msg (evt : Z) (cmd : Z) (is_DMT : bool)
    (state_success state_failed : connection_state) (chip : fusb30x_chip)
    : fusb30x_chip :=
  let entry := sub_state chip in
  let chip :=
    if entry =? 0 then
      let chip := set_mesg cmd is_DMT chip in
      let chip := with_tx_state tx_idle chip in
      with_sub_state (sub_state chip + 1) chip
    else chip in
  if (entry =? 0) || (entry =? 1) then
    let '(chip, tmp) := policy_send_data chip in
    match tmp with
    | tx_success => set_state state_success chip
    | tx_failed => set_state state_failed chip
    | _ => chip
    end
  else chip.

Definition fusb_state_prs_reject (evt : Z) (chip : fusb30x_chip)
    : fusb30x_chip :=
  fusb_state_send_simple_msg evt CMT_REJECT CONTROLMESSAGE
    (src_or_snk chip policy_src_ready policy_snk_ready)
    (src_or_snk chip policy_src_send_softrst policy_snk_send_softrst) chip.

Definition fusb_state_prs_accept (evt : Z) (chip : fusb30x_chip)
    : fusb30x_chip :=
  fusb_state_send_simple_msg evt CMT_ACCEPT CONTROLMESSAGE
    (src_or_snk chip policy_src_prs_transition_to_off
       policy_snk_prs_transition_to_off)
    (src_or_snk chip policy_src_send_softrst policy_snk_send_softrst) chip.

Definition fusb_state_vcs_ufp_accept (evt : Z) (chip : fusb30x_chip)
    : fusb30x_chip :=
  fusb_state_send_simple_msg evt CMT_ACCEPT CONTROLMESSAGE
    (if vconn_enabled chip then policy_vcs_ufp_wait_for_dfp_vconn
     else policy_vcs_ufp_turn_on_vconn)
    (src_or_snk chip policy_src_send_softrst policy_snk_send_softrst) chip.

Definition fusb_state_vcs_set_vconn (evt : Z) (on : bool) (chip : fusb30x_chip)
    : fusb30x_chip :=
  if on then
    let chip := tcpm_set_vconn true chip in
    set_state
      (if is_dfp (data_role (notify chip)) then policy_vcs_dfp_send_ps_rdy
       else policy_vcs_ufp_send_ps_rdy) chip
  else
    let chip := tcpm_set_vconn false chip in
    if is_source (power_role (notify chip)) then set_state policy_src_ready chip
    else set_state policy_snk_ready chip.

Definition fusb_state_vcs_send_ps_rdy (evt : Z) (chip : fusb30x_chip)
    : fusb30x_chip :=
  fusb_state_send_simple_msg evt CMT_PS_RDY CONTROLMESSAGE
    (src_or_snk chip policy_src_ready policy_snk_ready)
    (src_or_snk chip policy_src_send_softrst policy_snk_send_softrst) chip.

Definition fusb_state_vcs_wait_for_vconn (evt : Z) (chip : fusb30x_chip)
    : fusb30x_chip :=
  let entry := sub_state chip in
  let chip :=
    if entry =? 0 then
      let chip := with_timer_state (T_PD_VCONN_SRC_ON h) chip in
      with_sub_state (sub_state chip + 1) chip
    else chip in
  if (entry =? 0) || (entry =? 1) then
    if has evt EVENT_RX then
      if PACKET_IS_CONTROL_MSG (rec_head chip) CMT_PS_RDY then
        set_state
          (if is_dfp (data_role (notify chip)) then policy_vcs_dfp_turn_off_vconn
           else policy_vcs_ufp_turn_off_vconn) chip
      else chip
    else if has evt EVENT_TIMER_STATE then
      if is_source (power_role (notify chip))
      then set_state policy_src_send_hardrst chip
      else set_state policy_snk_send_hardrst chip
    else chip
  else chip.

Definition fusb_state_src_prs_transition_to_off (evt : Z) (chip : fusb30x_chip)
    : fusb30x_chip :=
  if sub_state chip =? 0 then
    let chip := with_timer_state (T_SRC_TRANSITION h) chip in
    with_sub_state (sub_state chip + 1) chip
  else if sub_state chip =? 1 then
    if has evt EVENT_TIMER_STATE then
      let chip := platform_set_vbus_lvl_enable false false chip in
      let chip := with_notify (notify_with_power_role POWER_ROLE_SINK (notify chip)) chip in
      if role_mode_eqb (role chip) ROLE_MODE_DRP
      then set_state policy_src_prs_assert_rd chip
      else set_state policy_src_prs_source_off chip
    else chip
  else chip.

Definition fusb_state_src_prs_assert_rd (evt : Z) (chip : fusb30x_chip)
    : fusb30x_chip :=
  set_state policy_src_prs_source_off chip.

(** [case 1] falls into [case 2] only when [sub_state] is 3, which the
    increment from 1 never gives: after a successful PS_RDY the answer
    is awaited from the next tick on. *)
Definition fusb_state_src_prs_source_off (evt : Z) (chip : fusb30x_chip)
    : fusb30x_chip :=
  let case2 (chip : fusb30x_chip) : fusb30x_chip :=
    if has evt EVENT_RX then
      if PACKET_IS_CONTROL_MSG (rec_head chip) CMT_PS_RDY then
        let chip := with_timer_state (T_DISABLED h) chip in
        (* snk startup *)
        let chip := with_notify (notify_with_is_pd_connected false (notify chip)) chip in
        let chip :=
          with_cc_state (clear_bits (cc_state chip) (CC_STATE_TOGSS_ROLE h)) chip in
        let chip :=
          with_cc_state
            (Z.land (Z.lor (cc_state chip) (CC_STATE_TOGSS_IS_UFP h)) 0xff) chip in
        let chip := tcpm_set_polarity (cc_polarity chip) chip in
        set_state policy_snk_discovery chip
      else chip
    else if has evt EVENT_TIMER_STATE then
      let chip :=
        with_notify (notify_with_power_role POWER_ROLE_SOURCE (notify chip)) chip in
      set_state policy_src_send_hardrst chip
    else chip in
  let entry := sub_state chip in
  let chip :=
    if entry =? 0 then
      let chip := set_mesg CMT_PS_RDY CONTROLMESSAGE chip in
      let chip := with_tx_state tx_idle chip in
      with_sub_state (sub_state chip + 1) chip
    else chip in
  if (entry =? 0) || (entry =? 1) then
    let '(chip, tmp) := policy_send_data chip in
    let chip :=
      match tmp with
      | tx_success =>
          let chip := with_timer_state (T_PD_SOURCE_ON h) chip in
          with_sub_state (sub_state chip + 1) chip
      | tx_failed =>
          let chip :=
            with_notify (notify_with_power_role POWER_ROLE_SOURCE (notify chip))
              chip in
          set_state policy_src_send_hardrst chip
      | _ => chip
      end in
    if negb (sub_state chip =? 3) then chip else case2 chip
  else if entry =? 2 then case2 chip
  else chip.

Definition fusb_state_drs_evaluate (evt : Z) (chip : fusb30x_chip)
    : fusb30x_chip :=
  if truthy (data_role_swap (pd_cap_info chip)) then
    (* NOW REJECT swap when the port is DFP *)
    set_state
      (if is_dfp (data_role (notify chip)) then policy_drs_dfp_reject
       else policy_drs_ufp_accept) chip
  else
    set_state
      (if is_dfp (data_role (notify chip)) then policy_drs_dfp_reject
       else policy_drs_ufp_reject) chip.

Definition fusb_state_drs_send_accept (evt : Z) (chip : fusb30x_chip)
    : fusb30x_chip :=
  fusb_state_send_simple_msg evt CMT_ACCEPT CONTROLMESSAGE
    (src_or_snk chip policy_drs_dfp_change policy_drs_ufp_change)
    error_recovery chip.

Definition fusb_state_drs_role_change (evt : Z) (chip : fusb30x_chip)
    : fusb30x_chip :=
  let chip :=
    with_notify
      (notify_with_data_role
         (if is_dfp (data_role (notify chip)) then DATA_ROLE_UFP else DATA_ROLE_DFP)
         (notify chip)) chip in
  set_state (src_or_snk chip policy_src_ready policy_snk_ready) chip.

(** *** State handlers: sink caps query and resets of the source *)

(** The loop copying the received sink capabilities. *)
Fixpoint copy_partner_cap (n : nat) (chip : fusb30x_chip) : list Z :=
  match n with
  | O => partner_cap chip
  | S i =>
      load_set (copy_partner_cap i chip) (Z.of_nat i)
        (load_nth (rec_load chip) (Z.of_nat i))
  end.

Definition fusb_state_src_get_sink_cap (evt : Z) (chip : fusb30x_chip)
    : fusb30x_chip :=
  let dflt (chip : fusb30x_chip) : fusb30x_chip :=
    if has evt EVENT_RX then
      if PACKET_IS_DATA_MSG (rec_head chip) DMT_SINKCAPABILITIES then
        let chip :=
          with_partner_cap
            (copy_partner_cap (Z.to_nat (PD_HEADER_CNT (rec_head chip))) chip)
            chip in
        set_state policy_src_ready chip
      else
        let chip :=
          with_partner_cap (load_set (partner_cap chip) 0 0xffffffff) chip in
        set_state policy_src_ready chip
    else if has evt EVENT_TIMER_STATE then
      let chip :=
        with_partner_cap (load_set (partner_cap chip) 0 0xffffffff) chip in
      set_state policy_src_ready chip
    else chip in
  let entry := sub_state chip in
  let chip :=
    if entry =? 0 then
      let chip := set_mesg CMT_GETSINKCAP CONTROLMESSAGE chip in
      let chip := with_tx_state tx_idle chip in
      with_sub_state (sub_state chip + 1) chip
    else chip in
  if (entry =? 0) || (entry =? 1) then
    let '(chip, tmp) := policy_send_data chip in
    let chip :=
      match tmp with
      | tx_success =>
          let chip := with_timer_state (T_SENDER_RESPONSE h) chip in
          with_sub_state (sub_state chip + 1) chip
      | tx_failed => set_state policy_src_send_softrst chip
      | _ => chip
      end in
    if negb (has evt FLAG_EVENT) then chip else dflt chip
  else dflt chip.

Definition fusb_state_src_send_hardreset (evt : Z) (chip : fusb30x_chip)
    : fusb30x_chip :=
  let chip :=
    if sub_state chip =? 0 then
      let chip := with_tx_state tx_idle chip in
      with_sub_state (sub_state chip + 1) chip
    else chip in
  let '(chip, tmp) := policy_send_hardrst evt chip in
  match tmp with
  | tx_success =>
      let chip := with_hardrst_count (hardrst_count chip + 1) chip in
      set_state policy_src_transition_default chip
  | tx_failed => (* can't reach here *) set_state error_recovery chip
  | _ => chip
  end.

Definition fusb_state_src_softreset (chip : fusb30x_chip) : fusb30x_chip :=
  let chip :=
    if sub_state chip =? 0 then
      let chip := set_mesg CMT_ACCEPT CONTROLMESSAGE chip in
      let chip := with_tx_state tx_idle chip in
      with_sub_state (sub_state chip + 1) chip
    else chip in
  let '(chip, tmp) := policy_send_data chip in
  match tmp with
  | tx_success =>
      let chip := fusb_soft_reset_parameter chip in
      set_state policy_src_send_caps chip
  | tx_failed => set_state policy_src_send_hardrst chip
  | _ => chip
  end.

Definition fusb_state_src_send_softreset (evt : Z) (chip : fusb30x_chip)
    : fusb30x_chip :=
  let dflt (chip : fusb30x_chip) : fusb30x_chip :=
    if has evt EVENT_RX then
      if PACKET_IS_CONTROL_MSG (rec_head chip) CMT_ACCEPT then
        let chip := fusb_soft_reset_parameter chip in
        set_state policy_src_send_caps chip
      else chip
    else if has evt EVENT_TIMER_STATE
    then set_state policy_src_send_hardrst chip
    else chip in
  let entry := sub_state chip in
  let chip :=
    if entry =? 0 then
      let chip := set_mesg CMT_SOFTRESET CONTROLMESSAGE chip in
      let chip := with_tx_state tx_idle chip in
      with_sub_state (sub_state chip + 1) chip
    else chip in
  if (entry =? 0) || (entry =? 1) then
    let '(chip, tmp) := policy_send_data chip in
    let chip :=
      match tmp with
      | tx_success =>
          let chip := with_timer_state (T_SENDER_RESPONSE h) chip in
          with_sub_state (sub_state chip + 1) chip
      | tx_failed => set_state policy_src_send_hardrst chip
      | _ => chip
      end in
    if negb (has evt FLAG_EVENT) then chip else dflt chip
  else dflt chip.

(** *** State handlers: sink policy engine *)

Definition fusb_state_snk_startup (evt : Z) (chip : fusb30x_chip)
    : fusb30x_chip :=
  let chip := with_notify (notify_with_is_pd_connected false (notify chip)) chip in
  let chip := fusb_soft_reset_parameter chip in
  let chip := with_partner_cap (repeat 0 7) chip in
  let chip := tcpm_set_polarity (cc_polarity chip) chip in
  let chip := set_state policy_snk_discovery chip in
  platform_fusb_notify chip.

Definition fusb_state_snk_discovery (evt : Z) (chip : fusb30x_chip)
    : fusb30x_chip :=
  let chip := set_state policy_snk_wait_caps chip in
  with_timer_state (T_TYPEC_SINK_WAIT_CAP h) chip.

Definition fusb_state_snk_wait_caps (evt : Z) (chip : fusb30x_chip)
    : fusb30x_chip :=
  if has evt EVENT_RX then
    if PACKET_IS_DATA_MSG (rec_head chip) DMT_SOURCECAPABILITIES then
      let chip := with_is_pd_support true chip in
      let chip := with_timer_mux (T_DISABLED h) chip in
      set_state policy_snk_evaluate_caps chip
    else chip
  else if has evt EVENT_TIMER_STATE then
    if hardrst_count chip <=? N_HARDRESET_COUNT h then
      if vbus_begin chip then
        let chip := with_vbus_begin false chip in
        set_state policy_snk_send_softrst chip
      else set_state policy_snk_send_hardrst chip
    else
      if is_pd_support chip then set_state error_recovery chip
      else set_state disabled chip
  else if has evt EVENT_TIMER_MUX
          && (N_HARDRESET_COUNT h <? hardrst_count chip) then
    if is_pd_support chip then set_state error_recovery chip
    else set_state disabled chip
  else chip.

(** The loop of [fusb_state_snk_evaluate_caps] over the received PDOs
    [0 .. n - 1]: the last one of at most 5 V wins. *)
Fixpoint evaluate_caps_loop (n : nat) (chip : fusb30x_chip) : fusb30x_chip :=
  match n with
  | O => chip
  | S i =>
      let chip := evaluate_caps_loop i chip in
      let pdo := load_nth (rec_load chip) (Z.of_nat i) in
      if CAP_POWER_TYPE pdo =? 0 then
        (* Fixed Supply *)
        if CAP_FPDO_VOLTAGE pdo <=? 100
        then with_pos_power (Z.of_nat i + 1) chip else chip
      else if CAP_POWER_TYPE pdo =? 1 then
        (* Battery *)
        if CAP_VPDO_VOLTAGE pdo <=? 100
        then with_pos_power (Z.of_nat i + 1) chip else chip
      else chip
  end.

Definition fusb_state_snk_evaluate_caps (hw : hw_inputs) (evt : Z)
    (chip : fusb30x_chip) : fusb30x_chip :=
  let chip := with_hardrst_count 0 chip in
  let chip := with_pos_power 0 chip in
  let chip :=
    evaluate_caps_loop (Z.to_nat (PD_HEADER_CNT (rec_head chip))) chip in
  let chip := fusb302_set_pos_power_by_charge_ic (charge_dev hw) chip in
  if negb (truthy (pos_power chip)) || (7 <? pos_power chip) then
    let chip := with_pos_power 0 chip in
    set_state policy_snk_wait_caps chip
  else set_state policy_snk_select_cap chip.

Definition fusb_state_snk_select_cap (evt : Z) (chip : fusb30x_chip)
    : fusb30x_chip :=
  let dflt (chip : fusb30x_chip) : fusb30x_chip :=
    if has evt EVENT_RX then
      if PD_HEADER_CNT (rec_head chip) =? 0 then
        let type := PD_HEADER_TYPE (rec_head chip) in
        if type =? CMT_ACCEPT then
          let chip := set_state policy_snk_transition_sink chip in
          with_timer_state (T_PS_TRANSITION h) chip
        else if (type =? CMT_WAIT) || (type =? CMT_REJECT) then
          if is_pd_connected (notify chip) then set_state policy_snk_ready chip
          else
            let chip := set_state policy_snk_wait_caps chip in
            (* make sure don't send hard reset to prevent infinite loop *)
            with_hardrst_count (N_HARDRESET_COUNT h + 1) chip
        else chip
      else chip
    else if has evt EVENT_TIMER_STATE
    then set_state policy_snk_send_hardrst chip
    else chip in
  let entry := sub_state chip in
  let chip :=
    if entry =? 0 then
      let chip := set_mesg DMT_REQUEST DATAMESSAGE chip in
      let chip := with_sub_state 1 chip in
      with_tx_state tx_idle chip
    else chip in
  if (entry =? 0) || (entry =? 1) then
    let '(chip, tmp) := policy_send_data chip in
    match tmp with
    | tx_failed => set_state policy_snk_discovery chip
    | _ =>
        let chip :=
          match tmp with
          | tx_success =>
              let chip := with_timer_state (T_SENDER_RESPONSE h) chip in
              with_sub_state (sub_state chip + 1) chip
          | _ => chip
          end in
        if negb (has evt FLAG_EVENT) then chip else dflt chip
    end
  else dflt chip.

Definition fusb_state_snk_transition_sink (evt : Z) (chip : fusb30x_chip)
    : fusb30x_chip :=
  if has evt EVENT_RX then
    if PACKET_IS_CONTROL_MSG (rec_head chip) CMT_PS_RDY then
      let chip := with_notify (notify_with_is_pd_connected true (notify chip)) chip in
      set_state policy_snk_ready chip
    else if PACKET_IS_DATA_MSG (rec_head chip) DMT_SOURCECAPABILITIES then
      set_state policy_snk_evaluate_caps chip
    else chip
  else if has evt EVENT_TIMER_STATE
  then set_state policy_snk_send_hardrst chip
  else chip.

Definition fusb_state_snk_transition_default (hw : hw_inputs) (evt : Z)
    (chip : fusb30x_chip) : fusb30x_chip :=
  let entry := sub_state chip in
  let chip :=
    if entry =? 0 then
      let chip := with_notify (notify_with_is_pd_connected false (notify chip)) chip in
      let chip := with_timer_mux (T_NO_RESPONSE h) chip in
      let chip := with_timer_state (T_PS_HARD_RESET_MAX h + T_SAFE_0V h) chip in
      with_sub_state (sub_state chip + 1) chip
    else chip in
  if (entry =? 0) || (entry =? 1) then
    if negb (state_vbus hw) then
      let chip := with_sub_state (sub_state chip + 1) chip in
      with_timer_state (T_SRC_RECOVER_MAX h + T_SRC_TURN_ON h) chip
    else if has evt EVENT_TIMER_STATE then set_state policy_snk_startup chip
    else chip
  else
    if state_vbus hw then
      let chip := with_timer_state (T_DISABLED h) chip in
      set_state policy_snk_startup chip
    else if has evt EVENT_TIMER_STATE then set_state policy_snk_startup chip
    else chip.

Definition fusb_state_snk_ready (evt : Z) (chip : fusb30x_chip)
    : fusb30x_chip :=
  let chip :=
    if has evt EVENT_RX then
      if PACKET_IS_DATA_MSG (rec_head chip) DMT_VENDERDEFINED then
        let chip := process_vdm_msg chip in
        let chip := or_work_continue chip in
        with_timer_state (T_DISABLED h) chip
      else if negb (VDM_IS_ACTIVE chip) then fusb_state_swap_msg_process evt chip
      else chip
    else chip in
  let chip := if VDM_IS_ACTIVE chip then auto_vdm_machine evt chip else chip in
  let chip := fusb_state_swap_msg_process evt chip in
  platform_fusb_notify chip.

Definition fusb_state_snk_send_hardreset (evt : Z) (chip : fusb30x_chip)
    : fusb30x_chip :=
  let chip :=
    if sub_state chip =? 0 then
      let chip := with_tx_state tx_idle chip in
      with_sub_state (sub_state chip + 1) chip
    else chip in
  let '(chip, tmp) := policy_send_hardrst evt chip in
  match tmp with
  | tx_success =>
      let chip := with_hardrst_count (hardrst_count chip + 1) chip in
      set_state policy_snk_transition_default chip
  | tx_failed => set_state error_recovery chip
  | _ => chip
  end.

Definition fusb_state_send_swap (evt : Z) (cmd : Z) (chip : fusb30x_chip)
    : fusb30x_chip :=
  let entry := sub_state chip in
  let chip :=
    if entry =? 0 then
      let chip := set_mesg cmd CONTROLMESSAGE chip in
      let chip := with_sub_state 1 chip in
      with_tx_state tx_idle chip
    else chip in
  if (entry =? 0) || (entry =? 1) then
    let '(chip, tmp) := policy_send_data chip in
    match tmp with
    | tx_success =>
        let chip := with_timer_state (T_SENDER_RESPONSE h) chip in
        with_sub_state (sub_state chip + 1) chip
    | tx_failed =>
        if cmd =? CMT_DR_SWAP then set_state error_recovery chip
        else if is_source (power_role (notify chip))
        then set_state policy_src_send_softrst chip
        else set_state policy_snk_send_softrst chip
    | _ => chip
    end
  else if entry =? 2 then
    if has evt EVENT_RX then
      if PACKET_IS_CONTROL_MSG (rec_head chip) CMT_ACCEPT then
        let chip := with_timer_state (T_DISABLED h) chip in
        if cmd =? CMT_VCONN_SWAP then
          set_state
            (if vconn_enabled chip then policy_vcs_dfp_wait_for_ufp_vconn
             else policy_vcs_dfp_turn_on_vconn) chip
        else if cmd =? CMT_PR_SWAP then
          let chip :=
            if is_source (power_role (notify chip))
            then set_state policy_src_prs_transition_to_off chip
            else set_state policy_snk_prs_transition_to_off chip in
          with_notify (notify_with_power_role POWER_ROLE_SOURCE (notify chip)) chip
        else if cmd =? CMT_DR_SWAP then
          set_state
            (if is_dfp (data_role (notify chip)) then policy_drs_dfp_change
             else policy_drs_ufp_change) chip
        else chip
      else if PACKET_IS_CONTROL_MSG (rec_head chip) CMT_REJECT
              || PACKET_IS_CONTROL_MSG (rec_head chip) CMT_WAIT then
        let chip := with_timer_state (T_DISABLED h) chip in
        if is_source (power_role (notify chip)) then set_state policy_src_ready chip
        else set_state policy_snk_ready chip
      else chip
    else if has evt EVENT_TIMER_STATE then
      if is_source (power_role (notify chip)) then set_state policy_src_ready chip
      else set_state policy_snk_ready chip
    else chip
  else chip.

Definition fusb_state_snk_prs_transition_to_off (evt : Z) (chip : fusb30x_chip)
    : fusb30x_chip :=
  let entry := sub_state chip in
  let chip :=
    if entry =? 0 then
      let chip := with_timer_state (T_PD_SOURCE_OFF h) chip in
      with_sub_state (sub_state chip + 1) chip
    else chip in
  if (entry =? 0) || (entry =? 1) then
    if has evt EVENT_RX then
      if PACKET_IS_CONTROL_MSG (rec_head chip) CMT_PS_RDY then
        if role_mode_eqb (role chip) ROLE_MODE_DRP
        then set_state policy_snk_prs_assert_rp chip
        else set_state policy_snk_prs_source_on chip
      else chip
    else if has evt EVENT_TIMER_STATE then
      let chip :=
        with_notify (notify_with_power_role POWER_ROLE_SINK (notify chip)) chip in
      set_state policy_snk_send_hardrst chip
    else chip
  else chip.

Definition fusb_state_snk_prs_assert_rp (evt : Z) (chip : fusb30x_chip)
    : fusb30x_chip :=
  set_state policy_snk_prs_source_on chip.

Definition fusb_state_snk_prs_source_on (evt : Z) (chip : fusb30x_chip)
    : fusb30x_chip :=
  let entry := sub_state chip in
  if entry =? 0 then
    (* supply power in 50ms *)
    let chip := platform_set_vbus_lvl_enable true false chip in
    let chip := with_sub_state (sub_state chip + 1) chip in
    or_work_continue chip
  else if (entry =? 1) || (entry =? 2) then
    let chip :=
      if entry =? 1 then
        let chip := set_mesg CMT_PS_RDY CONTROLMESSAGE chip in
        let chip := with_tx_state tx_idle chip in
        with_sub_state (sub_state chip + 1) chip
      else chip in
    let '(chip, tmp) := policy_send_data chip in
    match tmp with
    | tx_success =>
        (* PD spe 6.5.10.2 *)
        let chip := with_timer_state (T_PD_SWAP_SOURCE_START h) chip in
        with_sub_state (sub_state chip + 1) chip
    | tx_failed =>
        let chip :=
          with_notify (notify_with_power_role POWER_ROLE_SINK (notify chip)) chip in
        set_state policy_snk_send_hardrst chip
    | _ => chip
    end
  else if entry =? 3 then
    if has evt EVENT_TIMER_STATE then
      let chip :=
        with_cc_state (clear_bits (cc_state chip) (CC_STATE_TOGSS_ROLE h)) chip in
      let chip :=
        with_cc_state
          (Z.land (Z.lor (cc_state chip) (CC_STATE_TOGSS_IS_DFP h)) 0xff) chip in
      set_state policy_src_send_caps chip
    else chip
  else chip.

Definition fusb_state_snk_softreset (chip : fusb30x_chip) : fusb30x_chip :=
  let chip :=
    if sub_state chip =? 0 then
      let chip := set_mesg CMT_ACCEPT CONTROLMESSAGE chip in
      let chip := with_tx_state tx_idle chip in
      with_sub_state (sub_state chip + 1) chip
    else chip in
  let '(chip, tmp) := policy_send_data chip in
  match tmp with
  | tx_success =>
      let chip := fusb_soft_reset_parameter chip in
      let chip := with_timer_state (T_TYPEC_SINK_WAIT_CAP h) chip in
      set_state policy_snk_wait_caps chip
  | tx_failed => set_state policy_snk_send_hardrst chip
  | _ => chip
  end.

Definition fusb_state_snk_send_softreset (evt : Z) (chip : fusb30x_chip)
    : fusb30x_chip :=
  let dflt (chip : fusb30x_chip) : fusb30x_chip :=
    if has evt EVENT_RX then
      if (PD_HEADER_CNT (rec_head chip) =? 0)
         && (PD_HEADER_TYPE (rec_head chip) =? CMT_ACCEPT) then
        let chip := fusb_soft_reset_parameter chip in
        let chip := with_timer_state (T_TYPEC_SINK_WAIT_CAP h) chip in
        set_state policy_snk_wait_caps chip
      else chip
    else if has evt EVENT_TIMER_STATE
    then set_state policy_snk_send_hardrst chip
    else chip in
  let entry := sub_state chip in
  let chip :=
    if entry =? 0 then
      let chip := set_mesg CMT_SOFTRESET CONTROLMESSAGE chip in
      let chip := with_tx_state tx_idle chip in
      with_sub_state (sub_state chip + 1) chip
    else chip in
  if (entry =? 0) || (entry =? 1) then
    let '(chip, tmp) := policy_send_data chip in
    let chip :=
      match tmp with
      | tx_success =>
          let chip := with_timer_state (T_SENDER_RESPONSE h) chip in
          with_sub_state (sub_state chip + 1) chip
      | tx_failed => (* can't reach here *) set_state policy_snk_send_hardrst chip
      | _ => chip
      end in
    if negb (has evt FLAG_EVENT) then chip else dflt chip
  else dflt chip.

(** *** The tick *)

Definition state_is (chip : fusb30x_chip) (s : connection_state) : bool :=
  connection_state_beq (conn_state chip) s.

Definition fusb_try_detach (hw : hw_inputs) (chip : fusb30x_chip)
    : fusb30x_chip :=
  if CC_STATE_ROLE chip =? CC_STATE_TOGSS_IS_ACC h then
    let '(c1, c2) := tcpm_get_cc chip (detach_cc hw) in
    if negb (c1 =? TYPEC_CC_VOLT_RA) || negb (c2 =? TYPEC_CC_VOLT_RA)
    then set_state_unattached chip else chip
  else if (CC_STATE_ROLE chip =? CC_STATE_TOGSS_IS_UFP h)
          && negb (state_is chip policy_snk_transition_default)
          && negb (state_is chip policy_src_prs_source_off)
          && negb (state_is chip policy_snk_prs_send_swap)
          && negb (state_is chip policy_snk_prs_assert_rp)
          && negb (state_is chip policy_snk_prs_source_on)
          && negb (state_is chip policy_snk_prs_transition_to_off) then
    if negb (detach_vbus hw) then set_state_unattached chip else chip
  else if negb (state_is chip policy_src_transition_default)
          && negb (state_is chip policy_src_prs_source_off)
          && negb (state_is chip policy_snk_prs_source_on) then
    let '(c1, c2) := tcpm_get_cc chip (detach_cc hw) in
    let c1 := if has (cc_state chip) (CC_STATE_TOGSS_CC2 h) then c2 else c1 in
    if c1 =? TYPEC_CC_VOLT_OPEN then set_state_unattached chip else chip
  else
    (* Detached may occurred at swap operations. So, DON'T ignore the
       EVENT_CC during swapping at all, check the connection after it. *)
    with_work_continue (Z.lor (work_continue chip) EVENT_DELAY_CC) chip.

(** The [switch (chip->conn_state)] of [state_machine_typec]. *)
Definition dispatch (hw : hw_inputs) (evt : Z) (chip : fusb30x_chip)
    : fusb30x_chip :=
  match conn_state chip with
  | disabled => fusb_state_disabled evt chip
  | error_recovery => set_state_unattached chip
  | unattached => fusb_state_unattached hw evt chip
  | attach_wait_sink => fusb_state_attach_wait_sink hw evt chip
  | attach_wait_source => fusb_state_attach_wait_source hw evt chip
  | attached_source => fusb_state_attached_source evt chip
  | attached_sink => fusb_state_attached_sink hw evt chip
  | attach_try_src => fusb_state_try_attach hw evt ROLE_MODE_DFP chip
  | attach_try_snk => fusb_state_try_attach hw evt ROLE_MODE_UFP chip
  | attach_wait_audio_acc => fusb_state_attach_wait_audio_acc hw evt chip
  | attached_audio_acc => fusb_state_attached_audio_acc evt chip
  (* POWER DELIVERY *)
  | policy_src_startup => fusb_state_src_startup evt chip
  | policy_src_discovery => fusb_state_src_discovery evt chip
  | policy_src_send_caps =>
      let chip := fusb_state_src_send_caps evt chip in
      if negb (state_is chip policy_src_negotiate_cap) then chip
      else
        let chip := fusb_state_src_negotiate_cap evt chip in
        fusb_state_src_transition_supply evt chip
  | policy_src_negotiate_cap =>
      let chip := fusb_state_src_negotiate_cap evt chip in
      fusb_state_src_transition_supply evt chip
  | policy_src_transition_supply => fusb_state_src_transition_supply evt chip
  | policy_src_cap_response => fusb_state_src_cap_response evt chip
  | policy_src_transition_default => fusb_state_src_transition_default evt chip
  | policy_src_ready => fusb_state_src_ready evt chip
  | policy_src_get_sink_caps => fusb_state_src_get_sink_cap evt chip
  | policy_src_send_hardrst => fusb_state_src_send_hardreset evt chip
  | policy_src_send_softrst => fusb_state_src_send_softreset evt chip
  | policy_src_softrst => fusb_state_src_softreset chip
  (* UFP *)
  | policy_snk_startup => fusb_state_snk_startup evt chip
  | policy_snk_discovery => fusb_state_snk_discovery evt chip
  | policy_snk_wait_caps => fusb_state_snk_wait_caps evt chip
  | policy_snk_evaluate_caps =>
      let chip := fusb_state_snk_evaluate_caps hw evt chip in
      (* without break *)
      fusb_state_snk_select_cap evt chip
  | policy_snk_select_cap => fusb_state_snk_select_cap evt chip
  | policy_snk_transition_sink => fusb_state_snk_transition_sink evt chip
  | policy_snk_transition_default => fusb_state_snk_transition_default hw evt chip
  | policy_snk_ready => fusb_state_snk_ready evt chip
  | policy_snk_send_hardrst => fusb_state_snk_send_hardreset evt chip
  | policy_snk_send_softrst => fusb_state_snk_send_softreset evt chip
  | policy_snk_softrst => fusb_state_snk_softreset chip
  (* PR SWAP, VC SWAP, DR SWAP *)
  | policy_src_prs_evaluate | policy_snk_prs_evaluate =>
      fusb_state_prs_evaluate evt chip
  | policy_snk_prs_accept | policy_src_prs_accept =>
      fusb_state_prs_accept evt chip
  | policy_snk_prs_reject | policy_src_prs_reject | policy_vcs_ufp_reject
  | policy_drs_dfp_reject | policy_drs_ufp_reject =>
      fusb_state_prs_reject evt chip
  | policy_src_prs_transition_to_off =>
      fusb_state_src_prs_transition_to_off evt chip
  | policy_src_prs_assert_rd => fusb_state_src_prs_assert_rd evt chip
  | policy_src_prs_source_off => fusb_state_src_prs_source_off evt chip
  | policy_snk_prs_send_swap | policy_src_prs_send_swap =>
      fusb_state_send_swap evt CMT_PR_SWAP chip
  | policy_snk_prs_transition_to_off =>
      fusb_state_snk_prs_transition_to_off evt chip
  | policy_snk_prs_assert_rp => fusb_state_snk_prs_assert_rp evt chip
  | policy_snk_prs_source_on => fusb_state_snk_prs_source_on evt chip
  | policy_vcs_ufp_evaluate_swap => fusb_state_vcs_ufp_evaluate_swap evt chip
  | policy_vcs_ufp_accept => fusb_state_vcs_ufp_accept evt chip
  | policy_vcs_ufp_wait_for_dfp_vconn | policy_vcs_dfp_wait_for_ufp_vconn =>
      fusb_state_vcs_wait_for_vconn evt chip
  | policy_vcs_ufp_turn_off_vconn | policy_vcs_dfp_turn_off_vconn =>
      fusb_state_vcs_set_vconn evt false chip
  | policy_vcs_ufp_turn_on_vconn | policy_vcs_dfp_turn_on_vconn =>
      fusb_state_vcs_set_vconn evt true chip
  | policy_vcs_ufp_send_ps_rdy | policy_vcs_dfp_send_ps_rdy =>
      fusb_state_vcs_send_ps_rdy evt chip
  | policy_vcs_dfp_send_swap => fusb_state_send_swap evt CMT_VCONN_SWAP chip
  | policy_drs_ufp_evaluate | policy_drs_dfp_evaluate =>
      fusb_state_drs_evaluate evt chip
  | policy_drs_dfp_accept | policy_drs_ufp_accept =>
      fusb_state_drs_send_accept evt chip
  | policy_drs_dfp_change | policy_drs_ufp_change =>
      fusb_state_drs_role_change evt chip
  | policy_drs_ufp_send_swap | policy_drs_dfp_send_swap =>
      fusb_state_send_swap evt CMT_DR_SWAP chip
  end.

(** [tcpc_alert] then [mux_alert], from [evt = 0]. *)
Definition tick_events (hw : hw_inputs) (chip : fusb30x_chip)
    : fusb30x_chip * Z :=
  let '(chip, evt) := tcpc_alert hw chip 0 in
  mux_alert chip evt.

(** The detach check of a connected port on [EVENT_CC] or
    [EVENT_DELAY_CC]. *)
Definition tick_detach (hw : hw_inputs) (evt : Z) (chip : fusb30x_chip)
    : fusb30x_chip :=
  if is_cc_connected (notify chip) && has evt (Z.lor EVENT_CC EVENT_DELAY_CC)
  then fusb_try_detach hw chip
  else chip.

(** The received message is decoded, and a SOFTRESET control message
    moves the port to the soft-reset state of its power role. *)
Definition tick_receive (hw : hw_inputs) (evt : Z) (chip : fusb30x_chip)
    : fusb30x_chip :=
  if has evt EVENT_RX then
    let chip := tcpm_get_message (rx_fifo hw) chip in
    if PACKET_IS_CONTROL_MSG (rec_head chip) CMT_SOFTRESET then
      if is_source (power_role (notify chip))
      then set_state policy_src_softrst chip
      else set_state policy_snk_softrst chip
    else chip
  else chip.

(** [msg_id] moves on when a transmission has been confirmed. *)
Definition tick_msg_id (evt : Z) (chip : fusb30x_chip) : fusb30x_chip :=
  if has evt EVENT_TX then
    match tx_state chip with
    | tx_success => with_msg_id (msg_id chip + 1) chip
    | _ => chip
    end
  else chip.

(** [state_machine_typec]: one tick of the worker.  With no event the
    tick goes straight to [BACK]; the end of the function only decides
    how the worker is scheduled next, see [work_pending]. *)
Definition state_machine_typec (hw : hw_inputs) (chip : fusb30x_chip)
    : fusb30x_chip :=
  let '(chip, evt) := tick_events hw chip in
  if evt =? 0 then chip
  else
    let chip := tick_detach hw evt chip in
    let chip := tick_receive hw evt chip in
    let chip := tick_msg_id evt chip in
    dispatch hw evt chip.

(** At [BACK] the worker queues itself again, without waiting for an
    interrupt or a timer, exactly when [work_continue] is set. *)
Definition work_pending (chip : fusb30x_chip) : bool :=
  truthy (work_continue chip).

(** The two timers of a port. *)
Inductive port_timer : Type := timer_state_machine | timer_mux_machine.

(** [fusb_timer_handler] for the port owning [timer]: a timer that is
    still wanted reads 0 from then on, which [mux_alert] turns into the
    event of the next tick. *)
Definition fusb_timer_handler (timer : port_timer) (chip : fusb30x_chip)
    : fusb30x_chip :=
  match timer with
  | timer_state_machine =>
      if negb (timer_state chip =? T_DISABLED h) then with_timer_state 0 chip
      else chip
  | timer_mux_machine =>
      if negb (timer_mux chip =? T_DISABLED h) then with_timer_mux 0 chip
      else chip
  end.

(** The port context as [fusb30x_probe] leaves it: zero-allocated, both
    timers disabled, [unattached], one 5 V source capability. *)
Definition probe_chip (role0 try_role0 : role_mode) : fusb30x_chip := {|
  role := role0;
  try_role := try_role0;
  try_role_complete := false;
  conn_state := unattached;
  sub_state := 0;
  val_tmp := 0;
  work_continue := 0;
  cc_state := 0;
  cc1 := 0;
  cc2 := 0;
  cc_polarity := TYPEC_POLARITY_CC1;
  debounce_cnt := 0;
  caps_counter := 0;
  send_head := 0;
  send_load := repeat 0 7;
  rec_head := 0;
  rec_load := repeat 0 7;
  msg_id := 0;
  tx_state := tx_idle;
  hardrst_count := 0;
  pos_power := 0;
  partner_cap := repeat 0 7;
  n_caps_used := 1;
  source_power_supply := 0x64 :: repeat 0 6;
  source_max_current := 0x96 :: repeat 0 6;
  pd_cap_info := {|
    supply_type := 0;
    dual_role_power := 1;
    usb_suspend_support := 0;
    externally_powered := 1;
    usb_communications_cap := 0;
    data_role_swap := 1;
    peak_current := 0 |};
  vdm_state := 0;
  vdm_substate := 0;
  vdm_send_state := 0;
  vdm_svid := repeat 0 12;
  vdm_svid_num := 0;
  vdm_id := 0;
  vconn_enabled := false;
  vconn_supported := true;
  is_pd_support := false;
  pd_output_vol := 0;
  pd_output_cur := 0;
  vbus_begin := false;
  timer_state := T_DISABLED h;
  timer_mux := T_DISABLED h;
  notify := notify_zero;
  notify_cmp := notify_zero;
  retry := false;
  trace := []
|}.

End Machine.

(** ** The three attach-wait handlers under one name *)

Inductive attach_wait : Type := wait_sink | wait_source | wait_audio_acc.

Definition attach_wait_state (w : attach_wait) : connection_state :=
  match w with
  | wait_sink => attach_wait_sink
  | wait_source => attach_wait_source
  | wait_audio_acc => attach_wait_audio_acc
  end.

Definition attach_wait_handler (h : fusb302_h) (w : attach_wait)
    (hw : hw_inputs) (evt : Z) (chip : fusb30x_chip) : fusb30x_chip :=
  match w with
  | wait_sink => fusb_state_attach_wait_sink h hw evt chip
  | wait_source => fusb_state_attach_wait_source h hw evt chip
  | wait_audio_acc => fusb_state_attach_wait_audio_acc h hw evt chip
  end.

(** The one way out of an attach-wait state that does not look at the CC
    lines: [fusb_state_attach_wait_sink] seeing VBUS with the try-DFP
    policy pending or the role trial over. *)
Definition vbus_exit (w : attach_wait) (hw : hw_inputs) (chip : fusb30x_chip)
    : bool :=
  match w with
  | wait_sink =>
      state_vbus hw
      && ((role_mode_eqb (role chip) ROLE_MODE_DRP
           && role_mode_eqb (try_role chip) ROLE_MODE_DFP
           && negb (try_role_complete chip))
          || try_role_complete chip)
  | _ => false
  end.

(** The (cc1, cc2) sample a handler takes in a tick. *)
Definition sample_of (h : fusb302_h) (chip : fusb30x_chip) (hw : hw_inputs)
    : Z * Z :=
  tcpm_get_cc h chip (state_cc hw).

(** The handler run over the ticks [ins], each an event word and the
    hardware readings of the tick, for as long as the port stays in the
    handler's state (the dispatch calls no other handler there). *)
Fixpoint feed (h : fusb302_h) (w : attach_wait) (ins : list (Z * hw_inputs))
    (chip : fusb30x_chip) : fusb30x_chip :=
  match ins with
  | [] => chip
  | i :: rest =>
      if connection_state_beq (conn_state chip) (attach_wait_state w)
      then feed h w rest (attach_wait_handler h w (snd i) (fst i) chip)
      else chip
  end.

(** The samples the handler takes along [feed]. *)
Fixpoint samples (h : fusb302_h) (w : attach_wait) (ins : list (Z * hw_inputs))
    (chip : fusb30x_chip) : list (Z * Z) :=
  match ins with
  | [] => []
  | i :: rest =>
      if connection_state_beq (conn_state chip) (attach_wait_state w)
      then sample_of h chip (snd i)
           :: samples h w rest (attach_wait_handler h w (snd i) (fst i) chip)
      else []
  end.

(** A tick in which the debounce timer has expired. *)
Definition timer_tick (i : Z * hw_inputs) : Prop :=
  has (fst i) EVENT_TIMER_MUX = true.

(** The stored pair is the last sample, and the count is the number of
    samples before it that it repeats. *)
Definition debounced (hist : list (Z * Z)) (c : fusb30x_chip) : Prop :=
  0 <= debounce_cnt c
  /\ exists older,
       hist = older ++ repeat (cc1 c, cc2 c) (S (Z.to_nat (debounce_cnt c))).


(** ** Frames in the receive FIFO

    A frame as the transceiver queues it: the SOP token, the two header
    bytes (low byte first), the bytes of the data objects and the four
    CRC bytes. *)
Definition rx_frame (token head : Z) (payload crc : list Z) : list Z :=
  [token; Z.land head 0xff; Z.land (Z.shiftr head 8) 0xff] ++ payload ++ crc.

(** A GoodCRC frame: a control message, so with no data object. *)
Definition goodcrc_frame (ack : Z * Z * list Z) : list Z :=
  let '(token, head, crc) := ack in rx_frame token head [] crc.

Definition is_goodcrc_frame (ack : Z * Z * list Z) : Prop :=
  let '(_, head, crc) := ack in
  0 <= head < 2 ^ 16
  /\ PACKET_IS_CONTROL_MSG head CMT_GOODCRC = true
  /\ length crc = 4%nat.

(** ** The pin-assignment rule in the words of the specification

    Pins A to F are numbered 0 to 5.  A pin is allowed when the partner
    offers it, when it is not a multi-function config unless the UFP
    prefers multi-function, and when it belongs to the signaling
    generation in use; C and D, when allowed, exclude E and F; the
    highest-numbered candidate is chosen. *)
Definition multi_function_pin (k : Z) : bool := (k =? 1) || (k =? 3) || (k =? 5).
Definition br2_pin (k : Z) : bool := (k =? 0) || (k =? 1).
Definition dp_pin (k : Z) : bool := (2 <=? k) && (k <=? 5).

Definition pin_allowed (caps status k : Z) : bool :=
  Z.testbit (PD_DP_PIN_CAPS caps) k
  && (truthy (PD_VDO_DPSTS_MF_PREF status) || negb (multi_function_pin k))
  && (if truthy (PD_DP_SIGNAL_GEN2 caps) then br2_pin k else dp_pin k).

Definition pin_candidate (caps status k : Z) : bool :=
  pin_allowed caps status k
  && (if pin_allowed caps status 2 || pin_allowed caps status 3
      then (k =? 2) || (k =? 3) else true).

Definition choose_pin_assignment (caps status : Z) : Z :=
  match find (pin_candidate caps status) [5; 4; 3; 2; 1; 0] with
  | Some k => Z.shiftl 1 k
  | None => 0
  end.

(** The function on the three things it reads: the offered pins, the
    generation flag and the multi-function flag. *)
Definition pin_assignment_of (pins : Z) (gen2 mf : bool) : Z :=
  let pin_caps := if negb mf then clear_bits pins MODE_DP_PIN_MF_MASK else pins in
  let pin_caps :=
    if gen2 then clear_bits pin_caps MODE_DP_PIN_DP_MASK
    else clear_bits pin_caps MODE_DP_PIN_BR2_MASK in
  let pin_caps :=
    if truthy (Z.land pin_caps (Z.lor MODE_DP_PIN_C MODE_DP_PIN_D))
    then clear_bits pin_caps (Z.lor MODE_DP_PIN_E MODE_DP_PIN_F) else pin_caps in
  if negb (truthy pin_caps) then 0 else Z.shiftl 1 (high_bit pin_caps).

Definition pin_allowed_of (pins : Z) (gen2 mf : bool) (k : Z) : bool :=
  Z.testbit pins k && (mf || negb (multi_function_pin k))
  && (if gen2 then br2_pin k else dp_pin k).

Definition pin_candidate_of (pins : Z) (gen2 mf : bool) (k : Z) : bool :=
  pin_allowed_of pins gen2 mf k
  && (if pin_allowed_of pins gen2 mf 2 || pin_allowed_of pins gen2 mf 3
      then (k =? 2) || (k =? 3) else true).

Definition choose_of (pins : Z) (gen2 mf : bool) : Z :=
  match find (pin_candidate_of pins gen2 mf) [5; 4; 3; 2; 1; 0] with
  | Some k => Z.shiftl 1 k
  | None => 0
  end.

(** The rules of the claim, checked on one input. *)
Definition pin_rules_hold (pins : Z) (gen2 mf : bool) : bool :=
  let r := pin_assignment_of pins gen2 mf in
  (r =? choose_of pins gen2 mf)
  && (mf || (Z.land r MODE_DP_PIN_MF_MASK =? 0))
  && (if gen2 then Z.land r MODE_DP_PIN_DP_MASK =? 0
      else Z.land r MODE_DP_PIN_BR2_MASK =? 0)
  && (if pin_allowed_of pins gen2 mf 2 || pin_allowed_of pins gen2 mf 3
      then (r =? MODE_DP_PIN_C) || (r =? MODE_DP_PIN_D) else true)
  && (Z.land r pins =? r)
  && ((r =? 0) || existsb (pin_candidate_of pins gen2 mf) [5; 4; 3; 2; 1; 0]).


(** The capability index a Request asks for: bits 30:28 of its first
    data object. *)
Definition requested_index (chip : fusb30x_chip) : Z :=
  Z.land (Z.shiftr (load_nth (rec_load chip) 0) 28) 0x07.

(** The snapshot [platform_fusb_notify] compares with the shadow copy:
    [chip->notify] once the orientation of a connected port has been
    refreshed from the polarity. *)
Definition computed_snapshot (chip : fusb30x_chip) : notify_info :=
  if is_cc_connected (notify chip) then
    notify_with_orientation
      (match cc_polarity chip with
       | TYPEC_POLARITY_CC1 => TYPEC_ORIENTATION_CC1
       | TYPEC_POLARITY_CC2 => TYPEC_ORIENTATION_CC2
       end) (notify chip)
  else notify chip.

(** ** Message headers *)

(** The header word [set_mesg] builds for a control message: no data
    object, the message type in bits 3:0, the message id in bits 11:9. *)
Definition control_header (id prole drole cmd : Z) : Z :=
  Z.lor
    (Z.lor (Z.lor (Z.lor (Z.shiftl (Z.land id 0x7) 9)
                         (Z.shiftl (Z.land prole 0x1) 8))
                  (Z.shiftl 1 6))
           (Z.shiftl (Z.land drole 0x1) 5))
    (Z.land cmd 0xf).


(** ** Readings and ports of the examples

    Updates of one field of the readings of a tick. *)

Definition hw_with_interrupt_comp_chng (v : bool) (hw : hw_inputs) : hw_inputs :=
  Build_hw_inputs v (interrupt_vbusok hw) (interrupta_togdone hw)
    (interrupta_txsent hw) (interrupta_hardrst hw) (interrupta_retryfail hw)
    (interrupta_hardsent hw) (interruptb_gcrcsent hw) (alert_comp hw)
    (status1a hw) (detach_cc hw) (detach_vbus hw) (state_cc hw) (state_vbus
    hw) (rx_fifo hw) (charge_dev hw).

Definition hw_with_interrupt_vbusok (v : bool) (hw : hw_inputs) : hw_inputs :=
  Build_hw_inputs (interrupt_comp_chng hw) v (interrupta_togdone hw)
    (interrupta_txsent hw) (interrupta_hardrst hw) (interrupta_retryfail hw)
    (interrupta_hardsent hw) (interruptb_gcrcsent hw) (alert_comp hw)
    (status1a hw) (detach_cc hw) (detach_vbus hw) (state_cc hw) (state_vbus
    hw) (rx_fifo hw) (charge_dev hw).

Definition hw_with_interrupta_togdone (v : bool) (hw : hw_inputs) : hw_inputs :=
  Build_hw_inputs (interrupt_comp_chng hw) (interrupt_vbusok hw) v
    (interrupta_txsent hw) (interrupta_hardrst hw) (interrupta_retryfail hw)
    (interrupta_hardsent hw) (interruptb_gcrcsent hw) (alert_comp hw)
    (status1a hw) (detach_cc hw) (detach_vbus hw) (state_cc hw) (state_vbus
    hw) (rx_fifo hw) (charge_dev hw).

Definition hw_with_interrupta_txsent (v : bool) (hw : hw_inputs) : hw_inputs :=
  Build_hw_inputs (interrupt_comp_chng hw) (interrupt_vbusok hw)
    (interrupta_togdone hw) v (interrupta_hardrst hw) (interrupta_retryfail
    hw) (interrupta_hardsent hw) (interruptb_gcrcsent hw) (alert_comp hw)
    (status1a hw) (detach_cc hw) (detach_vbus hw) (state_cc hw) (state_vbus
    hw) (rx_fifo hw) (charge_dev hw).

Definition hw_with_interrupta_hardrst (v : bool) (hw : hw_inputs) : hw_inputs :=
  Build_hw_inputs (interrupt_comp_chng hw) (interrupt_vbusok hw)
    (interrupta_togdone hw) (interrupta_txsent hw) v (interrupta_retryfail hw)
    (interrupta_hardsent hw) (interruptb_gcrcsent hw) (alert_comp hw)
    (status1a hw) (detach_cc hw) (detach_vbus hw) (state_cc hw) (state_vbus
    hw) (rx_fifo hw) (charge_dev hw).

Definition hw_with_interrupta_retryfail (v : bool) (hw : hw_inputs) : hw_inputs :=
  Build_hw_inputs (interrupt_comp_chng hw) (interrupt_vbusok hw)
    (interrupta_togdone hw) (interrupta_txsent hw) (interrupta_hardrst hw) v
    (interrupta_hardsent hw) (interruptb_gcrcsent hw) (alert_comp hw)
    (status1a hw) (detach_cc hw) (detach_vbus hw) (state_cc hw) (state_vbus
    hw) (rx_fifo hw) (charge_dev hw).

Definition hw_with_interrupta_hardsent (v : bool) (hw : hw_inputs) : hw_inputs :=
  Build_hw_inputs (interrupt_comp_chng hw) (interrupt_vbusok hw)
    (interrupta_togdone hw) (interrupta_txsent hw) (interrupta_hardrst hw)
    (interrupta_retryfail hw) v (interruptb_gcrcsent hw) (alert_comp hw)
    (status1a hw) (detach_cc hw) (detach_vbus hw) (state_cc hw) (state_vbus
    hw) (rx_fifo hw) (charge_dev hw).

Definition hw_with_interruptb_gcrcsent (v : bool) (hw : hw_inputs) : hw_inputs :=
  Build_hw_inputs (interrupt_comp_chng hw) (interrupt_vbusok hw)
    (interrupta_togdone hw) (interrupta_txsent hw) (interrupta_hardrst hw)
    (interrupta_retryfail hw) (interrupta_hardsent hw) v (alert_comp hw)
    (status1a hw) (detach_cc hw) (detach_vbus hw) (state_cc hw) (state_vbus
    hw) (rx_fifo hw) (charge_dev hw).

Definition hw_with_alert_comp (v : bool) (hw : hw_inputs) : hw_inputs :=
  Build_hw_inputs (interrupt_comp_chng hw) (interrupt_vbusok hw)
    (interrupta_togdone hw) (interrupta_txsent hw) (interrupta_hardrst hw)
    (interrupta_retryfail hw) (interrupta_hardsent hw) (interruptb_gcrcsent
    hw) v (status1a hw) (detach_cc hw) (detach_vbus hw) (state_cc hw)
    (state_vbus hw) (rx_fifo hw) (charge_dev hw).

Definition hw_with_status1a (v : Z) (hw : hw_inputs) : hw_inputs :=
  Build_hw_inputs (interrupt_comp_chng hw) (interrupt_vbusok hw)
    (interrupta_togdone hw) (interrupta_txsent hw) (interrupta_hardrst hw)
    (interrupta_retryfail hw) (interrupta_hardsent hw) (interruptb_gcrcsent
    hw) (alert_comp hw) v (detach_cc hw) (detach_vbus hw) (state_cc hw)
    (state_vbus hw) (rx_fifo hw) (charge_dev hw).

Definition hw_with_detach_cc (v : cc_meas) (hw : hw_inputs) : hw_inputs :=
  Build_hw_inputs (interrupt_comp_chng hw) (interrupt_vbusok hw)
    (interrupta_togdone hw) (interrupta_txsent hw) (interrupta_hardrst hw)
    (interrupta_retryfail hw) (interrupta_hardsent hw) (interruptb_gcrcsent
    hw) (alert_comp hw) (status1a hw) v (detach_vbus hw) (state_cc hw)
    (state_vbus hw) (rx_fifo hw) (charge_dev hw).

Definition hw_with_detach_vbus (v : bool) (hw : hw_inputs) : hw_inputs :=
  Build_hw_inputs (interrupt_comp_chng hw) (interrupt_vbusok hw)
    (interrupta_togdone hw) (interrupta_txsent hw) (interrupta_hardrst hw)
    (interrupta_retryfail hw) (interrupta_hardsent hw) (interruptb_gcrcsent
    hw) (alert_comp hw) (status1a hw) (detach_cc hw) v (state_cc hw)
    (state_vbus hw) (rx_fifo hw) (charge_dev hw).

Definition hw_with_state_cc (v : cc_meas) (hw : hw_inputs) : hw_inputs :=
  Build_hw_inputs (interrupt_comp_chng hw) (interrupt_vbusok hw)
    (interrupta_togdone hw) (interrupta_txsent hw) (interrupta_hardrst hw)
    (interrupta_retryfail hw) (interrupta_hardsent hw) (interruptb_gcrcsent
    hw) (alert_comp hw) (status1a hw) (detach_cc hw) (detach_vbus hw) v
    (state_vbus hw) (rx_fifo hw) (charge_dev hw).

Definition hw_with_state_vbus (v : bool) (hw : hw_inputs) : hw_inputs :=
  Build_hw_inputs (interrupt_comp_chng hw) (interrupt_vbusok hw)
    (interrupta_togdone hw) (interrupta_txsent hw) (interrupta_hardrst hw)
    (interrupta_retryfail hw) (interrupta_hardsent hw) (interruptb_gcrcsent
    hw) (alert_comp hw) (status1a hw) (detach_cc hw) (detach_vbus hw)
    (state_cc hw) v (rx_fifo hw) (charge_dev hw).

Definition hw_with_rx_fifo (v : list Z) (hw : hw_inputs) : hw_inputs :=
  Build_hw_inputs (interrupt_comp_chng hw) (interrupt_vbusok hw)
    (interrupta_togdone hw) (interrupta_txsent hw) (interrupta_hardrst hw)
    (interrupta_retryfail hw) (interrupta_hardsent hw) (interruptb_gcrcsent
    hw) (alert_comp hw) (status1a hw) (detach_cc hw) (detach_vbus hw)
    (state_cc hw) (state_vbus hw) v (charge_dev hw).

Definition hw_with_charge_dev (v : option (Z * Z)) (hw : hw_inputs) : hw_inputs :=
  Build_hw_inputs (interrupt_comp_chng hw) (interrupt_vbusok hw)
    (interrupta_togdone hw) (interrupta_txsent hw) (interrupta_hardrst hw)
    (interrupta_retryfail hw) (interrupta_hardsent hw) (interruptb_gcrcsent
    hw) (alert_comp hw) (status1a hw) (detach_cc hw) (detach_vbus hw)
    (state_cc hw) (state_vbus hw) (rx_fifo hw) v.

(** A UFP port seeing Rp on CC1: the readings of a debounce tick. *)
Definition cc_meas_rp_cc1 : cc_meas := {|
  bc_lvl_cc1 := true; bc_lvl_cc2 := false;
  comp_high_cc1 := false; comp_low_cc1 := false;
  comp_high_cc2 := false; comp_low_cc2 := false
|}.

Definition hw_rp_cc1 : hw_inputs := hw_with_state_cc cc_meas_rp_cc1 hw_quiet.

(** The dual-role port of [probe_chip], with the board constants
    [sample_h]. *)
Definition sample_port : fusb30x_chip :=
  probe_chip sample_h ROLE_MODE_DRP ROLE_MODE_NONE.

(** [sample_port] as [fusb_state_unattached] leaves it when the toggle
    logic reports a sink on CC1: in [attach_wait_sink], the counter at
    0. *)
Definition sample_attach_wait_sink : fusb30x_chip :=
  with_debounce_cnt 0
    (set_state attach_wait_sink
       (with_cc_state
          (Z.lor (CC_STATE_TOGSS_IS_UFP sample_h) (CC_STATE_TOGSS_CC1 sample_h))
          sample_port)).

(** A tick of the debounce timer reading Rp on CC1. *)
Definition debounce_tick : Z * hw_inputs := (EVENT_TIMER_MUX, hw_rp_cc1).

(** A GoodCRC frame (header 0x0041) and a Request frame (header 0x1042,
    one data object asking for capability 1) as the FIFO holds them. *)
Definition sample_goodcrc : Z * Z * list Z := (0xe0, 0x0041, [0x11; 0x22; 0x33; 0x44]).

Definition sample_request_payload : list Z := [0x2c; 0xb1; 0x04; 0x10].

Definition sample_request_frame : list Z :=
  rx_frame 0xe0 0x1042 sample_request_payload [0x55; 0x66; 0x77; 0x88].

(** ** Runs of the worker

    The worker runs a tick when an interrupt, a timer expiry or
    [work_continue] queues it; a timer expiry runs [fusb_timer_handler]
    first. *)
Inductive port_event : Type :=
  | Tick (hw : hw_inputs)
  | Expire (timer : port_timer).

Definition port_step (h : fusb302_h) (chip : fusb30x_chip) (e : port_event)
    : fusb30x_chip :=
  match e with
  | Tick hw => state_machine_typec h hw chip
  | Expire timer => fusb_timer_handler h timer chip
  end.

Definition port_run (h : fusb302_h) (es : list port_event)
    (chip : fusb30x_chip) : fusb30x_chip :=
  fold_left (port_step h) es chip.

(** A tick whose interrupt says the transmission was not acknowledged. *)
Definition hw_retryfail : hw_inputs :=
  hw_with_interrupta_retryfail true hw_quiet.


(** ** Soft reset: a sample tick

    [sample_port] attached as a source and DFP, in
    [policy_src_negotiate_cap] with [sub_state] 2, and a tick whose FIFO
    holds a Soft_Reset control message (header 0x004d). *)
Definition sample_source_notify : notify_info :=
  notify_with_is_pd_connected true
    (notify_with_is_cc_connected true
       (notify_with_data_role DATA_ROLE_DFP
          (notify_with_power_role POWER_ROLE_SOURCE notify_zero))).

Definition sample_source_port : fusb30x_chip :=
  with_notify sample_source_notify
    (with_cc_state
       (Z.lor (CC_STATE_TOGSS_IS_DFP sample_h) (CC_STATE_TOGSS_CC1 sample_h))
       sample_port).

Definition sample_source_negotiating : fusb30x_chip :=
  with_sub_state 2
    (with_work_continue 0
       (set_state policy_src_negotiate_cap sample_source_port)).

Definition hw_rx (fifo : list Z) : hw_inputs :=
  hw_with_interruptb_gcrcsent true (hw_with_rx_fifo fifo hw_quiet).

Definition hw_softreset : hw_inputs :=
  hw_rx (rx_frame 0xe0 0x004d [] [0x11; 0x22; 0x33; 0x44]).

(** ** Confirmed transmissions

    The tick has [EVENT_TX] and the interrupt said the frame was
    acknowledged. *)
Definition tx_confirmed (evt : Z) (chip : fusb30x_chip) : bool :=
  has evt EVENT_TX
  && match tx_state chip with tx_success => true | _ => false end.

(** A source in [policy_src_softrst] whose Accept is in flight, with
    [msg_id] 3, and the tick of the interrupt that confirms it. *)
Definition sample_src_softrst : fusb30x_chip :=
  with_msg_id 3
    (with_tx_state tx_busy
       (with_sub_state 1
          (with_work_continue 0
             (set_state policy_src_softrst sample_source_port)))).

Definition hw_txsent : hw_inputs := hw_with_interrupta_txsent true hw_quiet.

(** ** Where [msg_id] is written

    [msg_id] is written in three places: the increment of
    [state_machine_typec], [pd_execute_hard_reset] and
    [fusb_soft_reset_parameter].

    [tcpc_alert] calls [pd_execute_hard_reset] on the interrupt of a
    received hard reset, and on the hard-sent interrupt while [retry]
    is not set. *)
Definition interrupt_resets (hw : hw_inputs) (chip : fusb30x_chip) : bool :=
  interrupta_hardrst hw || (interrupta_hardsent hw && negb (retry chip)).

(** The handlers call [fusb_soft_reset_parameter] at the start of the
    policy engine, in the soft-reset states once the Accept they sent
    is confirmed, and in the send-soft-reset states when an Accept is
    received. *)
Definition handler_resets (evt : Z) (chip : fusb30x_chip) : bool :=
  match conn_state chip with
  | policy_src_startup | policy_snk_startup => true
  | policy_src_softrst | policy_snk_softrst =>
      negb (sub_state chip =? 0)
      && match tx_state chip with tx_success => true | _ => false end
  | policy_src_send_softrst | policy_snk_send_softrst =>
      has evt EVENT_RX && PACKET_IS_CONTROL_MSG (rec_head chip) CMT_ACCEPT
  | _ => false
  end.

(** The port as the dispatch of a tick finds it, with the events of
    the tick. *)
Definition before_dispatch (h : fusb302_h) (hw : hw_inputs)
    (chip : fusb30x_chip) : fusb30x_chip * Z :=
  let '(c1, evt) := tick_events h hw chip in
  (tick_msg_id evt (tick_receive hw evt (tick_detach h hw evt c1)), evt).

(** A tick that confirms a transmission, and a tick in which one of
    the reset sites is reached. *)
Definition tick_confirms (h : fusb302_h) (hw : hw_inputs)
    (chip : fusb30x_chip) : bool :=
  let '(c1, evt) := tick_events h hw chip in tx_confirmed evt c1.

Definition tick_resets (h : fusb302_h) (hw : hw_inputs)
    (chip : fusb30x_chip) : bool :=
  let '(c4, evt) := before_dispatch h hw chip in
  interrupt_resets hw chip || (negb (evt =? 0) && handler_resets evt c4).

(** The confirmed transmissions of a run, and whether a reset site is
    reached in it. *)
Fixpoint confirmed_sends (h : fusb302_h) (es : list port_event)
    (chip : fusb30x_chip) : nat :=
  match es with
  | [] => 0%nat
  | e :: es' =>
      (match e with
       | Tick hw => if tick_confirms h hw chip then 1%nat else 0%nat
       | Expire _ => 0%nat
       end
       + confirmed_sends h es' (port_step h chip e))%nat
  end.

Fixpoint run_resets (h : fusb302_h) (es : list port_event)
    (chip : fusb30x_chip) : bool :=
  match es with
  | [] => false
  | e :: es' =>
      match e with
      | Tick hw => tick_resets h hw chip
      | Expire _ => false
      end
      || run_resets h es' (port_step h chip e)
  end.

(** The message id of a header: bits 11:9. *)
Definition header_msg_id (head : Z) : Z := Z.land (Z.shiftr head 9) 7.

(** ** A transport that never acknowledges

    What happens next to a port whose transmissions all fail: the
    worker runs again at once when [work_continue] queued it; a
    transmission in flight ends with the retry-fail interrupt; with
    nothing in flight and nothing queued, the next thing to happen is
    the expiry of the state timer. *)
Definition failing_transport (chip : fusb30x_chip) : list port_event :=
  if work_pending chip then [Tick hw_quiet]
  else
    match tx_state chip with
    | tx_busy => [Tick hw_retryfail]
    | _ => [Expire timer_state_machine; Tick hw_quiet]
    end.

Fixpoint never_acked (h : fusb302_h) (rounds : nat) (chip : fusb30x_chip)
    : fusb30x_chip :=
  match rounds with
  | O => chip
  | S k => never_acked h k (port_run h (failing_transport chip) chip)
  end.

(** The frames written to the transmit FIFO. *)
Definition is_tx (o : output) : bool :=
  match o with OutTx _ _ => true | _ => false end.

Definition count_tx (t : list output) : nat := length (filter is_tx t).

(** The phases of the retry loop of [policy_src_send_caps]. *)
Inductive caps_phase : Type :=
  | caps_sending | caps_in_flight | caps_counting | caps_backoff
  | caps_stopped | caps_idle.

(** The port in phase [p] with [k] failed attempts counted and [txs]
    frames written. *)
Definition in_caps_phase (h : fusb302_h) (p : caps_phase) (k : Z) (txs : nat)
    (c : fusb30x_chip) : Prop :=
  caps_counter c = k
  /\ count_tx (trace c) = txs
  /\ (timer_mux c =? 0) = false
  /\ match p with
     | caps_sending =>
         conn_state c = policy_src_send_caps /\ sub_state c = 0
         /\ work_continue c = EVENT_WORK_CONTINUE
         /\ (timer_state c =? 0) = false
     | caps_in_flight =>
         conn_state c = policy_src_send_caps /\ sub_state c = 1
         /\ work_continue c = 0 /\ tx_state c = tx_busy
         /\ (timer_state c =? 0) = false
     | caps_counting =>
         conn_state c = policy_src_discovery /\ sub_state c = 0
         /\ work_continue c = EVENT_WORK_CONTINUE /\ tx_state c = tx_failed
         /\ (timer_state c =? 0) = false
     | caps_backoff =>
         conn_state c = policy_src_discovery /\ sub_state c = 1
         /\ work_continue c = 0 /\ tx_state c = tx_failed
         /\ timer_state c = T_TYPEC_SEND_SOURCECAP h
     | caps_stopped =>
         conn_state c = disabled /\ work_continue c = EVENT_WORK_CONTINUE
         /\ (timer_state c =? 0) = false
     | caps_idle =>
         conn_state c = disabled /\ work_continue c = 0
     end.

(** [sample_source_port] as [fusb_state_src_startup] leaves it: in
    [policy_src_send_caps], nothing counted, the worker queued. *)
Definition sample_send_caps : fusb30x_chip :=
  set_state policy_src_send_caps (with_work_continue 0 sample_source_port).

(** ** VDM NACK

    The received data objects hold a structured VDM whose command type
    is NACK. *)
Definition is_vdm_nack (chip : fusb30x_chip) : bool :=
  truthy (GET_VDMHEAD_STRUCT_TYPE (load_nth (rec_load chip) 0))
  && (GET_VDMHEAD_CMD_TYPE (load_nth (rec_load chip) 0) =? VDM_TYPE_NACK).

(** The tick has a received message, a Vendor_Defined data message that
    is a VDM NACK. *)
Definition vdm_nack_received (evt : Z) (chip : fusb30x_chip) : bool :=
  has evt EVENT_RX
  && PACKET_IS_DATA_MSG (rec_head chip) DMT_VENDERDEFINED
  && is_vdm_nack chip.

(** [sample_source_port] in [policy_src_ready], the sink capabilities
    not asked for yet ([partner_cap] is all zero), and a tick receiving
    the NACK of Discover SVIDs (header 0x104f, VDM header 0xff008082). *)
Definition sample_src_ready : fusb30x_chip :=
  with_work_continue 0 (set_state policy_src_ready sample_source_port).

Definition hw_vdm_nack : hw_inputs :=
  hw_rx (rx_frame 0xe0 0x104f [0x82; 0x80; 0x00; 0xff] [0x11; 0x22; 0x33; 0x44]).

(** ** Reject or Wait in [policy_snk_select_cap]: a sample run

    [sample_port] attached as a sink on CC1, the Request sent and
    acknowledged ([sub_state] 2), no contract yet. *)
Definition sample_sink_notify : notify_info :=
  notify_with_is_cc_connected true notify_zero.

Definition sample_sink_port : fusb30x_chip :=
  with_notify sample_sink_notify
    (with_cc_polarity TYPEC_POLARITY_CC1
       (with_cc_state
          (Z.lor (CC_STATE_TOGSS_IS_UFP sample_h) (CC_STATE_TOGSS_CC1 sample_h))
          sample_port)).

Definition sample_snk_select_cap : fusb30x_chip :=
  with_timer_state (T_SENDER_RESPONSE sample_h)
    (with_tx_state tx_success
       (with_sub_state 2
          (with_work_continue 0
             (set_state policy_snk_select_cap sample_sink_port)))).

(** A Reject (header 0x0044), and a Source_Capabilities message (header
    0x1041) with one fixed 5 V, 3 A capability (0x0001912c). *)
Definition hw_reject : hw_inputs :=
  hw_rx (rx_frame 0xe0 0x0044 [] [0x11; 0x22; 0x33; 0x44]).

Definition hw_source_caps : hw_inputs :=
  hw_rx (rx_frame 0xe0 0x1041 [0x2c; 0x91; 0x01; 0x00] [0x11; 0x22; 0x33; 0x44]).

(** The Reject; then the source advertises again, the sink evaluates
    and sends a Request, which is not acknowledged; the sink goes back
    through [policy_snk_discovery] to [policy_snk_wait_caps], where the
    state timer expires. *)
Definition run_reject : list port_event := [Tick hw_reject].

Definition run_after_reject : list port_event :=
  [Tick hw_source_caps; Tick hw_quiet; Tick hw_retryfail; Tick hw_quiet;
   Tick hw_quiet; Expire timer_state_machine; Tick hw_quiet; Tick hw_quiet].

(** The frames [fusb_state_snk_select_cap] writes in a tick that is not
    stopped by a failed transmission: the Request it has just built
    ([sub_state] 0), the frame in the send buffer if [case 1] finds the
    transmitter idle, nothing otherwise. *)
Definition select_cap_sends (chip : fusb30x_chip) : list output :=
  if sub_state chip =? 0 then
    let m := set_mesg DMT_REQUEST DATAMESSAGE chip in
    [OutTx (send_head m)
       (firstn (Z.to_nat (PD_HEADER_CNT (send_head m))) (send_load m))]
  else if sub_state chip =? 1 then
    match tx_state chip with
    | tx_idle =>
        [OutTx (send_head chip)
           (firstn (Z.to_nat (PD_HEADER_CNT (send_head chip)))
              (send_load chip))]
    | _ => []
    end
  else [].

(** [sample_sink_port] with the Request in flight ([sub_state] 1), and
    the tick whose interrupts say that the Request was acknowledged and
    that a Reject has arrived. *)
Definition sample_snk_request_in_flight : fusb30x_chip :=
  with_timer_state (T_SENDER_RESPONSE sample_h)
    (with_tx_state tx_busy
       (with_sub_state 1
          (with_work_continue 0
             (set_state policy_snk_select_cap sample_sink_port)))).

Definition hw_txsent_reject : hw_inputs :=
  hw_with_interrupta_txsent true hw_reject.
(** ** A Request as the source handles it

    The frames [fusb_state_src_send_caps] writes in a tick that is not
    stopped by a failed transmission: the Source_Capabilities it has
    just built ([sub_state] 0), the frame in the send buffer if
    [case 1] finds the transmitter idle, nothing otherwise. *)
Definition send_caps_sends (chip : fusb30x_chip) : list output :=
  if sub_state chip =? 0 then
    let m := set_mesg DMT_SOURCECAPABILITIES DATAMESSAGE chip in
    [OutTx (send_head m)
       (firstn (Z.to_nat (PD_HEADER_CNT (send_head m))) (send_load m))]
  else if sub_state chip =? 1 then
    match tx_state chip with
    | tx_idle =>
        [OutTx (send_head chip)
           (firstn (Z.to_nat (PD_HEADER_CNT (send_head chip)))
              (send_load chip))]
    | _ => []
    end
  else [].

(** The Accept [fusb_state_src_transition_supply] writes on entry. *)
Definition accept_frame (chip : fusb30x_chip) : output :=
  OutTx
    (control_header (msg_id chip) (power_role_bit (power_role (notify chip)))
       (data_role_bit (data_role (notify chip))) CMT_ACCEPT)
    [].

(** The control messages of type [cmd] among the frames written. *)
Definition is_control_frame (cmd : Z) (o : output) : bool :=
  match o with
  | OutTx head _ => PACKET_IS_CONTROL_MSG head cmd
  | _ => false
  end.

(** [sample_source_port] entering the source policy engine, and a run
    up to the Request: [fusb_state_src_startup], the capabilities
    written, their acknowledgement, then a Request (header 0x1042) for
    the capability of the given index. *)
Definition sample_src_startup : fusb30x_chip :=
  set_state policy_src_startup (with_work_continue 0 sample_source_port).

Definition hw_request (index : Z) : hw_inputs :=
  hw_rx (rx_frame 0xe0 0x1042 [0x2c; 0xb1; 0x04; Z.shiftl index 4]
           [0x55; 0x66; 0x77; 0x88]).

Definition run_request (index : Z) : list port_event :=
  [Tick hw_quiet; Tick hw_quiet; Tick hw_txsent; Tick (hw_request index)].

(** The run of [sample_send_caps] to a contract: capabilities, Request
    for capability 1, Accept, the transition timer, PS_RDY; three
    transmissions, each confirmed. *)
Definition run_contract : list port_event :=
  [Tick hw_quiet; Tick hw_txsent; Tick (hw_request 1); Tick hw_quiet;
   Tick hw_txsent; Expire timer_state_machine; Tick hw_quiet; Tick hw_quiet;
   Tick hw_txsent].

(** ** Quiet ticks and timer expiries

    No bit is set in the interrupt registers [tcpc_alert] reads. *)
Definition interrupts_clear (hw : hw_inputs) : bool :=
  negb (interrupt_comp_chng hw) && negb (interrupt_vbusok hw)
  && negb (interrupta_togdone hw) && negb (interrupta_txsent hw)
  && negb (interrupta_hardrst hw) && negb (interrupta_retryfail hw)
  && negb (interrupta_hardsent hw) && negb (interruptb_gcrcsent hw).

(** The timer field of a port that a timer drives. *)
Definition timer_field (timer : port_timer) (chip : fusb30x_chip) : Z :=
  match timer with
  | timer_state_machine => timer_state chip
  | timer_mux_machine => timer_mux chip
  end.

(** The event a timer raises. *)
Definition timer_event (timer : port_timer) : Z :=
  match timer with
  | timer_state_machine => EVENT_TIMER_STATE
  | timer_mux_machine => EVENT_TIMER_MUX
  end.

(** [sample_port] with the state timer armed. *)
Definition sample_timer_armed : fusb30x_chip :=
  with_timer_state (T_SENDER_RESPONSE sample_h) sample_port.
(** The test of the loop of [fusb_state_snk_evaluate_caps] on one
    received PDO: a fixed or battery supply of at most 100 units of
    50 mV. *)
Definition pdo_within_5v (pdo : Z) : bool :=
  if CAP_POWER_TYPE pdo =? 0 then CAP_FPDO_VOLTAGE pdo <=? 100
  else if CAP_POWER_TYPE pdo =? 1 then CAP_VPDO_VOLTAGE pdo <=? 100
  else false.

(** The test of the loop of [fusb_set_pos_power] on one received PDO:
    a fixed or battery supply within the limits of the charger. *)
Definition pdo_fits (max_vol max_cur pdo : Z) : bool :=
  if CAP_POWER_TYPE pdo =? 0 then
    (CAP_FPDO_VOLTAGE pdo * 50 <=? max_vol)
    && (CAP_FPDO_CURRENT pdo * 10 <=? max_cur)
  else if CAP_POWER_TYPE pdo =? 1 then
    (CAP_VPDO_VOLTAGE pdo * 50 <=? max_vol)
    && (CAP_VPDO_CURRENT pdo * 10 <=? max_cur)
  else false.

(** Received source capabilities of 5 V, 9 V and 15 V (fixed supplies,
    3 A each) in a three-object message. *)
Definition sample_three_caps : fusb30x_chip :=
  with_rec_load
    [Z.lor (Z.shiftl 100 10) 300; Z.lor (Z.shiftl 180 10) 300;
     Z.lor (Z.shiftl 300 10) 300; 0; 0; 0; 0]
    (with_rec_head (Z.lor (Z.shiftl 3 12) DMT_SOURCECAPABILITIES) sample_port).

(** * Properties *)

(** ** Symbolic execution of handlers

    Handlers are chains of field updates under conditionals.  The
    tactics below push a field projection through the updates (by
    conversion, one occurrence at a time), rewrite with what is known of
    the fields of the initial context, and split on the conditions that
    stay undetermined, outermost first. *)

Ltac is_chip_proj p :=
  lazymatch p with
  | role => idtac | try_role => idtac | try_role_complete => idtac
  | conn_state => idtac | sub_state => idtac | val_tmp => idtac
  | work_continue => idtac | cc_state => idtac | cc1 => idtac | cc2 => idtac
  | cc_polarity => idtac | debounce_cnt => idtac | caps_counter => idtac
  | send_head => idtac | send_load => idtac | rec_head => idtac
  | rec_load => idtac | msg_id => idtac | tx_state => idtac
  | hardrst_count => idtac | pos_power => idtac | partner_cap => idtac
  | n_caps_used => idtac | source_power_supply => idtac
  | source_max_current => idtac | pd_cap_info => idtac | vdm_state => idtac
  | vdm_substate => idtac | vdm_send_state => idtac | vdm_svid => idtac
  | vdm_svid_num => idtac | vdm_id => idtac | vconn_enabled => idtac
  | vconn_supported => idtac | is_pd_support => idtac | pd_output_vol => idtac
  | pd_output_cur => idtac | vbus_begin => idtac | timer_state => idtac
  | timer_mux => idtac | notify => idtac | notify_cmp => idtac
  | retry => idtac | trace => idtac
  | orientation => idtac | power_role => idtac | data_role => idtac
  | is_cc_connected => idtac | is_pd_connected => idtac
  | is_enter_mode => idtac | pin_assignment_support => idtac
  | pin_assignment_def => idtac | attention => idtac | dp_status => idtac
  | dp_caps => idtac
  end.

(** The head constant of an application. *)
Ltac head_of t :=
  lazymatch t with
  | ?f _ => head_of f
  | _ => t
  end.

(** [p a], with [a] an application [f x]: [f] leaves the field alone,
    or is the update that sets it, or is unfolded one level.  The first
    two are small equations proved on the spot by computation. *)
Ltac proj_app p a :=
  lazymatch a with
  | ?f ?x =>
      first
        [ let E := fresh "E" in
          assert (E : forall x0, p (f x0) = p x0) by (intros; reflexivity);
          rewrite (E x); clear E
        | lazymatch f with
          | ?s ?v =>
              let E := fresh "E" in
              assert (E : forall v0 x0, p (s v0 x0) = v0) by (intros; reflexivity);
              rewrite (E v x); clear E
          end
        | let g := head_of f in
          tryif is_chip_proj g then fail else unfold g ]
  end.

Ltac proj_step :=
  match goal with
  | |- context [?p ?a] => is_chip_proj p; proj_app p a
  end.

Ltac known_step :=
  match goal with
  | H : ?p ?c = _ |- context [?p ?c] => is_chip_proj p; is_var c; rewrite H
  | H : ?p (?q ?c) = _ |- context [?p (?q ?c)] =>
      is_chip_proj p; is_var c; rewrite H
  end.

Ltac is_ground t :=
  match t with
  | context [?x] => is_var x; fail 1
  | _ => idtac
  end.

Ltac ground_step :=
  match goal with
  | |- context [if ?b then _ else _] =>
      is_ground b;
      let v := eval vm_compute in b in
      lazymatch v with
      | true => change b with true
      | false => change b with false
      end
  end.

Ltac iota_step := progress cbv beta iota zeta.

Ltac split_step :=
  match goal with
  | |- context [if ?b then _ else _] =>
      lazymatch b with
      | context [if _ then _ else _] => fail
      | context [match _ with _ => _ end] => fail
      | _ => destruct b eqn:?
      end
  | |- context [match ?t with tx_idle => _ | _ => _ end] =>
      lazymatch t with
      | context [if _ then _ else _] => fail
      | _ => destruct t eqn:?
      end
  | |- context [match ?t with pair _ _ => _ end] =>
      lazymatch t with
      | if _ then _ else _ => fail
      | match _ with _ => _ end => fail
      | _ =>
          lazymatch type of t with
          | (fusb30x_chip * _)%type => let g := head_of t in unfold g
          | _ => destruct t as [? ?] eqn:?
          end
      end
  end.

Ltac chip_norm := repeat first [proj_step | known_step | iota_step | ground_step].
Ltac chip_eval := repeat first [proj_step | known_step | iota_step | ground_step | split_step].
(** The same with one more rule, tried before a function is unfolded. *)
Ltac chip_eval_with rule :=
  repeat first [rule | proj_step | known_step | iota_step | ground_step | split_step].

(** Boolean tests recorded by [chip_eval], as propositions. *)
Ltac bool_hyps :=
  repeat match goal with
  | H : (_ && _) = true |- _ => apply andb_true_iff in H; destruct H
  | H : (_ || _) = false |- _ => apply orb_false_iff in H; destruct H
  | H : (_ && _) = false |- _ => apply andb_false_iff in H; destruct H
  | H : (_ || _) = true |- _ => apply orb_true_iff in H; destruct H
  | H : negb _ = true |- _ => apply negb_true_iff in H
  | H : negb _ = false |- _ => apply negb_false_iff in H
  | H : (_ =? _) = true |- _ => apply Z.eqb_eq in H
  | H : (_ =? _) = false |- _ => apply Z.eqb_neq in H
  | H : (_ <? _) = true |- _ => apply Z.ltb_lt in H
  | H : (_ <? _) = false |- _ => apply Z.ltb_ge in H
  | H : (_ <=? _) = true |- _ => apply Z.leb_le in H
  | H : (_ <=? _) = false |- _ => apply Z.leb_gt in H
  end.

Ltac finish :=
  repeat split; try reflexivity; try assumption; try discriminate;
  try lia; try congruence.


(** ** Message headers *)

Lemma land_small_cases (x k : Z) (n : nat) :
  k = Z.of_nat n -> 0 <= x < k -> In x (map Z.of_nat (seq 0 n)).
Proof.
  intros -> Hx. apply in_map_iff. exists (Z.to_nat x). split; [lia|].
  apply in_seq. lia.
Qed.

Lemma land_ones_range (x : Z) (n : Z) : 0 <= n -> 0 <= Z.land x (Z.ones n) < 2 ^ n.
Proof. intros Hn. rewrite Z.land_ones by lia. apply Z.mod_pos_bound. lia. Qed.

Lemma control_header_fields (id prole drole cmd : Z) :
  let hd := control_header id prole drole cmd in
  PD_HEADER_CNT hd = 0
  /\ PD_HEADER_TYPE hd = Z.land cmd 0xf
  /\ Z.land (Z.shiftr hd 9) 7 = Z.land id 0x7.
Proof.
  unfold control_header.
  pose proof (land_small_cases (Z.land id 7) 8 8 eq_refl (land_ones_range id 3 ltac:(lia))) as Hi.
  pose proof (land_small_cases (Z.land prole 1) 2 2 eq_refl (land_ones_range prole 1 ltac:(lia))) as Hp.
  pose proof (land_small_cases (Z.land drole 1) 2 2 eq_refl (land_ones_range drole 1 ltac:(lia))) as Hd.
  pose proof (land_small_cases (Z.land cmd 15) 16 16 eq_refl (land_ones_range cmd 4 ltac:(lia))) as Hc.
  revert Hi Hp Hd Hc.
  generalize (Z.land id 7) (Z.land prole 1) (Z.land drole 1) (Z.land cmd 15).
  intros a b d c Hi Hp Hd Hc.
  cbn [map seq In] in Hi, Hp, Hd, Hc.
  repeat match goal with H : _ \/ _ |- _ => destruct H as [<-|H] end;
    try contradiction; repeat split.
Qed.

Lemma set_mesg_control (cmd : Z) (c : fusb30x_chip) :
  set_mesg cmd CONTROLMESSAGE c
  = with_send_head
      (control_header (msg_id c) (power_role_bit (power_role (notify c)))
         (data_role_bit (data_role (notify c))) cmd) c.
Proof.
  destruct c as [? ? ? ? ? ? ? ? ? ? ? ? ? ? ? ? ? ? ? ? ? ? ? ? ? ? ? ? ? ? ? ? ? ? ? ? ? ? ? ? n ncmp ? tr].
  reflexivity.
Qed.

Section Shapes.
Variable h : fusb302_h.

Lemma platform_fusb_notify_shape (c : fusb30x_chip) :
  exists o a n' t,
    platform_fusb_notify c =
    with_trace t
      (with_notify_cmp n'
         (with_notify
            (notify_with_attention a (notify_with_orientation o (notify c))) c)).
Proof.
  exists (orientation (notify (platform_fusb_notify c))),
         (attention (notify (platform_fusb_notify c))),
         (notify_cmp (platform_fusb_notify c)),
         (trace (platform_fusb_notify c)).
  destruct c as [? ? ? ? ? ? ? ? ? ? ? ? ? ? ? ? ? ? ? ? ? ? ? ? ? ? ? ? ? ? ? ? ? ? ? ? ? ? ? ? n ncmp ? tr].
  destruct n as [o pr dr cc pd em ps pdf att st cp].
  unfold platform_fusb_notify; cbn.
  destruct cc; cbn;
    match goal with |- context [notify_info_eqb ?a ?b] =>
      destruct (notify_info_eqb a b) end; reflexivity.
Qed.

Lemma set_state_unattached_shape (c : fusb30x_chip) :
  exists n' t,
    set_state_unattached h c =
    with_try_role_complete false
      (with_trace t
         (with_notify_cmp n'
            (with_notify notify_zero
               (set_state unattached
                  (with_vconn_enabled false (with_cc_state 0 c)))))).
Proof.
  exists (notify_cmp (set_state_unattached h c)), (trace (set_state_unattached h c)).
  destruct c as [? ? ? ? ? ? ? ? ? ? ? ? ? ? ? ? ? ? ? ? ? ? ? ? ? ? ? ? ? ? ? ? ? ? ? ? ? ? ? ? n ncmp ? tr].
  unfold set_state_unattached, platform_fusb_notify; cbn.
  destruct (_ && _); cbn;
    match goal with |- context [notify_info_eqb ?a ?b] =>
      destruct (notify_info_eqb a b) end; reflexivity.
Qed.
(** [tcpm_get_message] writes the receive buffers and nothing else. *)
Lemma tcpm_get_message_shape (fifo : list Z) (c : fusb30x_chip) :
  exists hd ld, tcpm_get_message fifo c = with_rec_load ld (with_rec_head hd c).
Proof.
  unfold tcpm_get_message.
  destruct (tcpm_get_message_loop _ fifo) as [[hd buf] rest].
  eexists; eexists; reflexivity.
Qed.

(** [set_mesg] writes the send buffers and nothing else. *)
Lemma set_mesg_shape (cmd : Z) (is_DMT : bool) (c : fusb30x_chip) :
  exists hd ld, set_mesg cmd is_DMT c = with_send_load ld (with_send_head hd c).
Proof.
  exists (send_head (set_mesg cmd is_DMT c)), (send_load (set_mesg cmd is_DMT c)).
  destruct c as [? ? ? ? ? ? ? ? ? ? ? ? ? ? ? ? ? ? ? ? ? ? ? ? ? ? ? ? ? ? ? ? ? ? ? ? ? ? ? ? n ncmp ? tr].
  unfold set_mesg.
  destruct is_DMT; [|reflexivity].
  destruct (cmd =? DMT_SOURCECAPABILITIES); [reflexivity|].
  destruct (cmd =? DMT_REQUEST); reflexivity.
Qed.

(** The capability loops write [pos_power], and the charger limits
    [pd_output_vol] and [pd_output_cur] as well, nothing else. *)
Lemma evaluate_caps_loop_shape (n : nat) (c : fusb30x_chip) :
  exists p, evaluate_caps_loop n c = with_pos_power p c.
Proof.
  induction n as [|i [p IH]].
  - exists (pos_power c). destruct c; reflexivity.
  - cbn [evaluate_caps_loop]. cbv zeta. rewrite IH.
    repeat match goal with
           | |- context [if ?b then _ else _] => destruct b
           end; eexists; reflexivity.
Qed.

Lemma fusb_set_pos_power_from_shape (n : nat) (max_vol max_cur : Z)
    (c : fusb30x_chip) :
  exists p v i,
    fusb_set_pos_power_from n max_vol max_cur c
    = with_pd_output_cur i (with_pd_output_vol v (with_pos_power p c)).
Proof.
  induction n as [|k IH].
  - exists (pos_power c), (pd_output_vol c), (pd_output_cur c).
    destruct c; reflexivity.
  - cbn [fusb_set_pos_power_from]. cbv zeta.
    repeat match goal with
           | |- context [if ?b then _ else _] => destruct b
           end; try exact IH; do 3 eexists; reflexivity.
Qed.

Lemma fusb302_set_pos_power_by_charge_ic_shape (charge : option (Z * Z))
    (c : fusb30x_chip) :
  exists p v i,
    fusb302_set_pos_power_by_charge_ic charge c
    = with_pd_output_cur i (with_pd_output_vol v (with_pos_power p c)).
Proof.
  unfold fusb302_set_pos_power_by_charge_ic, fusb_set_pos_power.
  destruct charge as [[max_vol max_cur]|];
    [destruct ((0 <? max_vol) && (0 <? max_cur));
       [apply fusb_set_pos_power_from_shape|]|];
    exists (pos_power c), (pd_output_vol c), (pd_output_cur c);
    destruct c; reflexivity.
Qed.

(** [set_vdm_mesg] writes the send buffers and the pin assignment of
    the snapshot, nothing else. *)
Lemma set_vdm_mesg_shape (cmd type mode : Z) (c : fusb30x_chip) :
  exists hd ld pin,
    set_vdm_mesg cmd type mode c
    = with_notify (notify_with_pin_assignment_def pin (notify c))
        (with_send_load ld (with_send_head hd c)).
Proof.
  exists (send_head (set_vdm_mesg cmd type mode c)),
         (send_load (set_vdm_mesg cmd type mode c)),
         (pin_assignment_def (notify (set_vdm_mesg cmd type mode c))).
  destruct c as [? ? ? ? ? ? ? ? ? ? ? ? ? ? ? ? ? ? ? ? ? ? ? ? ? ? ? ? ? ? ? ? ? ? ? ? ? ? ? ? n ncmp ? tr].
  destruct n.
  unfold set_vdm_mesg. cbv zeta.
  repeat match goal with
         | |- context [if ?b then _ else _] => destruct b
         end; reflexivity.
Qed.

(** [store_svids] writes the SVID table and its count, nothing else. *)
Lemma store_svids_shape (idx : list Z) (c : fusb30x_chip) :
  exists sv n, store_svids idx c = with_vdm_svid_num n (with_vdm_svid sv c).
Proof.
  revert c. induction idx as [|i rest IH]; intros c.
  - exists (vdm_svid c), (vdm_svid_num c). destruct c; reflexivity.
  - cbn [store_svids]. cbv zeta.
    destruct (truthy _).
    + destruct (truthy _).
      * match goal with |- context [store_svids rest ?x] =>
          destruct (IH x) as (sv & n & ->) end.
        do 2 eexists; reflexivity.
      * do 2 eexists; reflexivity.
    + exists (vdm_svid c), (vdm_svid_num c). destruct c; reflexivity.
Qed.

End Shapes.

(** The rule of [chip_eval_with] that replaces a call by its shape. *)
Ltac shape_step :=
  match goal with
  | |- context [set_vdm_mesg ?cmd ?ty ?mode ?x] =>
      let hd := fresh "hd" in
      let ld := fresh "ld" in
      let pin := fresh "pin" in
      let E := fresh "E" in
      destruct (set_vdm_mesg_shape cmd ty mode x) as (hd & ld & pin & E);
      rewrite E; clear E
  | |- context [store_svids ?idx ?x] =>
      let sv := fresh "sv" in
      let n := fresh "n" in
      let E := fresh "E" in
      destruct (store_svids_shape idx x) as (sv & n & E);
      rewrite E; clear E
  | |- context [evaluate_caps_loop ?n ?x] =>
      let p := fresh "p" in
      let E := fresh "E" in
      destruct (evaluate_caps_loop_shape n x) as (p & E);
      rewrite E; clear E
  | |- context [fusb302_set_pos_power_by_charge_ic ?ch ?x] =>
      let p := fresh "p" in
      let v := fresh "v" in
      let i := fresh "i" in
      let E := fresh "E" in
      destruct (fusb302_set_pos_power_by_charge_ic_shape ch x) as (p & v & i & E);
      rewrite E; clear E
  | |- context [set_mesg ?cmd CONTROLMESSAGE ?x] =>
      rewrite (set_mesg_control cmd x)
  | |- context [set_mesg ?cmd ?d ?x] =>
      let hd := fresh "hd" in
      let ld := fresh "ld" in
      let E := fresh "E" in
      destruct (set_mesg_shape cmd d x) as (hd & ld & E);
      rewrite E; clear E
  | |- context [tcpm_get_message ?f ?x] =>
      let hd := fresh "hd" in
      let ld := fresh "ld" in
      let E := fresh "E" in
      destruct (tcpm_get_message_shape f x) as (hd & ld & E);
      rewrite E; clear E
  | |- context [set_state_unattached ?h ?x] =>
      let n := fresh "ncmp" in
      let t := fresh "tr" in
      let E := fresh "E" in
      destruct (set_state_unattached_shape h x) as (n & t & E);
      rewrite E; clear E
  | |- context [platform_fusb_notify ?x] =>
      let o := fresh "o" in
      let a := fresh "a" in
      let n := fresh "ncmp" in
      let t := fresh "tr" in
      let E := fresh "E" in
      destruct (platform_fusb_notify_shape x) as (o & a & n & t & E);
      rewrite E; clear E
  end.

Ltac chip_exec :=
  repeat first [ shape_step | proj_step | known_step | iota_step
               | ground_step | split_step ].


(** A condition decided by a hypothesis. *)
Ltac cond_step :=
  match goal with
  | H : ?b = true |- context [?b] =>
      lazymatch b with true => fail | false => fail | _ => rewrite H end
  | H : ?b = false |- context [?b] =>
      lazymatch b with true => fail | false => fail | _ => rewrite H end
  end.

(** Closed comparisons, and conjunctions and disjunctions with a
    decided side. *)
Ltac eval_closed t :=
  is_ground t;
  let v := eval vm_compute in t in
  lazymatch v with
  | true => change t with true
  | false => change t with false
  end.

Ltac bool_step :=
  match goal with
  | |- context [Z.eqb ?a ?b] => eval_closed (Z.eqb a b)
  | |- context [Z.ltb ?a ?b] => eval_closed (Z.ltb a b)
  | |- context [Z.leb ?a ?b] => eval_closed (Z.leb a b)
  | |- context [negb true] => change (negb true) with false
  | |- context [negb false] => change (negb false) with true
  | |- context [andb true ?b] => change (andb true b) with b
  | |- context [andb false ?b] => change (andb false b) with false
  | |- context [orb true ?b] => change (orb true b) with true
  | |- context [orb false ?b] => change (orb false b) with b
  | |- context [andb ?b false] => rewrite (andb_false_r b)
  | |- context [andb ?b true] => rewrite (andb_true_r b)
  | |- context [orb ?b false] => rewrite (orb_false_r b)
  | |- context [orb ?b true] => rewrite (orb_true_r b)
  end.

Ltac chip_run :=
  repeat first [ shape_step | proj_step | known_step | iota_step
               | ground_step | bool_step | cond_step | split_step ].

(** ** Frame properties: what a handler leaves alone

    For a goal about one field [p] of the result of a handler, the
    conditions on the way need not be decided.  The tactic works on the
    argument of [p] only: it rewrites with the frame lemmas [rw] of the
    functions called, pushes [p] through the updates, and splits on the
    condition right under the projection, whatever it is. *)
Ltac frame_proj p :=
  match goal with
  | |- context [p ?a] => proj_app p a
  end.

Ltac split_term a :=
  lazymatch a with
  | if ?b then _ else _ => destruct b
  | match ?t with pair _ _ => _ end => split_term t
  | match ?t with tx_idle => _ | _ => _ end => split_term t
  | match ?t with VDM_OK => _ | _ => _ end => split_term t
  | match ?t with Some _ => _ | None => _ end => split_term t
  | match ?t with ROLE_MODE_NONE => _ | _ => _ end => split_term t
  | _ =>
      lazymatch type of a with
      | (fusb30x_chip * _)%type => let g := head_of a in unfold g
      | _ =>
          first
            [ lazymatch a with
              | ?q ?x => is_chip_proj q; tryif is_var x then fail else proj_app q x
              end
            | destruct a ]
      end
  end.

Ltac frame_split p :=
  match goal with
  | |- context [p ?a] =>
      lazymatch a with
      | if _ then _ else _ => split_term a
      | match _ with _ => _ end => split_term a
      end
  end.

Section SendShapes.
Variable h : fusb302_h.

(** [policy_send_data] and [policy_send_hardrst] write the trace and
    [tx_state] (and the state timer), and return the [tx_state] they
    leave. *)
Lemma policy_send_data_shape (c : fusb30x_chip) :
  exists t ts,
    policy_send_data c = (with_tx_state ts (with_trace t c), ts).
Proof.
  unfold policy_send_data. destruct (tx_state c) eqn:E; cbv zeta.
  1: exists (trace c ++ [OutTx (send_head c)
                           (firstn (Z.to_nat (PD_HEADER_CNT (send_head c)))
                              (send_load c))]), tx_busy; reflexivity.
  all: exists (trace c), (tx_state c); rewrite E; destruct c;
    cbn in E; subst; reflexivity.
Qed.

Lemma policy_send_hardrst_shape (evt : Z) (c : fusb30x_chip) :
  exists t ts tm,
    policy_send_hardrst h evt c
    = (with_timer_state tm (with_tx_state ts (with_trace t c)), ts).
Proof.
  unfold policy_send_hardrst. destruct (tx_state c) eqn:E; cbv zeta.
  1: exists (trace c ++ [OutHardReset]), tx_busy, (T_BMC_TIMEOUT h); reflexivity.
  all: destruct (has evt EVENT_TIMER_STATE);
    [ exists (trace c), tx_success, (timer_state c); destruct c; reflexivity
    | exists (trace c), (tx_state c), (timer_state c); rewrite E; destruct c;
      cbn in E; subst; reflexivity ].
Qed.
End SendShapes.

Ltac send_shape_step :=
  match goal with
  | |- context [policy_send_data ?x] =>
      let t := fresh "t" in
      let ts := fresh "ts" in
      let E := fresh "E" in
      destruct (policy_send_data_shape x) as (t & ts & E);
      rewrite E; clear E
  | |- context [policy_send_hardrst ?h ?evt ?x] =>
      let t := fresh "t" in
      let ts := fresh "ts" in
      let tm := fresh "tm" in
      let E := fresh "E" in
      destruct (policy_send_hardrst_shape h evt x) as (t & ts & tm & E);
      rewrite E; clear E
  end.

Ltac frame_run_with p rw :=
  repeat first [ rw | shape_step | send_shape_step | frame_proj p | iota_step
               | frame_split p ].

Ltac frame_run p := frame_run_with p ltac:(fail).

(** ** Sending, as the handlers use it *)

Lemma has_rx_flag (evt : Z) :
  has evt EVENT_RX = true -> has evt FLAG_EVENT = true.
Proof.
  unfold has, FLAG_EVENT. intros H.
  apply negb_true_iff, Z.eqb_neq in H. apply negb_true_iff, Z.eqb_neq.
  intros E. apply H. rewrite !Z.land_lor_distr_r in E.
  apply Z.lor_eq_0_iff in E. destruct E as [E _].
  apply Z.lor_eq_0_iff in E. destruct E as [E _]. exact E.
Qed.

(** [policy_send_data] writes the frame of the send buffer when the
    transmitter is idle, and otherwise only reports [tx_state]. *)
Lemma policy_send_data_idle (c : fusb30x_chip) :
  tx_state c = tx_idle ->
  policy_send_data c
  = (with_tx_state tx_busy
       (emit (OutTx (send_head c)
                (firstn (Z.to_nat (PD_HEADER_CNT (send_head c))) (send_load c)))
          c),
     tx_busy).
Proof. intros H. unfold policy_send_data. rewrite H. reflexivity. Qed.

Lemma policy_send_data_wait (c : fusb30x_chip) :
  tx_state c <> tx_idle -> policy_send_data c = (c, tx_state c).
Proof.
  intros H. unfold policy_send_data.
  destruct (tx_state c) eqn:E; [contradiction H; reflexivity | ..];
    cbv beta iota zeta; rewrite E; reflexivity.
Qed.

(** ** The steps of a tick *)

Section TickSteps.
Variable h : fusb302_h.

(** The tick as its five steps. *)
Lemma state_machine_typec_steps (hw : hw_inputs) (c : fusb30x_chip) :
  state_machine_typec h hw c
  = let c1 := fst (tick_events h hw c) in
    let evt := snd (tick_events h hw c) in
    if evt =? 0 then c1
    else dispatch h hw evt
           (tick_msg_id evt (tick_receive hw evt (tick_detach h hw evt c1))).
Proof.
  unfold state_machine_typec. destruct (tick_events h hw c) as [c1 evt].
  reflexivity.
Qed.

(** With no interrupt pending [tcpc_alert] changes nothing. *)
Lemma tcpc_alert_quiet (c : fusb30x_chip) (evt : Z) :
  tcpc_alert h hw_quiet c evt = (c, evt).
Proof. reflexivity. Qed.

(** The retry-fail interrupt alone: the transmission has failed. *)
Lemma tcpc_alert_retryfail (c : fusb30x_chip) (evt : Z) :
  tcpc_alert h hw_retryfail c evt
  = (with_tx_state tx_failed c, Z.lor evt EVENT_TX).
Proof. reflexivity. Qed.

(** [mux_alert] with no timer expired: the queued events are taken. *)
Lemma mux_alert_no_timer (c : fusb30x_chip) (evt : Z) :
  (timer_mux c =? 0) = false ->
  (timer_state c =? 0) = false ->
  mux_alert h c evt
  = if truthy (work_continue c)
    then (with_work_continue 0 c, Z.lor evt (work_continue c))
    else (c, evt).
Proof.
  intros Hm Hs. unfold mux_alert. rewrite Hm, Hs. reflexivity.
Qed.

(** [mux_alert] with the state timer expired and nothing queued. *)
Lemma mux_alert_state_timer (c : fusb30x_chip) (evt : Z) :
  (timer_mux c =? 0) = false ->
  timer_state c = 0 ->
  work_continue c = 0 ->
  mux_alert h c evt
  = (with_timer_state (T_DISABLED h) c, Z.lor evt EVENT_TIMER_STATE).
Proof.
  intros Hm Hs Hw. unfold mux_alert. rewrite Hm, Hs.
  change (0 =? 0) with true. cbv iota.
  assert (E : work_continue (with_timer_state (T_DISABLED h) c) = work_continue c)
    by reflexivity.
  rewrite E, Hw. reflexivity.
Qed.

(** The steps before the dispatch do nothing on an event word without
    the CC, RX and TX bits. *)
Lemma pre_dispatch_idle (hw : hw_inputs) (evt : Z) (c : fusb30x_chip) :
  has evt (Z.lor EVENT_CC EVENT_DELAY_CC) = false ->
  has evt EVENT_RX = false ->
  has evt EVENT_TX = false ->
  tick_msg_id evt (tick_receive hw evt (tick_detach h hw evt c)) = c.
Proof.
  intros H1 H2 H3. unfold tick_detach. rewrite H1, andb_false_r.
  unfold tick_receive. rewrite H2. unfold tick_msg_id. rewrite H3.
  reflexivity.
Qed.

(** A failed transmission leaves [msg_id] alone. *)
Lemma pre_dispatch_tx_failed (hw : hw_inputs) (evt : Z) (c : fusb30x_chip) :
  has evt (Z.lor EVENT_CC EVENT_DELAY_CC) = false ->
  has evt EVENT_RX = false ->
  tx_state c = tx_failed ->
  tick_msg_id evt (tick_receive hw evt (tick_detach h hw evt c)) = c.
Proof.
  intros H1 H2 H3. unfold tick_detach. rewrite H1, andb_false_r.
  unfold tick_receive. rewrite H2. unfold tick_msg_id. rewrite H3.
  destruct (has evt EVENT_TX); reflexivity.
Qed.

End TickSteps.

Section Debounce.
Variable h : fusb302_h.

(** The debounce step: a sample equal to the stored pair is counted, a
    different one is stored and the count restarts. *)
Lemma debounce_sample_cases (c1 c2 : Z) (c : fusb30x_chip) :
  let d := debounce_sample c1 c2 c in
  cc1 d = c1 /\ cc2 d = c2
  /\ (((c1, c2) = (cc1 c, cc2 c) /\ debounce_cnt d = debounce_cnt c + 1)
      \/ ((c1, c2) <> (cc1 c, cc2 c) /\ debounce_cnt d = 0)).
Proof.
  unfold debounce_sample. chip_eval; bool_hyps; repeat split; auto;
    try (left; split; congruence);
    right; split; auto; congruence.
Qed.

(** One tick of an attach-wait handler with the debounce timer expired:
    it leaves by VBUS, or leaves because the count has passed
    [N_DEBOUNCE_CNT], or stays with the debounced sample. *)
Lemma attach_wait_handler_cases (w : attach_wait) (hw : hw_inputs) (evt : Z)
    (c : fusb30x_chip) :
  conn_state c = attach_wait_state w ->
  has evt EVENT_TIMER_MUX = true ->
  let c' := attach_wait_handler h w hw evt c in
  let d := debounce_sample (fst (sample_of h c hw)) (snd (sample_of h c hw)) c in
  (vbus_exit w hw c = true /\ conn_state c' <> attach_wait_state w)
  \/ (vbus_exit w hw c = false /\ N_DEBOUNCE_CNT h < debounce_cnt d
      /\ conn_state c' <> attach_wait_state w
      /\ debounce_cnt c' = debounce_cnt d)
  \/ (vbus_exit w hw c = false /\ debounce_cnt d <= N_DEBOUNCE_CNT h
      /\ conn_state c' = attach_wait_state w
      /\ cc_state c' = cc_state c
      /\ debounce_cnt c' = debounce_cnt d
      /\ cc1 c' = cc1 d /\ cc2 c' = cc2 d).
Proof.
  intros Hs Hevt c' d. subst c' d.
  destruct w; cbn [attach_wait_handler attach_wait_state vbus_exit] in *;
    unfold sample_of, debounce_sample.
  - unfold fusb_state_attach_wait_sink. rewrite Hevt.
    change (tcpm_get_cc h (with_timer_mux (T_DISABLED h) c) (state_cc hw))
      with (tcpm_get_cc h c (state_cc hw)).
    destruct (tcpm_get_cc h c (state_cc hw)) as [s1 s2]. cbn [fst snd].
    chip_exec.
    all: bool_hyps; cbn [andb orb];
      first [ left; solve [finish]
            | right; left; solve [finish]
            | right; right; solve [finish] ].
  - unfold fusb_state_attach_wait_source. rewrite Hevt.
    destruct (tcpm_get_cc h c (state_cc hw)) as [s1 s2]. cbn [fst snd].
    chip_exec.
    all: bool_hyps; cbn [andb orb];
      first [ left; solve [finish]
            | right; left; solve [finish]
            | right; right; solve [finish] ].
  - unfold fusb_state_attach_wait_audio_acc. rewrite Hevt.
    destruct (tcpm_get_cc h c (state_cc hw)) as [s1 s2]. cbn [fst snd].
    chip_exec.
    all: bool_hyps; cbn [andb orb];
      first [ left; solve [finish]
            | right; left; solve [finish]
            | right; right; solve [finish] ].
Qed.

Lemma connection_state_beq_refl (s : connection_state) :
  connection_state_beq s s = true.
Proof. destruct s; reflexivity. Qed.

Lemma connection_state_beq_neq (s t : connection_state) :
  s <> t -> connection_state_beq s t = false.
Proof.
  intros Hne. destruct (connection_state_beq s t) eqn:E; [|reflexivity].
  exfalso. apply Hne. destruct s, t; try discriminate E; reflexivity.
Qed.

Lemma feed_out (w : attach_wait) (ins : list (Z * hw_inputs))
    (c : fusb30x_chip) :
  conn_state c <> attach_wait_state w -> feed h w ins c = c.
Proof.
  intros Hne. destruct ins as [|i rest]; [reflexivity|].
  cbn [feed]. now rewrite (connection_state_beq_neq _ _ Hne).
Qed.

Lemma feed_app (w : attach_wait) (ins : list (Z * hw_inputs))
    (i : Z * hw_inputs) (c : fusb30x_chip) :
  conn_state (feed h w ins c) = attach_wait_state w ->
  feed h w (ins ++ [i]) c
  = attach_wait_handler h w (snd i) (fst i) (feed h w ins c)
  /\ samples h w (ins ++ [i]) c
     = samples h w ins c ++ [sample_of h (feed h w ins c) (snd i)].
Proof.
  revert c. induction ins as [|j rest IH]; intros c Hs.
  - cbn [feed samples app] in *. rewrite Hs, connection_state_beq_refl. auto.
  - cbn [feed samples app] in *.
    destruct (connection_state_beq (conn_state c) (attach_wait_state w)) eqn:E.
    + destruct (IH _ Hs) as [E1 E2]. rewrite E1, E2. auto.
    + exfalso. destruct (conn_state c), w; cbn in E, Hs; congruence.
Qed.

Lemma debounced_step (hist : list (Z * Z)) (s : Z * Z) (c : fusb30x_chip) :
  debounced hist c ->
  debounced (hist ++ [s]) (debounce_sample (fst s) (snd s) c).
Proof.
  intros [Hc [older Hh]].
  destruct (debounce_sample_cases (fst s) (snd s) c) as (E1 & E2 & [[Es Ec]|[Es Ec]]);
    unfold debounced; rewrite E1, E2, Ec, <- surjective_pairing.
  - split; [lia|]. exists older. subst hist.
    rewrite <- surjective_pairing in Es. rewrite <- Es.
    replace (Z.to_nat (debounce_cnt c + 1)) with (S (Z.to_nat (debounce_cnt c))) by lia.
    rewrite <- app_assoc. f_equal.
    change [s] with (repeat s 1). rewrite <- repeat_app. f_equal. lia.
  - split; [lia|]. exists hist. reflexivity.
Qed.

Lemma feed_debounced (w : attach_wait) (ins : list (Z * hw_inputs)) :
  forall (c : fusb30x_chip) (hist : list (Z * Z)),
    conn_state c = attach_wait_state w ->
    debounced hist c ->
    Forall timer_tick ins ->
    conn_state (feed h w ins c) = attach_wait_state w ->
    debounced (hist ++ samples h w ins c) (feed h w ins c).
Proof.
  induction ins as [|i rest IH]; intros c hist Hs Hd Ht Hend.
  - cbn [feed samples]. now rewrite app_nil_r.
  - cbn [feed samples] in *. rewrite Hs, connection_state_beq_refl in *.
    inversion Ht as [|? ? Hi Hrest]; subst.
    destruct (attach_wait_handler_cases w (snd i) (fst i) c Hs Hi)
      as [[_ Hout]|[(_ & _ & Hout & _)|(_ & _ & Hin & _ & Ecnt & E1 & E2)]].
    + rewrite (feed_out _ _ _ Hout) in Hend. contradiction.
    + rewrite (feed_out _ _ _ Hout) in Hend. contradiction.
    + replace (hist ++ sample_of h c (snd i) :: samples h w rest
                 (attach_wait_handler h w (snd i) (fst i) c))
        with ((hist ++ [sample_of h c (snd i)]) ++ samples h w rest
                 (attach_wait_handler h w (snd i) (fst i) c))
        by (rewrite <- app_assoc; reflexivity).
      apply IH; auto.
      pose proof (debounced_step hist (sample_of h c (snd i)) c Hd) as [Hc [older Hh]].
      split; [lia|]. exists older. rewrite Hh, Ecnt, E1, E2. reflexivity.
Qed.

Lemma repeat_tail {A : Type} (x : A) (older : list A) (n k : nat) (p : A)
    (l : list A) :
  (k < n)%nat ->
  p :: l = older ++ repeat x (S n) ->
  exists older', l = older' ++ repeat x (S k).
Proof.
  intros Hk E. destruct older as [|q older].
  - cbn in E. injection E as _ E. subst l.
    exists (repeat x (n - S k)). rewrite <- repeat_app. f_equal. lia.
  - rewrite <- app_comm_cons in E. injection E as _ E. subst l.
    exists (older ++ repeat x (n - k)).
    rewrite <- app_assoc, <- repeat_app.
    replace (n - k + S k)%nat with (S n) by lia. reflexivity.
Qed.

(** C1. Debounce of the attach-wait handlers ([attach_wait_sink],
    [attach_wait_source], [attach_wait_audio_acc]).  The handler is fed
    the timer ticks [ins] and then [last], from a port that has just
    entered the state with the counter at 0.  If the last tick leaves
    the state on what the CC lines read (not by the VBUS shortcut of the
    sink handler), then the last [N_DEBOUNCE_CNT + 1] samples fed to the
    handler are identical, and they repeat the pair stored before them;
    a tick whose sample differs from the stored pair leaves the counter
    at 0, one that stays in the state stores its sample, and one that
    repeats the stored pair counts one more. *)
Theorem attach_wait_debounce (w : attach_wait) (ins : list (Z * hw_inputs))
    (last : Z * hw_inputs) (c0 : fusb30x_chip) :
  conn_state c0 = attach_wait_state w ->
  debounce_cnt c0 = 0 ->
  Forall timer_tick (ins ++ [last]) ->
  let c := feed h w ins c0 in
  let c' := attach_wait_handler h w (snd last) (fst last) c in
  let s := sample_of h c (snd last) in
  conn_state c = attach_wait_state w ->
  vbus_exit w (snd last) c = false ->
  (conn_state c' <> attach_wait_state w ->
   (exists older,
      samples h w (ins ++ [last]) c0
      = older ++ repeat s (Z.to_nat (N_DEBOUNCE_CNT h + 1)))
   /\ (exists older,
         (cc1 c0, cc2 c0) :: samples h w (ins ++ [last]) c0
         = older ++ repeat s (S (Z.to_nat (N_DEBOUNCE_CNT h + 1)))))
  /\ (s <> (cc1 c, cc2 c) -> debounce_cnt c' = 0)
  /\ (s = (cc1 c, cc2 c) -> debounce_cnt c' = debounce_cnt c + 1)
  /\ (conn_state c' = attach_wait_state w -> (cc1 c', cc2 c') = s).
Proof.
  intros Hs0 Hc0 Ht c c' s.
  assert (Ec : feed h w ins c0 = c) by reflexivity.
  assert (Ec' : attach_wait_handler h w (snd last) (fst last) c = c')
    by reflexivity.
  assert (Es : sample_of h c (snd last) = s) by reflexivity.
  clearbody c' s. clearbody c. intros Hs Hv.
  apply Forall_app in Ht. destruct Ht as [Hins Hlast].
  pose proof (Forall_inv Hlast) as Hl.
  assert (Hd0 : debounced [(cc1 c0, cc2 c0)] c0).
  { split; [lia|]. exists []. rewrite Hc0. reflexivity. }
  assert (Hd : debounced ([(cc1 c0, cc2 c0)] ++ samples h w ins c0) c).
  { pose proof (feed_debounced w ins c0 _ Hs0 Hd0 Hins) as X.
    rewrite Ec in X. exact (X Hs). }
  pose proof (debounced_step _ s c Hd) as [Hcd [older Hh]].
  assert (Esam : samples h w (ins ++ [last]) c0 = samples h w ins c0 ++ [s]).
  { pose proof (feed_app w ins last c0) as X.
    rewrite Ec, Es in X. exact (proj2 (X Hs)). }
  pose proof (debounce_sample_cases (fst s) (snd s) c) as (D1 & D2 & Dc).
  cbv zeta in D1, D2, Dc. rewrite <- surjective_pairing in Dc.
  assert (Hcnt : debounce_cnt c' = debounce_cnt (debounce_sample (fst s) (snd s) c)
                 /\ (conn_state c' = attach_wait_state w -> (cc1 c', cc2 c') = s)
                 /\ (conn_state c' <> attach_wait_state w ->
                     N_DEBOUNCE_CNT h < debounce_cnt (debounce_sample (fst s) (snd s) c))).
  { destruct (attach_wait_handler_cases w (snd last) (fst last) c Hs Hl)
      as [[Hv' _]|[(_ & Hn & Hout & Ecnt)|(_ & Hn & Hin & _ & Ecnt & E1 & E2)]];
      rewrite ?Ec', ?Es in *.
    - congruence.
    - repeat split; auto. intros; contradiction.
    - repeat split; auto.
      + intros _. rewrite E1, E2, D1, D2. symmetry. apply surjective_pairing.
      + intros; contradiction. }
  destruct Hcnt as (Ecnt & Hstay & Hleave).
  split; [|split; [|split]].
  - intros Hout. specialize (Hleave Hout).
    rewrite D1, D2, <- surjective_pairing in Hh.
    set (m := Z.to_nat (debounce_cnt (debounce_sample (fst s) (snd s) c))) in *.
    set (k := Z.to_nat (N_DEBOUNCE_CNT h + 1)).
    assert (Hkm : (k <= m)%nat) by (subst k m; lia).
    rewrite Esam.
    assert (Hfull : (cc1 c0, cc2 c0) :: samples h w ins c0 ++ [s]
                    = older ++ repeat s (S m)) by exact Hh.
    split.
    + destruct k as [|k'].
      * exists (samples h w ins c0 ++ [s]). cbn [repeat]. now rewrite app_nil_r.
      * apply (repeat_tail s older m k' (cc1 c0, cc2 c0)); [lia|exact Hfull].
    + exists (older ++ repeat s (m - k)). rewrite Hfull, <- app_assoc, <- repeat_app.
      replace (m - k + S k)%nat with (S m) by lia. reflexivity.
  - intros Hne. rewrite Ecnt. destruct Dc as [[E _]|[_ E]]; [congruence|exact E].
  - intros He. rewrite Ecnt. destruct Dc as [[_ E]|[E _]]; [exact E|congruence].
  - exact Hstay.
Qed.
End Debounce.

(** The hypotheses of [attach_wait_debounce] hold on [sample_port] fed
    eleven debounce ticks reading Rp on CC1: the eleventh leaves
    [attach_wait_sink], and the last ten samples are that reading. *)
Lemma attach_wait_debounce_witness :
  conn_state
    (attach_wait_handler sample_h wait_sink (snd debounce_tick)
       (fst debounce_tick)
       (feed sample_h wait_sink (repeat debounce_tick 10)
          sample_attach_wait_sink))
  = attached_sink
  /\ exists older,
       samples sample_h wait_sink (repeat debounce_tick 10 ++ [debounce_tick])
         sample_attach_wait_sink
       = older ++ repeat (TYPEC_CC_VOLT_RP, TYPEC_CC_VOLT_OPEN) 10.
Proof.
  split; [vm_compute; reflexivity|].
  refine (proj1 (proj1
    (attach_wait_debounce sample_h wait_sink (repeat debounce_tick 10)
       debounce_tick sample_attach_wait_sink _ _ _ _ _) _)).
  - reflexivity.
  - reflexivity.
  - repeat constructor.
  - vm_compute; reflexivity.
  - vm_compute; reflexivity.
  - vm_compute; discriminate.
Defined.

Section MsgId.
Variable h : fusb302_h.

Lemma process_vdm_msg_msg_id (c : fusb30x_chip) :
  msg_id (process_vdm_msg c) = msg_id c.
Proof. unfold process_vdm_msg. frame_run msg_id; reflexivity. Qed.

Lemma swap_msg_process_msg_id (evt : Z) (c : fusb30x_chip) :
  msg_id (fusb_state_swap_msg_process evt c) = msg_id c.
Proof. unfold fusb_state_swap_msg_process. frame_run msg_id; reflexivity. Qed.

Lemma auto_vdm_machine_msg_id (evt : Z) (c : fusb30x_chip) :
  msg_id (auto_vdm_machine h evt c) = msg_id c.
Proof. unfold auto_vdm_machine. frame_run msg_id; reflexivity. Qed.

Lemma src_send_caps_msg_id (evt : Z) (c : fusb30x_chip) :
  msg_id (fusb_state_src_send_caps h evt c) = msg_id c.
Proof. unfold fusb_state_src_send_caps. frame_run msg_id; reflexivity. Qed.

Lemma src_negotiate_cap_msg_id (evt : Z) (c : fusb30x_chip) :
  msg_id (fusb_state_src_negotiate_cap evt c) = msg_id c.
Proof. unfold fusb_state_src_negotiate_cap. frame_run msg_id; reflexivity. Qed.

Lemma src_transition_supply_msg_id (evt : Z) (c : fusb30x_chip) :
  msg_id (fusb_state_src_transition_supply h evt c) = msg_id c.
Proof. unfold fusb_state_src_transition_supply. frame_run msg_id; reflexivity. Qed.

Ltac msg_rw :=
  idtac;
  first [ rewrite process_vdm_msg_msg_id
        | rewrite swap_msg_process_msg_id
        | rewrite auto_vdm_machine_msg_id
        | rewrite src_send_caps_msg_id
        | rewrite src_negotiate_cap_msg_id
        | rewrite src_transition_supply_msg_id ].

(** The handlers that call [fusb_soft_reset_parameter]. *)
Lemma src_startup_msg_id (evt : Z) (c : fusb30x_chip) :
  msg_id (fusb_state_src_startup evt c) = 0.
Proof. unfold fusb_state_src_startup. frame_run msg_id; reflexivity. Qed.

Lemma snk_startup_msg_id (evt : Z) (c : fusb30x_chip) :
  msg_id (fusb_state_snk_startup evt c) = 0.
Proof. unfold fusb_state_snk_startup. frame_run msg_id; reflexivity. Qed.

Lemma src_softreset_msg_id (c : fusb30x_chip) :
  msg_id (fusb_state_src_softreset c)
  = if negb (sub_state c =? 0)
       && match tx_state c with tx_success => true | _ => false end
    then 0 else msg_id c.
Proof.
  unfold fusb_state_src_softreset. cbv beta zeta.
  destruct (sub_state c =? 0) eqn:E0; cbn [negb andb].
  - destruct (set_mesg_shape CMT_ACCEPT CONTROLMESSAGE c) as (hd & ld & ->).
    match goal with
    | |- context [policy_send_data ?t] => set (x := t)
    end.
    assert (X1 : tx_state x = tx_idle) by reflexivity.
    assert (X2 : msg_id x = msg_id c) by reflexivity.
    clearbody x. rewrite (policy_send_data_idle x X1). exact X2.
  - destruct (tx_state c) eqn:Et.
    + rewrite (policy_send_data_idle c Et). reflexivity.
    + rewrite policy_send_data_wait by (rewrite Et; discriminate).
      rewrite Et. reflexivity.
    + rewrite policy_send_data_wait by (rewrite Et; discriminate).
      rewrite Et. reflexivity.
    + rewrite policy_send_data_wait by (rewrite Et; discriminate).
      rewrite Et. reflexivity.
Qed.

Lemma snk_softreset_msg_id (c : fusb30x_chip) :
  msg_id (fusb_state_snk_softreset h c)
  = if negb (sub_state c =? 0)
       && match tx_state c with tx_success => true | _ => false end
    then 0 else msg_id c.
Proof.
  unfold fusb_state_snk_softreset. cbv beta zeta.
  destruct (sub_state c =? 0) eqn:E0; cbn [negb andb].
  - destruct (set_mesg_shape CMT_ACCEPT CONTROLMESSAGE c) as (hd & ld & ->).
    match goal with
    | |- context [policy_send_data ?t] => set (x := t)
    end.
    assert (X1 : tx_state x = tx_idle) by reflexivity.
    assert (X2 : msg_id x = msg_id c) by reflexivity.
    clearbody x. rewrite (policy_send_data_idle x X1). exact X2.
  - destruct (tx_state c) eqn:Et.
    + rewrite (policy_send_data_idle c Et). reflexivity.
    + rewrite policy_send_data_wait by (rewrite Et; discriminate).
      rewrite Et. reflexivity.
    + rewrite policy_send_data_wait by (rewrite Et; discriminate).
      rewrite Et. reflexivity.
    + rewrite policy_send_data_wait by (rewrite Et; discriminate).
      rewrite Et. reflexivity.
Qed.

Lemma src_send_softreset_msg_id (evt : Z) (c : fusb30x_chip) :
  msg_id (fusb_state_src_send_softreset h evt c)
  = if has evt EVENT_RX && PACKET_IS_CONTROL_MSG (rec_head c) CMT_ACCEPT
    then 0 else msg_id c.
Proof.
  unfold fusb_state_src_send_softreset.
  destruct (has evt EVENT_RX) eqn:Hrx; cbn [andb].
  - pose proof (has_rx_flag evt Hrx) as Hflag.
    destruct (PACKET_IS_CONTROL_MSG (rec_head c) CMT_ACCEPT) eqn:Hm;
      chip_run; reflexivity.
  - chip_run; reflexivity.
Qed.

Lemma snk_send_softreset_msg_id (evt : Z) (c : fusb30x_chip) :
  msg_id (fusb_state_snk_send_softreset h evt c)
  = if has evt EVENT_RX && PACKET_IS_CONTROL_MSG (rec_head c) CMT_ACCEPT
    then 0 else msg_id c.
Proof.
  unfold fusb_state_snk_send_softreset, PACKET_IS_CONTROL_MSG.
  destruct (has evt EVENT_RX) eqn:Hrx; cbn [andb].
  - pose proof (has_rx_flag evt Hrx) as Hflag.
    destruct ((PD_HEADER_CNT (rec_head c) =? 0)
              && (PD_HEADER_TYPE (rec_head c) =? CMT_ACCEPT)) eqn:Hm;
      chip_run; reflexivity.
  - chip_run; reflexivity.
Qed.

(** The dispatch writes [msg_id] at the reset sites of
    [handler_resets], where it sets it to 0, and nowhere else. *)
Lemma dispatch_msg_id (hw : hw_inputs) (evt : Z) (c : fusb30x_chip) :
  msg_id (dispatch h hw evt c)
  = if handler_resets evt c then 0 else msg_id c.
Proof.
  unfold dispatch, handler_resets. destruct (conn_state c) eqn:Hs.
  all: lazymatch goal with
       | |- msg_id (fusb_state_src_startup _ _) = _ =>
           apply src_startup_msg_id
       | |- msg_id (fusb_state_snk_startup _ _) = _ =>
           apply snk_startup_msg_id
       | |- msg_id (fusb_state_src_softreset _) = _ =>
           apply src_softreset_msg_id
       | |- msg_id (fusb_state_snk_softreset _ _) = _ =>
           apply snk_softreset_msg_id
       | |- msg_id (fusb_state_src_send_softreset _ _ _) = _ =>
           apply src_send_softreset_msg_id
       | |- msg_id (fusb_state_snk_send_softreset _ _ _) = _ =>
           apply snk_send_softreset_msg_id
       | _ => frame_run_with msg_id msg_rw; reflexivity
       end.
Qed.

(** [tcpc_alert] and [mux_alert] write [msg_id] at the reset sites of
    [interrupt_resets], where [pd_execute_hard_reset] sets it to 0, and
    nowhere else. *)
Lemma tick_events_msg_id (hw : hw_inputs) (c : fusb30x_chip) :
  msg_id (fst (tick_events h hw c))
  = if interrupt_resets hw c then 0 else msg_id c.
Proof.
  unfold tick_events, tcpc_alert, mux_alert, interrupt_resets.
  destruct (interrupta_hardrst hw) eqn:H1;
    destruct (interrupta_hardsent hw) eqn:H2;
    destruct (retry c) eqn:H3; cbn [orb andb negb].
  all: repeat first
         [ progress cbv beta iota zeta
         | progress cbn [fst snd]
         | match goal with
           | |- context [retry ?a] =>
               tryif is_var a then fail else proj_app retry a
           end
         | rewrite H3
         | progress cbn [negb]
         | match goal with
           | |- context [if ?b then _ else _] =>
               lazymatch b with
               | context [if _ then _ else _] => fail
               | _ => destruct b
               end
           end ].
  all: unfold pd_execute_hard_reset; frame_run msg_id; reflexivity.
Qed.

(** The detach check and the receive step leave [msg_id] and
    [tx_state]. *)
Lemma tick_receive_detach_msg_id (hw : hw_inputs) (evt : Z) (c : fusb30x_chip) :
  let c3 := tick_receive hw evt (tick_detach h hw evt c) in
  msg_id c3 = msg_id c /\ tx_state c3 = tx_state c.
Proof.
  cbv zeta. unfold tick_receive, tick_detach, fusb_try_detach.
  split.
  - frame_run msg_id; reflexivity.
  - frame_run tx_state; reflexivity.
Qed.

Lemma tick_msg_id_counts (evt : Z) (c : fusb30x_chip) :
  msg_id (tick_msg_id evt c)
  = msg_id c + (if tx_confirmed evt c then 1 else 0).
Proof.
  unfold tick_msg_id, tx_confirmed.
  destruct (has evt EVENT_TX); [|cbn [andb]; lia].
  destruct (tx_state c); cbn [andb]; try lia; reflexivity.
Qed.

Lemma has_no_event (flag : Z) : has 0 flag = false.
Proof. reflexivity. Qed.

(** A tick in which no reset site is reached: [msg_id] moves on by one
    if the tick confirms a transmission, and stays otherwise. *)
Lemma tick_msg_id_exact (hw : hw_inputs) (c : fusb30x_chip) :
  tick_resets h hw c = false ->
  msg_id (state_machine_typec h hw c)
  = msg_id c + (if tick_confirms h hw c then 1 else 0).
Proof.
  unfold tick_resets, before_dispatch, tick_confirms.
  rewrite state_machine_typec_steps. cbv zeta.
  pose proof (tick_events_msg_id hw c) as M1.
  destruct (tick_events h hw c) as [c1 evt]. cbn [fst snd] in *.
  intros Hr. apply orb_false_elim in Hr. destruct Hr as [Hi Hd].
  rewrite Hi in M1.
  destruct (evt =? 0) eqn:E0.
  - apply Z.eqb_eq in E0. subst evt. unfold tx_confirmed.
    rewrite has_no_event. cbn [andb]. lia.
  - cbn [negb andb] in Hd. rewrite dispatch_msg_id, Hd, tick_msg_id_counts.
    destruct (tick_receive_detach_msg_id hw evt c1) as (M3 & T3).
    cbv zeta in M3, T3. rewrite M3, M1.
    unfold tx_confirmed. rewrite T3. reflexivity.
Qed.

(** A run in which no reset site is reached. *)
Lemma run_msg_id (es : list port_event) (c : fusb30x_chip) :
  run_resets h es c = false ->
  msg_id (port_run h es c) = msg_id c + Z.of_nat (confirmed_sends h es c).
Proof.
  revert c. induction es as [|e es IH]; intros c Hr.
  - cbn. lia.
  - cbn [run_resets] in Hr. apply orb_false_elim in Hr.
    destruct Hr as [He Hes].
    unfold port_run. cbn [fold_left]. fold (port_run h es (port_step h c e)).
    cbn [confirmed_sends]. rewrite (IH _ Hes), Nat2Z.inj_add.
    destruct e as [hw|timer].
    + cbn [port_step]. rewrite (tick_msg_id_exact hw c He).
      destruct (tick_confirms h hw c); cbn [port_step]; lia.
    + assert (E : msg_id (port_step h c (Expire timer)) = msg_id c).
      { cbn [port_step]. unfold fusb_timer_handler.
        destruct timer;
          [destruct (negb (timer_state c =? T_DISABLED h))
          |destruct (negb (timer_mux c =? T_DISABLED h))]; reflexivity. }
      rewrite E. lia.
Qed.

(** The message id of the headers [set_mesg] and [set_vdm_mesg]
    build. *)
Lemma header_msg_id_lor (a b : Z) :
  header_msg_id (Z.lor a b) = Z.lor (header_msg_id a) (header_msg_id b).
Proof.
  unfold header_msg_id. rewrite Z.shiftr_lor. apply Z.land_lor_distr_l.
Qed.

Lemma header_msg_id_below (x : Z) : 0 <= x < 2 ^ 9 -> header_msg_id x = 0.
Proof.
  intros Hx. unfold header_msg_id.
  rewrite Z.shiftr_div_pow2 by lia. rewrite Z.div_small by exact Hx.
  reflexivity.
Qed.

Lemma header_msg_id_bit (x n : Z) :
  0 <= Z.land x 1 < 2 -> 0 <= n < 9 -> header_msg_id (Z.shiftl (Z.land x 1) n) = 0.
Proof.
  intros Hx Hn. apply header_msg_id_below.
  rewrite Z.shiftl_mul_pow2 by lia.
  assert (0 < 2 ^ n) by (apply Z.pow_pos_nonneg; lia).
  assert (2 ^ n * 2 <= 2 ^ 9).
  { change (2 ^ 9) with (2 ^ 8 * 2).
    apply Z.mul_le_mono_nonneg_r; [lia|].
    apply Z.pow_le_mono_r; lia. }
  nia.
Qed.

Lemma header_base_msg_id (id prole drole : Z) :
  header_msg_id
    (Z.lor (Z.lor (Z.lor (Z.shiftl (Z.land id 0x7) 9)
                         (Z.shiftl (Z.land prole 0x1) 8))
                  (Z.shiftl 1 6))
           (Z.shiftl (Z.land drole 0x1) 5))
  = id mod 8.
Proof.
  rewrite !header_msg_id_lor.
  rewrite (header_msg_id_bit prole 8), (header_msg_id_bit drole 5);
    try lia;
    try (pose proof (land_ones_range prole 1 ltac:(lia)) as R;
         change (Z.ones 1) with 1 in R; change (2 ^ 1) with 2 in R; exact R);
    try (pose proof (land_ones_range drole 1 ltac:(lia)) as R;
         change (Z.ones 1) with 1 in R; change (2 ^ 1) with 2 in R; exact R).
  change (header_msg_id (Z.shiftl 1 6)) with 0.
  rewrite !Z.lor_0_r. unfold header_msg_id.
  rewrite Z.shiftr_shiftl_l by lia. change (9 - 9) with 0.
  rewrite Z.shiftl_0_r, <- Z.land_assoc. change (Z.land 7 7) with 7.
  change 7 with (Z.ones 3). rewrite Z.land_ones by lia. reflexivity.
Qed.

Lemma header_msg_id_type (cmd : Z) : header_msg_id (Z.land cmd 0xf) = 0.
Proof.
  apply header_msg_id_below.
  pose proof (land_ones_range cmd 4 ltac:(lia)) as R.
  change (Z.ones 4) with 15 in R. change (2 ^ 4) with 16 in R.
  change (2 ^ 9) with 512. lia.
Qed.

Lemma header_msg_id_count (n : Z) :
  header_msg_id (Z.shiftl (Z.land n 0x3) 12) = 0.
Proof.
  pose proof (land_small_cases (Z.land n 3) 4 4 eq_refl
                (land_ones_range n 2 ltac:(lia))) as Hn.
  cbn [map seq In] in Hn.
  repeat match goal with H : _ \/ _ |- _ => destruct H as [<-|H] end;
    try contradiction; reflexivity.
Qed.

Lemma set_mesg_msg_id (cmd : Z) (is_DMT : bool) (c : fusb30x_chip) :
  header_msg_id (send_head (set_mesg cmd is_DMT c)) = msg_id c mod 8.
Proof.
  pose proof (header_base_msg_id (msg_id c)
                (power_role_bit (power_role (notify c)))
                (data_role_bit (data_role (notify c)))) as B.
  unfold set_mesg. cbv beta zeta.
  set (base := Z.lor (Z.lor (Z.lor (Z.shiftl (Z.land (msg_id c) 7) 9) _) _) _)
    in *.
  destruct is_DMT;
    [destruct (cmd =? DMT_SOURCECAPABILITIES);
       [|destruct (cmd =? DMT_REQUEST)]|];
    repeat proj_step;
    rewrite ?header_msg_id_lor, ?header_msg_id_type, ?header_msg_id_count;
    try change (header_msg_id (Z.shiftl 1 12)) with 0;
    rewrite ?Z.lor_0_r;
    exact B.
Qed.

Lemma set_vdm_mesg_msg_id (cmd type mode : Z) (c : fusb30x_chip) :
  header_msg_id (send_head (set_vdm_mesg cmd type mode c)) = msg_id c mod 8.
Proof.
  pose proof (header_base_msg_id (msg_id c)
                (power_role_bit (power_role (notify c)))
                (data_role_bit (data_role (notify c)))) as B.
  unfold set_vdm_mesg. cbv beta zeta.
  set (base := Z.lor (Z.lor (Z.lor (Z.shiftl (Z.land (msg_id c) 7) 9) _) _) _)
    in *.
  repeat match goal with
         | |- context [if ?b then _ else _] =>
             lazymatch b with
             | context [if _ then _ else _] => fail
             | _ => destruct b
             end
         end;
    repeat proj_step;
    rewrite ?header_msg_id_lor, ?header_msg_id_type;
    try change (header_msg_id (Z.shiftl 1 12)) with 0;
    try change (header_msg_id (Z.shiftl 2 12)) with 0;
    rewrite ?Z.lor_0_r;
    exact B.
Qed.

(** C2 (amended).  In a tick, [msg_id] is incremented in one place, the
    step before the dispatch, by exactly 1 when the tick has [EVENT_TX]
    and [tx_state] is [tx_success], and by nothing otherwise, in
    particular when the transmission has failed.  It is written in two
    more places only, both of which set it to 0: in the interrupt
    decoding exactly when [interrupt_resets] holds (hard reset received,
    or first hard-sent interrupt), and in the dispatch exactly when
    [handler_resets] holds (start of the policy engine, soft reset
    accepted).  Every header built by [set_mesg] or [set_vdm_mesg]
    carries [msg_id mod 8].  So in every run of ticks and timer
    expiries that reaches no reset site, [msg_id] has advanced by the
    number of ticks that confirmed a transmission, and the next header
    carries that number modulo 8. *)
Theorem msg_id_once_per_confirmed_send (hw : hw_inputs) (chip : fusb30x_chip) :
  let c1 := fst (tick_events h hw chip) in
  let evt := snd (tick_events h hw chip) in
  let c3 := tick_receive hw evt (tick_detach h hw evt c1) in
  let c4 := tick_msg_id evt c3 in
  let c' := dispatch h hw evt c4 in
  (evt <> 0 -> state_machine_typec h hw chip = c')
  /\ (evt = 0 -> state_machine_typec h hw chip = c1)
  /\ msg_id c1 = (if interrupt_resets hw chip then 0 else msg_id chip)
  /\ (msg_id c3 = msg_id c1 /\ tx_state c3 = tx_state c1)
  /\ msg_id c4 = msg_id c3 + (if tx_confirmed evt c3 then 1 else 0)
  /\ (tx_state c3 = tx_failed -> msg_id c4 = msg_id c3)
  /\ msg_id c' = (if handler_resets evt c4 then 0 else msg_id c4)
  /\ (forall (cmd : Z) (is_DMT : bool) (c : fusb30x_chip),
        header_msg_id (send_head (set_mesg cmd is_DMT c)) = msg_id c mod 8)
  /\ (forall (cmd type mode : Z) (c : fusb30x_chip),
        header_msg_id (send_head (set_vdm_mesg cmd type mode c))
        = msg_id c mod 8)
  /\ (forall (es : list port_event) (c : fusb30x_chip),
        run_resets h es c = false ->
        let n := Z.of_nat (confirmed_sends h es c) in
        msg_id (port_run h es c) = msg_id c + n
        /\ forall (cmd : Z) (is_DMT : bool),
             header_msg_id (send_head (set_mesg cmd is_DMT (port_run h es c)))
             = (msg_id c + n) mod 8).
Proof.
  intros c1 evt c3 c4 c'.
  split; [|split; [|split; [|split; [|split; [|split; [|split; [|split; [|split]]]]]]]].
  - intros Hevt. subst c' c4 c3 c1 evt.
    rewrite state_machine_typec_steps. cbv zeta.
    destruct (Z.eqb_spec (snd (tick_events h hw chip)) 0); [contradiction|].
    reflexivity.
  - intros Hevt. subst c1. rewrite state_machine_typec_steps. cbv zeta.
    fold evt. rewrite Hevt. reflexivity.
  - apply tick_events_msg_id.
  - apply tick_receive_detach_msg_id.
  - apply tick_msg_id_counts.
  - intros Hf. subst c4. rewrite tick_msg_id_counts. unfold tx_confirmed.
    rewrite Hf, andb_false_r. lia.
  - apply dispatch_msg_id.
  - apply set_mesg_msg_id.
  - apply set_vdm_mesg_msg_id.
  - intros es c Hr n. subst n. split.
    + apply run_msg_id. exact Hr.
    + intros cmd is_DMT. rewrite set_mesg_msg_id, (run_msg_id es c Hr).
      reflexivity.
Qed.
End MsgId.

(** C2, the counterexample: the tick that confirms the Accept of a soft
    reset.  The transmission is confirmed and [msg_id] was 3; after the
    tick it is 0, not 4. *)
Lemma msg_id_reset_on_confirmed_send :
  let c1 := fst (tick_events sample_h hw_txsent sample_src_softrst) in
  let evt := snd (tick_events sample_h hw_txsent sample_src_softrst) in
  msg_id sample_src_softrst = 3
  /\ tx_confirmed evt c1 = true
  /\ msg_id (state_machine_typec sample_h hw_txsent sample_src_softrst) = 0
  /\ msg_id (state_machine_typec sample_h hw_txsent sample_src_softrst)
     <> (msg_id sample_src_softrst + 1) mod 8.
Proof. vm_compute. repeat split; congruence. Qed.

(** The run of [sample_send_caps] over [run_contract] reaches no reset
    site and confirms three transmissions: [msg_id] goes from 0 to 3,
    and the next header carries 3. *)
Lemma msg_id_once_per_confirmed_send_witness :
  run_resets sample_h run_contract sample_send_caps = false
  /\ confirmed_sends sample_h run_contract sample_send_caps = 3%nat
  /\ msg_id (port_run sample_h run_contract sample_send_caps)
     = msg_id sample_send_caps
       + Z.of_nat (confirmed_sends sample_h run_contract sample_send_caps).
Proof.
  assert (H : run_resets sample_h run_contract sample_send_caps = false)
    by (vm_compute; reflexivity).
  split; [exact H|]. split; [vm_compute; reflexivity|].
  exact (proj1
           ((proj2 (proj2 (proj2 (proj2 (proj2 (proj2 (proj2 (proj2 (proj2
               (msg_id_once_per_confirmed_send sample_h hw_quiet
                  sample_port))))))))))
              run_contract sample_send_caps H)).
Defined.

Lemma testbit_ones_8 (n : Z) : 0 <= n -> Z.testbit 0xff n = (n <? 8).
Proof.
  intros Hn. change 0xff with (Z.ones 8).
  destruct (Z.ltb_spec n 8).
  - apply Z.ones_spec_low. lia.
  - apply Z.ones_spec_high. lia.
Qed.

Lemma testbit_ff00 (n : Z) : 0 <= n -> Z.testbit 0xff00 n = (8 <=? n) && (n <? 16).
Proof.
  intros Hn.
  assert (E : 0xff00 = Z.shiftl (Z.ones 8) 8) by reflexivity.
  rewrite E. clear E.
  destruct (Z.leb_spec 8 n); cbn [andb].
  - rewrite Z.shiftl_spec by lia.
    destruct (Z.ltb_spec n 16).
    + apply Z.ones_spec_low. lia.
    + apply Z.ones_spec_high. lia.
  - apply Z.shiftl_spec_low. lia.
Qed.

(** The header read back from its two bytes in the FIFO. *)
Lemma header_of_bytes (head : Z) :
  0 <= head < 2 ^ 16 ->
  Z.lor (Z.land (Z.land (Z.land head 0xff) 0xff) 0xff)
        (Z.land (Z.shiftl (Z.land (Z.land (Z.shiftr head 8) 0xff) 0xff) 8) 0xff00)
  = head.
Proof.
  intros Hh. apply Z.bits_inj'. intros n Hn.
  rewrite Z.lor_spec, !Z.land_spec, testbit_ones_8, testbit_ff00 by lia.
  destruct (Z.ltb_spec n 8).
  - rewrite Z.shiftl_spec_low by lia.
    replace (8 <=? n) with false by (symmetry; apply Z.leb_gt; lia).
    simpl. rewrite !andb_true_r, orb_false_r. reflexivity.
  - rewrite Z.shiftl_spec, !Z.land_spec, Z.shiftr_spec, testbit_ones_8 by lia.
    replace (n - 8 + 8) with n by lia.
    replace (8 <=? n) with true by (symmetry; apply Z.leb_le; lia).
    rewrite !andb_false_r. simpl.
    destruct (Z.ltb_spec n 16).
    + replace (n - 8 <? 8) with true by (symmetry; apply Z.ltb_lt; lia).
      rewrite !andb_true_r. reflexivity.
    + rewrite !andb_false_r. symmetry.
      destruct (Z.eq_dec head 0) as [->|Hnz]; [apply Z.testbit_0_l|].
      apply Z.bits_above_log2; [lia|].
      assert (Z.log2 head < 16) by (apply Z.log2_lt_pow2; lia). lia.
Qed.

Lemma PD_HEADER_CNT_range (head : Z) : 0 <= PD_HEADER_CNT head < 8.
Proof.
  unfold PD_HEADER_CNT. change 7 with (Z.ones 3). rewrite Z.land_ones by lia.
  apply Z.mod_pos_bound. reflexivity.
Qed.

Lemma firstn_app_pad {A} (n : nat) (l pad : list A) :
  (n <= length l)%nat -> firstn n (l ++ pad) = firstn n l.
Proof.
  intros H. rewrite firstn_app.
  replace (n - length l)%nat with 0%nat by lia. simpl. apply app_nil_r.
Qed.

(** One pass of the loop over a frame at the head of the FIFO. *)
Lemma tcpm_get_message_loop_frame (fuel : nat) (token head : Z)
    (payload crc rest : list Z) :
  0 <= head < 2 ^ 16 ->
  length payload = Z.to_nat (4 * PD_HEADER_CNT head) ->
  length crc = 4%nat ->
  tcpm_get_message_loop (S fuel) (rx_frame token head payload crc ++ rest) =
  if PACKET_IS_CONTROL_MSG head CMT_GOODCRC
  then tcpm_get_message_loop fuel rest
  else (head, map (fun b => Z.land b 0xff) (payload ++ crc), rest).
Proof.
  intros Hh Hp Hc.
  pose proof (PD_HEADER_CNT_range head) as Hcnt.
  cbn [tcpm_get_message_loop].
  unfold rx_frame, fifo_read. cbn [app firstn skipn map nth].
  rewrite (header_of_bytes head Hh).
  assert (L : Z.to_nat (Z.shiftl (PD_HEADER_CNT head) 2 + 4) = length (payload ++ crc)).
  { rewrite length_app, Hp, Hc, Z.shiftl_mul_pow2 by lia. lia. }
  rewrite L.
  rewrite <- app_assoc.
  replace ((payload ++ crc) ++ rest) with ((payload ++ crc) ++ rest) by reflexivity.
  rewrite app_assoc.
  rewrite <- (app_assoc (payload ++ crc) rest).
  rewrite firstn_app_pad by (rewrite length_app; lia).
  rewrite firstn_all, skipn_app, skipn_all, Nat.sub_diag. cbn [app skipn].
  reflexivity.
Qed.

Lemma tcpm_get_message_loop_acks (fuel : nat) (acks : list (Z * Z * list Z))
    (tail : list Z) :
  Forall is_goodcrc_frame acks ->
  tcpm_get_message_loop (length acks + fuel) (flat_map goodcrc_frame acks ++ tail)
  = tcpm_get_message_loop fuel tail.
Proof.
  induction 1 as [|[[token head] crc] acks [Hh [Hg Hc]] _ IH]; [reflexivity|].
  cbn [length flat_map goodcrc_frame Nat.add]. rewrite <- app_assoc.
  rewrite tcpm_get_message_loop_frame; try assumption.
  - rewrite Hg. exact IH.
  - unfold PACKET_IS_CONTROL_MSG in Hg. apply andb_true_iff in Hg.
    destruct Hg as [Hg _]. apply Z.eqb_eq in Hg. rewrite Hg. reflexivity.
Qed.

Lemma fifo_read_length (fifo : list Z) (n : nat) :
  length (snd (fifo_read fifo n)) = (length fifo - n)%nat.
Proof. apply length_skipn. Qed.

(** The loop never leaves with a GoodCRC header: with the FIFO empty
    the header reads as zero, and a GoodCRC frame that was read has
    shortened the FIFO. *)
Lemma tcpm_get_message_loop_fuel (fuel : nat) (fifo : list Z) :
  (length fifo < fuel)%nat ->
  PACKET_IS_CONTROL_MSG (fst (fst (tcpm_get_message_loop fuel fifo))) CMT_GOODCRC
  = false.
Proof.
  revert fifo. induction fuel as [|fuel IH]; intros fifo Hlen; [lia|].
  cbn [tcpm_get_message_loop].
  destruct (fifo_read fifo 3) as [buf fifo1] eqn:R1.
  destruct (fifo_read fifo1 _) as [buf2 fifo2] eqn:R2.
  destruct (PACKET_IS_CONTROL_MSG (Z.lor _ _) CMT_GOODCRC) eqn:G; [|exact G].
  apply IH.
  pose proof (fifo_read_length fifo 3) as L1. rewrite R1 in L1.
  assert (L2 : (length fifo2 <= length fifo1)%nat).
  { unfold fifo_read in R2. injection R2 as _ <-. rewrite length_skipn. lia. }
  cbn [snd] in L1.
  assert (Hne : fifo <> []).
  { intros ->. unfold fifo_read in R1. injection R1 as <- <-. discriminate G. }
  destruct fifo as [|b fifo]; [congruence|].
  cbn [length] in Hlen, L1. lia.
Qed.

Lemma words_of_bytes_app (n : nat) (a b : list Z) :
  length a = (4 * n)%nat -> words_of_bytes n (a ++ b) = words_of_bytes n a.
Proof.
  revert a. induction n as [|n IH]; intros a Ha; [reflexivity|].
  destruct a as [|b0 [|b1 [|b2 [|b3 a]]]]; cbn [length] in Ha; try lia.
  cbn [words_of_bytes app nth skipn]. f_equal. apply IH. lia.
Qed.

(** C3. With any number of GoodCRC frames ahead of one frame that is
    not a GoodCRC, [tcpm_get_message] delivers that frame: its header in
    [rec_head], its data objects in [rec_load]; whatever the FIFO holds,
    the header delivered is never a GoodCRC. *)
Theorem tcpm_get_message_skips_goodcrc (acks : list (Z * Z * list Z))
    (token head : Z) (payload crc rest : list Z) (chip : fusb30x_chip) :
  Forall is_goodcrc_frame acks ->
  0 <= head < 2 ^ 16 ->
  PACKET_IS_CONTROL_MSG head CMT_GOODCRC = false ->
  length payload = Z.to_nat (4 * PD_HEADER_CNT head) ->
  length crc = 4%nat ->
  let fifo :=
    flat_map goodcrc_frame acks ++ rx_frame token head payload crc ++ rest in
  let chip' := tcpm_get_message fifo chip in
  let cnt := Z.to_nat (PD_HEADER_CNT head) in
  rec_head chip' = head
  /\ rec_load chip' =
       words_of_bytes cnt (map (fun b => Z.land b 0xff) payload)
       ++ skipn cnt (rec_load chip)
  /\ conn_state chip' = conn_state chip
  /\ trace chip' = trace chip
  /\ (forall fifo0,
        PACKET_IS_CONTROL_MSG (rec_head (tcpm_get_message fifo0 chip)) CMT_GOODCRC
        = false).
Proof.
  intros Hacks Hh Hng Hp Hc fifo chip' cnt.
  assert (Hgen : forall fifo0,
            PACKET_IS_CONTROL_MSG (rec_head (tcpm_get_message fifo0 chip)) CMT_GOODCRC
            = false).
  { intros fifo0. unfold tcpm_get_message.
    pose proof (tcpm_get_message_loop_fuel (S (length fifo0)) fifo0 (Nat.lt_succ_diag_r _)) as F.
    destruct (tcpm_get_message_loop _ fifo0) as [[hd buf] rst]. exact F. }
  assert (L : tcpm_get_message_loop (S (length fifo)) fifo
              = (head, map (fun b => Z.land b 0xff) (payload ++ crc), rest)).
  { assert (Hfuel : exists k, S (length fifo) = (length acks + S k)%nat).
    { exists (length fifo - length acks)%nat.
      assert (length acks <= length fifo)%nat; [|lia].
      unfold fifo. rewrite length_app.
      clear - Hacks. induction Hacks as [|[[t hd] c] acks _ _ IH]; [simpl; lia|].
      cbn [flat_map goodcrc_frame rx_frame length app] in *.
      rewrite !length_app in *. cbn [length] in *. lia. }
    destruct Hfuel as [k ->]. unfold fifo.
    rewrite tcpm_get_message_loop_acks by assumption.
    rewrite tcpm_get_message_loop_frame by assumption.
    rewrite Hng. reflexivity. }
  unfold chip', tcpm_get_message. rewrite L. cbn.
  repeat split; try reflexivity; try exact Hgen.
  fold cnt. rewrite map_app. rewrite words_of_bytes_app; [reflexivity|].
  rewrite length_map, Hp. unfold cnt.
  pose proof (PD_HEADER_CNT_range head). lia.
Qed.

(** Two GoodCRC frames ahead of a Request: the Request is delivered. *)
Lemma tcpm_get_message_skips_goodcrc_witness :
  let chip' :=
    tcpm_get_message
      (flat_map goodcrc_frame [sample_goodcrc; sample_goodcrc]
       ++ sample_request_frame ++ [])
      sample_port in
  rec_head chip' = 0x1042
  /\ PACKET_IS_DATA_MSG (rec_head chip') DMT_REQUEST = true
  /\ load_nth (rec_load chip') 0 = 0x1004b12c.
Proof.
  pose proof (tcpm_get_message_skips_goodcrc
                [sample_goodcrc; sample_goodcrc] 0xe0 0x1042
                sample_request_payload [0x55; 0x66; 0x77; 0x88] []
                sample_port) as H.
  cbv zeta in H |- *.
  destruct H as (H1 & H2 & _).
  - repeat constructor; cbn; try lia.
  - lia.
  - reflexivity.
  - reflexivity.
  - reflexivity.
  - unfold sample_request_frame. rewrite H1, H2. repeat split.
Defined.

Section CapsRetry.
Variable h : fusb302_h.
Hypothesis T_DISABLED_nonzero : T_DISABLED h <> 0.
Hypothesis T_SEND_SOURCECAP_armed : T_TYPEC_SEND_SOURCECAP h <> T_DISABLED h.

Lemma count_tx_app (t : list output) (o : output) :
  count_tx (t ++ [o]) = (count_tx t + (if is_tx o then 1 else 0))%nat.
Proof.
  unfold count_tx. rewrite filter_app, length_app. cbn [filter].
  destruct (is_tx o); reflexivity.
Qed.

Ltac phase_hyps :=
  repeat match goal with
         | H : in_caps_phase _ _ _ _ _ |- _ =>
             destruct H as (? & ? & ? & ?)
         | H : _ /\ _ |- _ => destruct H
         end.

Lemma T_DISABLED_eqb : (T_DISABLED h =? 0) = false.
Proof. apply Z.eqb_neq. exact T_DISABLED_nonzero. Qed.

(** A tick queued by [work_continue] alone, no timer expired. *)
Lemma tick_work_continue (c : fusb30x_chip) :
  work_continue c = EVENT_WORK_CONTINUE ->
  (timer_mux c =? 0) = false ->
  (timer_state c =? 0) = false ->
  never_acked h 1 c
  = dispatch h hw_quiet EVENT_WORK_CONTINUE (with_work_continue 0 c).
Proof.
  intros Hw Hm Hs.
  cbn [never_acked]. unfold failing_transport, work_pending.
  rewrite Hw. change (truthy EVENT_WORK_CONTINUE) with true. cbv iota.
  unfold port_run. cbn [fold_left port_step].
  rewrite state_machine_typec_steps. unfold tick_events.
  rewrite tcpc_alert_quiet, (mux_alert_no_timer h c 0 Hm Hs), Hw.
  change (truthy EVENT_WORK_CONTINUE) with true. cbv iota zeta.
  cbn [fst snd].
  change (Z.lor 0 EVENT_WORK_CONTINUE) with EVENT_WORK_CONTINUE.
  change (EVENT_WORK_CONTINUE =? 0) with false. cbv iota.
  rewrite pre_dispatch_idle by reflexivity. reflexivity.
Qed.

Ltac enter_dispatch c1 c :=
  unfold dispatch;
  let E := fresh "E" in
  assert (E : conn_state c1 = conn_state c) by reflexivity;
  rewrite E; clear E;
  match goal with H : conn_state c = _ |- _ => rewrite H end;
  unfold in_caps_phase, state_is.

Lemma caps_round_sending (k : Z) (txs : nat) (c : fusb30x_chip) :
  in_caps_phase h caps_sending k txs c ->
  in_caps_phase h caps_in_flight k (S txs) (never_acked h 1 c).
Proof.
  intros H. phase_hyps.
  rewrite tick_work_continue by assumption.
  enter_dispatch (with_work_continue 0 c) c.
  repeat split; chip_run; try reflexivity.
  rewrite count_tx_app. cbn [is_tx]. lia.
Qed.

Lemma caps_round_in_flight (k : Z) (txs : nat) (c : fusb30x_chip) :
  in_caps_phase h caps_in_flight k txs c ->
  in_caps_phase h caps_counting k txs (never_acked h 1 c).
Proof.
  intros H. phase_hyps.
  cbn [never_acked]. unfold failing_transport, work_pending.
  match goal with H : work_continue c = _ |- _ => rewrite H end.
  match goal with H : tx_state c = _ |- _ => rewrite H end.
  change (truthy 0) with false. cbv iota.
  unfold port_run. cbn [fold_left port_step].
  rewrite state_machine_typec_steps. unfold tick_events.
  rewrite tcpc_alert_retryfail.
  rewrite (mux_alert_no_timer h (with_tx_state tx_failed c)) by assumption.
  assert (E : work_continue (with_tx_state tx_failed c) = work_continue c)
    by reflexivity.
  rewrite E. clear E.
  match goal with H : work_continue c = _ |- _ => rewrite H end.
  change (truthy 0) with false. cbv iota zeta. cbn [fst snd].
  change (Z.lor 0 EVENT_TX =? 0) with false. cbv iota.
  rewrite pre_dispatch_tx_failed by reflexivity.
  enter_dispatch (with_tx_state tx_failed c) c.
  repeat split; chip_run; try reflexivity; try assumption.
Qed.

Lemma caps_round_counting (k : Z) (txs : nat) (c : fusb30x_chip) :
  in_caps_phase h caps_counting k txs c ->
  (k + 1 < N_CAPS_COUNT h ->
   in_caps_phase h caps_backoff (k + 1) txs (never_acked h 1 c))
  /\ (N_CAPS_COUNT h <= k + 1 ->
      in_caps_phase h caps_stopped (k + 1) txs (never_acked h 1 c)).
Proof.
  intros H. phase_hyps.
  rewrite tick_work_continue by assumption.
  split; intros Hk.
  - assert (Hlt : (k + 1 <? N_CAPS_COUNT h) = true) by (apply Z.ltb_lt; lia).
    enter_dispatch (with_work_continue 0 c) c.
    unfold fusb_state_src_discovery.
    repeat split; chip_run; try reflexivity; try assumption.
  - assert (Hlt : (k + 1 <? N_CAPS_COUNT h) = false) by (apply Z.ltb_ge; lia).
    enter_dispatch (with_work_continue 0 c) c.
    unfold fusb_state_src_discovery.
    repeat split; chip_run; try reflexivity; try assumption.
Qed.

Lemma caps_round_backoff (k : Z) (txs : nat) (c : fusb30x_chip) :
  in_caps_phase h caps_backoff k txs c ->
  in_caps_phase h caps_sending k txs (never_acked h 1 c).
Proof.
  intros H. phase_hyps.
  cbn [never_acked]. unfold failing_transport, work_pending.
  match goal with H : work_continue c = _ |- _ => rewrite H end.
  match goal with H : tx_state c = _ |- _ => rewrite H end.
  change (truthy 0) with false. cbv iota.
  unfold port_run. cbn [fold_left port_step fusb_timer_handler].
  match goal with H : timer_state c = _ |- _ => rewrite H end.
  assert (Harm : negb (T_TYPEC_SEND_SOURCECAP h =? T_DISABLED h) = true).
  { apply negb_true_iff, Z.eqb_neq. exact T_SEND_SOURCECAP_armed. }
  rewrite Harm.
  rewrite state_machine_typec_steps. unfold tick_events.
  rewrite tcpc_alert_quiet.
  rewrite (mux_alert_state_timer h (with_timer_state 0 c))
    by (try assumption; reflexivity).
  cbv zeta. cbn [fst snd].
  change (Z.lor 0 EVENT_TIMER_STATE =? 0) with false. cbv iota.
  rewrite pre_dispatch_idle by reflexivity.
  enter_dispatch (with_timer_state (T_DISABLED h) (with_timer_state 0 c)) c.
  pose proof T_DISABLED_eqb as Hd.
  unfold fusb_state_src_discovery.
  repeat split; chip_run; try reflexivity; try assumption.
Qed.

Lemma caps_round_stopped (k : Z) (txs : nat) (c : fusb30x_chip) :
  in_caps_phase h caps_stopped k txs c ->
  in_caps_phase h caps_idle k txs (never_acked h 1 c).
Proof.
  intros H. phase_hyps.
  rewrite tick_work_continue by assumption.
  enter_dispatch (with_work_continue 0 c) c.
  repeat split; chip_run; try reflexivity; try assumption.
Qed.
Lemma never_acked_add (a b : nat) (c : fusb30x_chip) :
  never_acked h (a + b) c = never_acked h b (never_acked h a c).
Proof.
  revert c. induction a as [|a IH]; intros c; [reflexivity|].
  cbn [never_acked Nat.add]. apply IH.
Qed.

(** A failed attempt that is not the last: four rounds later the port
    sends again. *)
Lemma caps_attempt (k : Z) (txs : nat) (c : fusb30x_chip) :
  in_caps_phase h caps_sending k txs c ->
  k + 1 < N_CAPS_COUNT h ->
  in_caps_phase h caps_sending (k + 1) (S txs) (never_acked h 4 c).
Proof.
  intros H Hk.
  change 4%nat with (1 + (1 + (1 + 1)))%nat. rewrite !never_acked_add.
  apply caps_round_backoff.
  apply (proj1 (caps_round_counting k (S txs) _
                  (caps_round_in_flight k (S txs) _
                     (caps_round_sending k txs c H)))).
  exact Hk.
Qed.

Lemma caps_attempts (j : nat) (txs : nat) (c : fusb30x_chip) :
  in_caps_phase h caps_sending 0 txs c ->
  Z.of_nat j < N_CAPS_COUNT h ->
  in_caps_phase h caps_sending (Z.of_nat j) (txs + j) (never_acked h (4 * j) c).
Proof.
  intros H. induction j as [|j IH]; intros Hj.
  - rewrite Nat.add_0_r. exact H.
  - replace (4 * S j)%nat with (4 * j + 4)%nat by lia.
    rewrite never_acked_add.
    replace (Z.of_nat (S j)) with (Z.of_nat j + 1) by lia.
    replace (txs + S j)%nat with (S (txs + j)) by lia.
    apply caps_attempt; [apply IH|]; lia.
Qed.

End CapsRetry.


Lemma land_63_range (a : Z) : 0 <= Z.land a 0x3f < 64.
Proof.
  change 0x3f with (Z.ones 6). rewrite Z.land_ones by lia.
  apply Z.mod_pos_bound. reflexivity.
Qed.

Lemma PD_DP_PIN_CAPS_range (x : Z) : 0 <= PD_DP_PIN_CAPS x < 64.
Proof. unfold PD_DP_PIN_CAPS. destruct (truthy _); apply land_63_range. Qed.

(** Every number below [n] is met by a check run over [0 .. n - 1]. *)
Lemma forallb_below (P : Z -> bool) (n : nat) :
  forallb P (map Z.of_nat (seq 0 n)) = true ->
  forall p, 0 <= p < Z.of_nat n -> P p = true.
Proof.
  intros H p Hp. rewrite forallb_forall in H. apply H.
  apply in_map_iff. exists (Z.to_nat p). split; [lia|].
  apply in_seq. lia.
Qed.

Lemma pin_rules_table (gen2 mf : bool) (pins : Z) :
  0 <= pins < 64 -> pin_rules_hold pins gen2 mf = true.
Proof.
  revert pins.
  apply (forallb_below (fun p => pin_rules_hold p gen2 mf) 64).
  destruct gen2, mf; vm_compute; reflexivity.
Qed.

(** No pin above F is offered. *)
Lemma testbit_above_pins (pins k : Z) :
  0 <= pins < 64 -> ~ In k [5; 4; 3; 2; 1; 0] -> Z.testbit pins k = false.
Proof.
  intros Hp Hk.
  destruct (Z.ltb_spec k 0) as [Hneg|Hnn]; [apply Z.testbit_neg_r; lia|].
  assert (6 <= k) by (simpl in Hk; lia).
  destruct (Z.eq_dec pins 0) as [->|Hnz]; [apply Z.testbit_0_l|].
  apply Z.bits_above_log2; [lia|].
  assert (Z.log2 pins < 6); [|lia].
  apply Z.log2_lt_pow2; lia.
Qed.

Lemma no_candidate_of (pins : Z) (gen2 mf : bool) :
  0 <= pins < 64 ->
  existsb (pin_candidate_of pins gen2 mf) [5; 4; 3; 2; 1; 0] = false ->
  forall k, pin_candidate_of pins gen2 mf k = false.
Proof.
  intros Hp He k.
  destruct (in_dec Z.eq_dec k [5; 4; 3; 2; 1; 0]) as [Hin|Hout].
  - destruct (pin_candidate_of pins gen2 mf k) eqn:E; [|reflexivity].
    rewrite <- He. symmetry. apply existsb_exists. eauto.
  - unfold pin_candidate_of, pin_allowed_of.
    rewrite (testbit_above_pins pins k Hp Hout). reflexivity.
Qed.

(** C5. The pin assignment is the function [choose_pin_assignment] of
    the specification: among the offered pins, without the
    multi-function configs B/D/F unless the UFP prefers multi-function,
    without the configs of the signaling generation not in use, and
    without E/F when C or D is left, it is the highest-numbered pin, and
    0 when none is left.  Pins B and C offered, no multi-function
    preference and DP signaling give pin C. *)
Theorem pin_assignment_selection (caps status : Z) :
  let r := pd_dfp_dp_get_pin_assignment caps status in
  r = choose_pin_assignment caps status
  /\ (PD_VDO_DPSTS_MF_PREF status = 0 -> Z.land r MODE_DP_PIN_MF_MASK = 0)
  /\ (PD_DP_SIGNAL_GEN2 caps <> 0 -> Z.land r MODE_DP_PIN_DP_MASK = 0)
  /\ (PD_DP_SIGNAL_GEN2 caps = 0 -> Z.land r MODE_DP_PIN_BR2_MASK = 0)
  /\ (pin_allowed caps status 2 || pin_allowed caps status 3 = true ->
      r = MODE_DP_PIN_C \/ r = MODE_DP_PIN_D)
  /\ Z.land r (PD_DP_PIN_CAPS caps) = r
  /\ (r = 0 <-> forall k, pin_candidate caps status k = false)
  /\ (PD_DP_PIN_CAPS caps = 6 -> PD_VDO_DPSTS_MF_PREF status = 0 ->
      PD_DP_SIGNAL_GEN2 caps = 0 -> r = MODE_DP_PIN_C)
  /\ pd_dfp_dp_get_pin_assignment 0x600 0 = MODE_DP_PIN_C.
Proof.
  intros r.
  pose proof (pin_rules_table (truthy (PD_DP_SIGNAL_GEN2 caps))
                (truthy (PD_VDO_DPSTS_MF_PREF status)) (PD_DP_PIN_CAPS caps)
                (PD_DP_PIN_CAPS_range caps)) as T.
  unfold pin_rules_hold in T.
  change (pin_assignment_of (PD_DP_PIN_CAPS caps) (truthy (PD_DP_SIGNAL_GEN2 caps))
            (truthy (PD_VDO_DPSTS_MF_PREF status))) with r in T.
  change (choose_of (PD_DP_PIN_CAPS caps) (truthy (PD_DP_SIGNAL_GEN2 caps))
            (truthy (PD_VDO_DPSTS_MF_PREF status)))
    with (choose_pin_assignment caps status) in T.
  change (pin_allowed_of (PD_DP_PIN_CAPS caps) (truthy (PD_DP_SIGNAL_GEN2 caps))
            (truthy (PD_VDO_DPSTS_MF_PREF status)))
    with (pin_allowed caps status) in T.
  change (pin_candidate_of (PD_DP_PIN_CAPS caps) (truthy (PD_DP_SIGNAL_GEN2 caps))
            (truthy (PD_VDO_DPSTS_MF_PREF status)))
    with (pin_candidate caps status) in T.
  repeat rewrite andb_true_iff in T.
  destruct T as [[[[[E Hmf] Hgen] Hcd] Hsub] Hnone].
  apply Z.eqb_eq in E, Hsub.
  assert (Hex : PD_DP_PIN_CAPS caps = 6 -> PD_VDO_DPSTS_MF_PREF status = 0 ->
                PD_DP_SIGNAL_GEN2 caps = 0 -> r = MODE_DP_PIN_C).
  { intros H6 Hm Hg. rewrite E.
    unfold choose_pin_assignment, pin_candidate, pin_allowed.
    rewrite H6, Hm, Hg. reflexivity. }
  repeat split; try assumption; try reflexivity.
  - intros Hm. unfold truthy in Hmf. rewrite Hm in Hmf. simpl in Hmf.
    apply Z.eqb_eq. exact Hmf.
  - intros Hg. unfold truthy in Hgen. apply Z.eqb_neq in Hg. rewrite Hg in Hgen.
    apply Z.eqb_eq. exact Hgen.
  - intros Hg. unfold truthy in Hgen. rewrite Hg in Hgen.
    apply Z.eqb_eq. exact Hgen.
  - intros Hp. rewrite Hp in Hcd. apply orb_true_iff in Hcd.
    rewrite !Z.eqb_eq in Hcd. exact Hcd.
  - intros Hr k.
    destruct (existsb (pin_candidate caps status) [5; 4; 3; 2; 1; 0]) eqn:Ex.
    + exfalso. rewrite E in Hr. unfold choose_pin_assignment in Hr.
      apply existsb_exists in Ex. destruct Ex as [j [Hj Hc]].
      destruct (find (pin_candidate caps status) [5; 4; 3; 2; 1; 0]) as [i|] eqn:F.
      * apply find_some in F. destruct F as [Hi _].
        simpl in Hi.
        destruct Hi as [<-|[<-|[<-|[<-|[<-|[<-|[]]]]]]]; discriminate Hr.
      * apply (find_none _ _ F) in Hj. congruence.
    + apply (no_candidate_of (PD_DP_PIN_CAPS caps) _ _ (PD_DP_PIN_CAPS_range caps) Ex).
  - intros Hall. rewrite E. unfold choose_pin_assignment.
    destruct (find (pin_candidate caps status) [5; 4; 3; 2; 1; 0]) as [i|] eqn:F;
      [|reflexivity].
    apply find_some in F. destruct F as [_ Hc]. rewrite Hall in Hc. discriminate.
Qed.

Section SoftReset.
Variable h : fusb302_h.

Lemma has_zero (flag : Z) : has 0 flag = false.
Proof. reflexivity. Qed.

(** The soft-reset handlers entered with [sub_state = 0]: the Accept is
    written to the transmit FIFO and the port waits for its result. *)
Lemma softreset_entry (hw : hw_inputs) (evt : Z) (st : connection_state)
    (m : fusb30x_chip) :
  st = policy_src_softrst \/ st = policy_snk_softrst ->
  let c' := dispatch h hw evt (tick_msg_id evt (set_state st m)) in
  conn_state c' = st /\ sub_state c' = 1 /\ tx_state c' = tx_busy
  /\ PACKET_IS_CONTROL_MSG (send_head c') CMT_ACCEPT = true
  /\ trace c' = trace m ++ [OutTx (send_head c') []].
Proof.
  intros Hst c'.
  assert (Hc : conn_state (tick_msg_id evt (set_state st m)) = st).
  { unfold tick_msg_id. chip_exec; try reflexivity. }
  assert (Hsub : sub_state (tick_msg_id evt (set_state st m)) = 0).
  { unfold tick_msg_id. chip_exec; try reflexivity. }
  assert (Htr : trace (tick_msg_id evt (set_state st m)) = trace m).
  { unfold tick_msg_id. chip_exec; try reflexivity. }
  revert Hc Hsub Htr. subst c'.
  generalize (tick_msg_id evt (set_state st m)). intros c Hc Hsub Htr.
  unfold dispatch. rewrite Hc.
  assert (Hhd : forall id p d,
            PACKET_IS_CONTROL_MSG (control_header id p d CMT_ACCEPT) CMT_ACCEPT = true).
  { intros id p d. unfold PACKET_IS_CONTROL_MSG.
    pose proof (control_header_fields id p d CMT_ACCEPT) as F.
    cbv zeta in F. destruct F as (E1 & E2 & _). rewrite E1, E2. reflexivity. }
  assert (Hcnt : forall id p d, PD_HEADER_CNT (control_header id p d CMT_ACCEPT) = 0).
  { intros id p d. exact (proj1 (control_header_fields id p d CMT_ACCEPT)). }
  destruct Hst as [-> | ->].
  - unfold fusb_state_src_softreset. rewrite Hsub.
    repeat split; chip_exec; rewrite ?Hhd, ?Hcnt, ?Htr; try reflexivity.
  - unfold fusb_state_snk_softreset. rewrite Hsub.
    repeat split; chip_exec; rewrite ?Hhd, ?Hcnt, ?Htr; try reflexivity.
Qed.

(** C6. A tick whose received message is a SOFTRESET control message:
    whatever the state and [sub_state] of the port, the receive step of
    the tick, which runs once and before the dispatch on the state,
    moves the port to [policy_src_softrst] if it is a source and to
    [policy_snk_softrst] if it is a sink, with [sub_state] 0; the
    dispatch of the same tick then runs the handler of that state, which
    sends the Accept and waits for its result. *)
Theorem softreset_ahead_of_dispatch (hw : hw_inputs) (chip : fusb30x_chip) :
  let evt := snd (tick_events h hw chip) in
  let c2 := tick_detach h hw evt (fst (tick_events h hw chip)) in
  let st := src_or_snk c2 policy_src_softrst policy_snk_softrst in
  let c3 := tick_receive hw evt c2 in
  let c' := state_machine_typec h hw chip in
  has evt EVENT_RX = true ->
  PACKET_IS_CONTROL_MSG (rec_head (tcpm_get_message (rx_fifo hw) c2))
    CMT_SOFTRESET = true ->
  (conn_state c3 = st /\ sub_state c3 = 0)
  /\ c' = dispatch h hw evt (tick_msg_id evt c3)
  /\ conn_state c' = st /\ sub_state c' = 1 /\ tx_state c' = tx_busy
  /\ PACKET_IS_CONTROL_MSG (send_head c') CMT_ACCEPT = true
  /\ trace c' = trace c2 ++ [OutTx (send_head c') []].
Proof.
  intros evt c2 st c3 c' Hrx Hsoft.
  assert (Hc' : c' = dispatch h hw evt (tick_msg_id evt c3)).
  { subst c' c3 c2. unfold state_machine_typec.
    fold evt. destruct (tick_events h hw chip) as [c1 e] eqn:Ev.
    cbn [fst snd] in *. subst evt. cbn [snd] in *.
    cbv zeta.
    destruct (e =? 0) eqn:E0; [|reflexivity].
    apply Z.eqb_eq in E0. subst e. rewrite has_zero in Hrx. discriminate. }
  assert (Hc3 : c3 = set_state st (tcpm_get_message (rx_fifo hw) c2)).
  { subst c3 st. unfold tick_receive, src_or_snk. rewrite Hrx.
    cbv zeta. rewrite Hsoft.
    destruct (tcpm_get_message_shape (rx_fifo hw) c2) as (hd & ld & ->).
    assert (E : notify (with_rec_load ld (with_rec_head hd c2)) = notify c2)
      by reflexivity.
    rewrite E. destruct (is_source _); reflexivity. }
  assert (Hst : st = policy_src_softrst \/ st = policy_snk_softrst).
  { subst st. unfold src_or_snk. destruct (is_source _); auto. }
  pose proof (softreset_entry hw evt st (tcpm_get_message (rx_fifo hw) c2) Hst)
    as (K1 & K2 & K3 & K4 & K5).
  rewrite <- Hc3, <- Hc' in K1, K2, K3, K4, K5.
  split; [|split; [exact Hc'|]].
  - rewrite Hc3. split; reflexivity.
  - repeat split; auto. rewrite K5.
    destruct (tcpm_get_message_shape (rx_fifo hw) c2) as (hd & ld & ->).
    reflexivity.
Qed.
End SoftReset.

(** A source in [policy_src_negotiate_cap] with [sub_state] 2 receives a
    Soft_Reset. *)
Lemma softreset_ahead_of_dispatch_witness :
  conn_state (state_machine_typec sample_h hw_softreset sample_source_negotiating)
  = policy_src_softrst
  /\ sub_state (state_machine_typec sample_h hw_softreset sample_source_negotiating)
     = 1.
Proof.
  pose proof (softreset_ahead_of_dispatch sample_h hw_softreset
                sample_source_negotiating
                ltac:(vm_compute; reflexivity) ltac:(vm_compute; reflexivity))
    as (_ & _ & H1 & H2 & _).
  split; [|exact H2].
  rewrite H1. vm_compute. reflexivity.
Defined.

Section NegotiateCap.
Variable h : fusb302_h.

Lemma u32_small (x : Z) : 0 <= x < 2 ^ 32 -> u32 x = x.
Proof.
  intros Hx. unfold u32. change 0xffffffff with (Z.ones 32).
  rewrite Z.land_ones by lia. apply Z.mod_small. exact Hx.
Qed.

(** The [default] block of [fusb_state_src_send_caps] on a Request. *)
Lemma src_send_caps_default_request (evt : Z) (x : fusb30x_chip) :
  has evt EVENT_RX = true ->
  PACKET_IS_DATA_MSG (rec_head x) DMT_REQUEST = true ->
  (if has evt EVENT_RX then
     if PACKET_IS_DATA_MSG (rec_head x) DMT_REQUEST
     then set_state policy_src_negotiate_cap x
     else set_state policy_src_send_softrst x
   else if has evt EVENT_TIMER_STATE then
     if hardrst_count x <=? N_HARDRESET_COUNT h
     then set_state policy_src_send_hardrst x
     else set_state disabled x
   else if has evt EVENT_TIMER_MUX then
     if negb (is_pd_support x) then set_state disabled x
     else if N_HARDRESET_COUNT h <? hardrst_count x
     then set_state error_recovery x
     else set_state policy_src_send_hardrst x
   else x)
  = set_state policy_src_negotiate_cap x.
Proof. intros Hrx Hmsg. rewrite Hrx, Hmsg. reflexivity. Qed.

(** [fusb_state_src_send_caps] in a tick that has received a Request,
    unless the transmission of the capabilities has failed: the port is
    put in [policy_src_negotiate_cap]. *)
Lemma src_send_caps_request (evt : Z) (c : fusb30x_chip) :
  (sub_state c = 1 -> tx_state c <> tx_failed) ->
  has evt EVENT_RX = true ->
  PACKET_IS_DATA_MSG (rec_head c) DMT_REQUEST = true ->
  exists y,
    fusb_state_src_send_caps h evt c = set_state policy_src_negotiate_cap y
    /\ rec_load y = rec_load c /\ n_caps_used y = n_caps_used c
    /\ msg_id y = msg_id c /\ notify y = notify c
    /\ trace y = trace c ++ send_caps_sends c.
Proof.
  intros Hsub Hrx Hmsg.
  pose proof (has_rx_flag evt Hrx) as Hflag.
  unfold fusb_state_src_send_caps, send_caps_sends. cbv beta zeta.
  destruct (sub_state c =? 0) eqn:E0.
  - cbn [orb].
    destruct (set_mesg_shape DMT_SOURCECAPABILITIES DATAMESSAGE c)
      as (hd & ld & Em).
    rewrite Em.
    change (send_head (with_send_load ld (with_send_head hd c))) with hd.
    change (send_load (with_send_load ld (with_send_head hd c))) with ld.
    set (x := with_tx_state tx_idle
                (with_sub_state 1 (with_send_load ld (with_send_head hd c)))).
    assert (X1 : tx_state x = tx_idle) by reflexivity.
    assert (X2 : rec_head x = rec_head c) by reflexivity.
    assert (X3 : notify x = notify c) by reflexivity.
    assert (X4 : trace x = trace c) by reflexivity.
    assert (X5 : send_head x = hd) by reflexivity.
    assert (X6 : send_load x = ld) by reflexivity.
    assert (X7 : rec_load x = rec_load c) by reflexivity.
    assert (X8 : n_caps_used x = n_caps_used c) by reflexivity.
    assert (X9 : msg_id x = msg_id c) by reflexivity.
    clearbody x.
    rewrite (policy_send_data_idle x X1). cbv beta iota zeta.
    rewrite Hflag. cbn [negb]. rewrite X5, X6.
    set (y := with_tx_state tx_busy
                (emit (OutTx hd (firstn (Z.to_nat (PD_HEADER_CNT hd)) ld)) x)).
    assert (Y2 : rec_head y = rec_head x) by reflexivity.
    assert (Y3 : notify y = notify x) by reflexivity.
    assert (Y4 : trace y
                 = trace x ++ [OutTx hd (firstn (Z.to_nat (PD_HEADER_CNT hd)) ld)])
      by reflexivity.
    assert (Y7 : rec_load y = rec_load x) by reflexivity.
    assert (Y8 : n_caps_used y = n_caps_used x) by reflexivity.
    assert (Y9 : msg_id y = msg_id x) by reflexivity.
    clearbody y.
    rewrite (src_send_caps_default_request evt y Hrx)
      by (rewrite Y2, X2; exact Hmsg).
    exists y. repeat split; congruence.
  - cbn [orb].
    destruct (sub_state c =? 1) eqn:E1.
    + apply Z.eqb_eq in E1. specialize (Hsub E1).
      destruct (tx_state c) eqn:Et.
      * rewrite (policy_send_data_idle c Et). cbv beta iota zeta.
        rewrite Hflag. cbn [negb].
        set (y := with_tx_state tx_busy
                    (emit (OutTx (send_head c)
                             (firstn (Z.to_nat (PD_HEADER_CNT (send_head c)))
                                (send_load c))) c)).
        assert (Y2 : rec_head y = rec_head c) by reflexivity.
        assert (Y3 : notify y = notify c) by reflexivity.
        assert (Y4 : trace y
                     = trace c ++ [OutTx (send_head c)
                                     (firstn (Z.to_nat (PD_HEADER_CNT (send_head c)))
                                        (send_load c))]) by reflexivity.
        assert (Y7 : rec_load y = rec_load c) by reflexivity.
        assert (Y8 : n_caps_used y = n_caps_used c) by reflexivity.
        assert (Y9 : msg_id y = msg_id c) by reflexivity.
        clearbody y.
        rewrite (src_send_caps_default_request evt y Hrx)
          by (rewrite Y2; exact Hmsg).
        exists y. repeat split; assumption.
      * rewrite policy_send_data_wait by (rewrite Et; discriminate).
        rewrite Et. cbv beta iota zeta. rewrite Hflag. cbn [negb].
        rewrite (src_send_caps_default_request evt c Hrx Hmsg).
        exists c. rewrite app_nil_r. repeat split.
      * contradiction Hsub. reflexivity.
      * rewrite policy_send_data_wait by (rewrite Et; discriminate).
        rewrite Et. cbv beta iota zeta. rewrite Hflag. cbn [negb].
        match goal with
        | |- context [PACKET_IS_DATA_MSG (rec_head ?t) _] => set (y := t)
        end.
        assert (Y2 : rec_head y = rec_head c) by reflexivity.
        assert (Y3 : notify y = notify c) by reflexivity.
        assert (Y4 : trace y = trace c) by reflexivity.
        assert (Y7 : rec_load y = rec_load c) by reflexivity.
        assert (Y8 : n_caps_used y = n_caps_used c) by reflexivity.
        assert (Y9 : msg_id y = msg_id c) by reflexivity.
        clearbody y.
        rewrite (src_send_caps_default_request evt y Hrx)
          by (rewrite Y2; exact Hmsg).
        exists y. rewrite app_nil_r. repeat split; assumption.
    + rewrite (src_send_caps_default_request evt c Hrx Hmsg).
      exists c. rewrite app_nil_r. repeat split.
Qed.

(** [fusb_state_src_transition_supply] entered with [sub_state] 0, as
    the fall-through from [fusb_state_src_negotiate_cap] enters it:
    an Accept is written, whatever [conn_state] is. *)
Lemma src_transition_supply_entry (evt : Z) (w : fusb30x_chip) :
  sub_state w = 0 ->
  let w' := fusb_state_src_transition_supply h evt w in
  conn_state w' = conn_state w /\ sub_state w' = 1 /\ tx_state w' = tx_busy
  /\ trace w' = trace w ++ [accept_frame w].
Proof.
  intros H0. cbv zeta. unfold fusb_state_src_transition_supply.
  cbv beta zeta. rewrite H0.
  change (0 =? 0) with true. cbv beta iota. cbn [orb].
  rewrite set_mesg_control.
  set (hd := control_header (msg_id w) (power_role_bit (power_role (notify w)))
               (data_role_bit (data_role (notify w))) CMT_ACCEPT).
  assert (Hcnt : PD_HEADER_CNT hd = 0).
  { pose proof (control_header_fields (msg_id w)
                  (power_role_bit (power_role (notify w)))
                  (data_role_bit (data_role (notify w))) CMT_ACCEPT) as F.
    cbv zeta in F. exact (proj1 F). }
  set (x := with_sub_state
              (sub_state (with_tx_state tx_idle (with_send_head hd w)) + 1)
              (with_tx_state tx_idle (with_send_head hd w))).
  assert (X1 : tx_state x = tx_idle) by reflexivity.
  assert (X2 : conn_state x = conn_state w) by reflexivity.
  assert (X3 : sub_state x = sub_state w + 1) by reflexivity.
  assert (X4 : trace x = trace w) by reflexivity.
  assert (X5 : send_head x = hd) by reflexivity.
  clearbody x.
  rewrite (policy_send_data_idle x X1). cbv beta iota zeta.
  rewrite X5, Hcnt. change (Z.to_nat 0) with 0%nat. cbn [firstn].
  split; [exact X2|]. split; [change (sub_state x = 1); lia|].
  split; [reflexivity|].
  change (trace x ++ [OutTx hd []] = trace w ++ [accept_frame w]).
  rewrite X4. reflexivity.
Qed.

(** [policy_src_cap_response] past its [case 0]: no Reject is built. *)
Lemma src_cap_response_waits (evt : Z) (c : fusb30x_chip) :
  sub_state c <> 0 ->
  let c' := fusb_state_src_cap_response evt c in
  send_head c' = send_head c
  /\ (tx_state c <> tx_idle -> trace c' = trace c)
  /\ conn_state c'
     = match tx_state c with
       | tx_success =>
           if is_pd_connected (notify c) then policy_src_ready
           else policy_src_send_hardrst
       | tx_failed => policy_src_send_softrst
       | _ => conn_state c
       end.
Proof.
  intros H0. cbv zeta. unfold fusb_state_src_cap_response. cbv beta zeta.
  apply Z.eqb_neq in H0. rewrite H0.
  destruct (tx_state c) eqn:Et.
  - rewrite (policy_send_data_idle c Et). cbv beta iota zeta.
    split; [reflexivity|]. split; [|reflexivity].
    intros Hi. contradiction Hi. reflexivity.
  - rewrite policy_send_data_wait by (rewrite Et; discriminate).
    rewrite Et. repeat split.
  - rewrite policy_send_data_wait by (rewrite Et; discriminate).
    rewrite Et. repeat split.
  - rewrite policy_send_data_wait by (rewrite Et; discriminate).
    rewrite Et. cbv beta iota zeta.
    destruct (is_pd_connected (notify c)); repeat split.
Qed.

(** [fusb_state_src_negotiate_cap] and the call of
    [fusb_state_src_transition_supply] it falls through into. *)
Lemma src_negotiate_then_supply (evt : Z) (z : fusb30x_chip) :
  0 <= n_caps_used z < 2 ^ 32 ->
  let z' := fusb_state_src_transition_supply h evt
              (fusb_state_src_negotiate_cap evt z) in
  conn_state z'
  = (if n_caps_used z <? requested_index z
     then policy_src_cap_response else policy_src_transition_supply)
  /\ sub_state z' = 1 /\ tx_state z' = tx_busy
  /\ trace z' = trace z ++ [accept_frame z].
Proof.
  intros Hn. cbv zeta.
  unfold fusb_state_src_negotiate_cap. cbv zeta.
  rewrite (u32_small _ Hn).
  change (Z.land (Z.shiftr (load_nth (rec_load z) 0) 28) 7)
    with (requested_index z).
  destruct (n_caps_used z <? requested_index z).
  - destruct (src_transition_supply_entry evt
                (set_state policy_src_cap_response z) eq_refl)
      as (W1 & W2 & W3 & W4).
    rewrite W1, W2, W3, W4. repeat split.
  - destruct (src_transition_supply_entry evt
                (set_state policy_src_transition_supply z) eq_refl)
      as (W1 & W2 & W3 & W4).
    rewrite W1, W2, W3, W4. repeat split.
Qed.

End NegotiateCap.



Section VdmNack.
Variable h : fusb302_h.

Lemma data_msg_not_control (head t t' : Z) :
  PACKET_IS_DATA_MSG head t = true -> PACKET_IS_CONTROL_MSG head t' = false.
Proof.
  unfold PACKET_IS_DATA_MSG, PACKET_IS_CONTROL_MSG.
  destruct (PD_HEADER_CNT head =? 0); [discriminate|reflexivity].
Qed.

Lemma process_vdm_msg_nack (c : fusb30x_chip) :
  is_vdm_nack c = true -> process_vdm_msg c = with_vdm_state VDM_STATE_ERR c.
Proof.
  unfold is_vdm_nack, process_vdm_msg. intros H.
  apply andb_prop in H. destruct H as [H1 H2]. cbv zeta.
  rewrite H1, H2. apply Z.eqb_eq in H2. rewrite H2. reflexivity.
Qed.

Lemma vdm_nack_received_parts (evt : Z) (c : fusb30x_chip) :
  vdm_nack_received evt c = true ->
  has evt EVENT_RX = true
  /\ PACKET_IS_DATA_MSG (rec_head c) DMT_VENDERDEFINED = true
  /\ is_vdm_nack c = true.
Proof.
  unfold vdm_nack_received. intros H.
  apply andb_prop in H. destruct H as [H H3].
  apply andb_prop in H. destruct H as [H1 H2]. auto.
Qed.

(** One dispatch of [policy_snk_ready] on a VDM NACK. *)
Lemma snk_ready_vdm_nack (evt : Z) (c : fusb30x_chip) :
  vdm_nack_received evt c = true ->
  let c' := fusb_state_snk_ready h evt c in
  vdm_state c' = VDM_STATE_ERR /\ conn_state c' = conn_state c
  /\ sub_state c' = sub_state c
  /\ is_pd_connected (notify c') = is_pd_connected (notify c)
  /\ pos_power c' = pos_power c.
Proof.
  intros H c'. subst c'.
  destruct (vdm_nack_received_parts evt c H) as (Hrx & Hd & Hn).
  pose proof (data_msg_not_control _ _ CMT_PR_SWAP Hd) as N1.
  pose proof (data_msg_not_control _ _ CMT_VCONN_SWAP Hd) as N2.
  pose proof (data_msg_not_control _ _ CMT_DR_SWAP Hd) as N3.
  unfold fusb_state_snk_ready. rewrite Hrx, Hd. cbv zeta.
  rewrite (process_vdm_msg_nack c Hn).
  unfold VDM_IS_ACTIVE.
  repeat split; chip_run; try reflexivity.
Qed.

(** One dispatch of [policy_src_ready] on a VDM NACK. *)
Lemma src_ready_vdm_nack (evt : Z) (c : fusb30x_chip) :
  vdm_nack_received evt c = true ->
  let c' := fusb_state_src_ready h evt c in
  vdm_state c' = VDM_STATE_ERR
  /\ conn_state c'
     = (if truthy (load_nth (partner_cap c) 0) then conn_state c
        else policy_src_get_sink_caps)
  /\ is_pd_connected (notify c') = is_pd_connected (notify c)
  /\ pos_power c' = pos_power c.
Proof.
  intros H c'. subst c'.
  destruct (vdm_nack_received_parts evt c H) as (Hrx & Hd & Hn).
  unfold fusb_state_src_ready. rewrite Hrx, Hd. cbv zeta.
  rewrite (process_vdm_msg_nack c Hn).
  unfold VDM_IS_ACTIVE.
  destruct (truthy (load_nth (partner_cap c) 0)) eqn:Hp.
  all: repeat split; chip_run; try reflexivity.
Qed.

(** C8 (amended). A dispatch in a ready state with a VDM NACK received
    sets [vdm_state] to [VDM_STATE_ERR] and keeps the PD contract
    ([is_pd_connected], [pos_power]); [conn_state] stays at
    [policy_snk_ready], and at [policy_src_ready] when the sink
    capabilities are stored ([partner_cap[0]] is not 0); in
    [policy_src_ready] with [partner_cap[0] = 0] the port moves to
    [policy_src_get_sink_caps]. *)
Theorem vdm_nack_in_ready (hw : hw_inputs) (evt : Z) (chip : fusb30x_chip) :
  vdm_nack_received evt chip = true ->
  conn_state chip = policy_snk_ready \/ conn_state chip = policy_src_ready ->
  let c' := dispatch h hw evt chip in
  vdm_state c' = VDM_STATE_ERR
  /\ is_pd_connected (notify c') = is_pd_connected (notify chip)
  /\ pos_power c' = pos_power chip
  /\ (conn_state chip = policy_snk_ready -> conn_state c' = policy_snk_ready)
  /\ (conn_state chip = policy_src_ready ->
      load_nth (partner_cap chip) 0 <> 0 -> conn_state c' = policy_src_ready)
  /\ (conn_state chip = policy_src_ready ->
      load_nth (partner_cap chip) 0 = 0 ->
      conn_state c' = policy_src_get_sink_caps).
Proof.
  intros H Hs c'. subst c'. unfold dispatch.
  destruct Hs as [Hs|Hs]; rewrite Hs.
  - destruct (snk_ready_vdm_nack evt chip H) as (K1 & K2 & _ & K3 & K4).
    repeat split; auto; try discriminate. intros _. congruence.
  - destruct (src_ready_vdm_nack evt chip H) as (K1 & K2 & K3 & K4).
    repeat split; auto; try discriminate.
    + intros _ Hp. rewrite K2. unfold truthy.
      destruct (Z.eqb_spec (load_nth (partner_cap chip) 0) 0); [contradiction|].
      exact Hs.
    + intros _ Hp. rewrite K2, Hp. reflexivity.
Qed.
End VdmNack.

(** C8, the counterexample: a source in [policy_src_ready] that has not
    stored the sink capabilities receives a VDM NACK; after the tick
    [vdm_state] is [VDM_STATE_ERR] and the port is in
    [policy_src_get_sink_caps], not in [policy_src_ready]. *)
Lemma vdm_nack_leaves_src_ready :
  conn_state sample_src_ready = policy_src_ready
  /\ vdm_nack_received EVENT_RX
       (tick_receive hw_vdm_nack EVENT_RX sample_src_ready) = true
  /\ vdm_state (state_machine_typec sample_h hw_vdm_nack sample_src_ready)
     = VDM_STATE_ERR
  /\ conn_state (state_machine_typec sample_h hw_vdm_nack sample_src_ready)
     = policy_src_get_sink_caps
  /\ conn_state (state_machine_typec sample_h hw_vdm_nack sample_src_ready)
     <> conn_state sample_src_ready.
Proof. vm_compute. repeat split; congruence. Qed.

(** The hypotheses of [vdm_nack_in_ready] hold on a sink in
    [policy_snk_ready] receiving the same NACK. *)
Lemma vdm_nack_in_ready_witness :
  let c := tick_receive hw_vdm_nack EVENT_RX
             (set_state policy_snk_ready sample_port) in
  vdm_state (dispatch sample_h hw_vdm_nack EVENT_RX c) = VDM_STATE_ERR
  /\ conn_state (dispatch sample_h hw_vdm_nack EVENT_RX c) = policy_snk_ready.
Proof.
  pose proof (vdm_nack_in_ready sample_h hw_vdm_nack EVENT_RX
                (tick_receive hw_vdm_nack EVENT_RX
                   (set_state policy_snk_ready sample_port))
                ltac:(vm_compute; reflexivity)
                ltac:(left; vm_compute; reflexivity))
    as (H1 & _ & _ & H2 & _).
  split; [exact H1|]. apply H2. vm_compute. reflexivity.
Defined.

Lemma orientation_eqb_eq (a b : CC_ORIENTATION) : orientation_eqb a b = true <-> a = b.
Proof. destruct a, b; simpl; split; intros H; congruence. Qed.

Lemma notify_info_eqb_eq (a b : notify_info) : notify_info_eqb a b = true <-> a = b.
Proof.
  split.
  - unfold notify_info_eqb. rewrite !andb_true_iff.
    intros [[[[[[[[[[Ho Hp] Hd] Hc] Hpd] He] Hs] Hdf] Ha] Hst] Hcp].
    apply orientation_eqb_eq in Ho. apply Bool.eqb_prop in Hp, Hd, Hc, Hpd, He, Ha.
    apply Z.eqb_eq in Hs, Hdf, Hst, Hcp.
    destruct a as [o1 p1 d1 c1 pd1 e1 s1 df1 a1 st1 cp1],
             b as [o2 p2 d2 c2 pd2 e2 s2 df2 a2 st2 cp2]; simpl in *.
    destruct p1, p2; try discriminate; destruct d1, d2; try discriminate; congruence.
  - intros <-. unfold notify_info_eqb.
    rewrite !Bool.eqb_reflx, !Z.eqb_refl.
    destruct (orientation a); reflexivity.
Qed.

(** C9. [platform_fusb_notify] publishes exactly when the computed
    snapshot differs from the shadow copy [notify_cmp]: then one
    notification is appended to the trace, it carries the snapshot with
    its [attention] flag cleared, and the shadow copy is that published
    snapshot; a snapshot equal to the shadow copy publishes nothing and
    leaves the shadow copy as it is. *)
Theorem platform_fusb_notify_publishes_changes (chip : fusb30x_chip) :
  let chip' := platform_fusb_notify chip in
  (computed_snapshot chip <> notify_cmp chip ->
     trace chip' = trace chip ++ [OutNotify (notify chip') (extcon_of chip')]
     /\ notify chip' = notify_with_attention false (computed_snapshot chip)
     /\ notify_cmp chip' = notify chip')
  /\ (computed_snapshot chip = notify_cmp chip ->
     trace chip' = trace chip
     /\ notify chip' = computed_snapshot chip
     /\ notify_cmp chip' = notify_cmp chip)
  /\ (trace chip' <> trace chip <-> computed_snapshot chip <> notify_cmp chip).
Proof.
  assert (Hlen : forall (l : list output) o, l ++ [o] <> l).
  { intros l o H. apply (f_equal (@length output)) in H.
    rewrite length_app in H. simpl in H. lia. }
  assert (Hne : forall a b, notify_info_eqb a b = false -> a <> b).
  { intros a b E H. apply notify_info_eqb_eq in H. congruence. }
  unfold platform_fusb_notify, computed_snapshot.
  destruct (is_cc_connected (notify chip)); cbn;
    match goal with
    | |- context [notify_info_eqb ?a ?b] =>
        destruct (notify_info_eqb a b) eqn:E
    end; cbn;
    [apply notify_info_eqb_eq in E | apply Hne in E
    |apply notify_info_eqb_eq in E | apply Hne in E];
    repeat split; intros; try congruence; try tauto; auto.
Qed.

Section RejectedRequest.
Variable h : fusb302_h.

Lemma control_msg_parts (head t : Z) :
  PACKET_IS_CONTROL_MSG head t = true ->
  (PD_HEADER_CNT head =? 0) = true /\ PD_HEADER_TYPE head = t.
Proof.
  unfold PACKET_IS_CONTROL_MSG. intros H.
  apply andb_prop in H. destruct H as [H1 H2].
  apply Z.eqb_eq in H2. auto.
Qed.

(** The [default] block of [fusb_state_snk_select_cap] on a Reject or a
    Wait with no contract. *)
Lemma snk_select_cap_default_rejected (evt : Z) (x : fusb30x_chip) :
  has evt EVENT_RX = true ->
  PACKET_IS_CONTROL_MSG (rec_head x) CMT_REJECT = true
  \/ PACKET_IS_CONTROL_MSG (rec_head x) CMT_WAIT = true ->
  is_pd_connected (notify x) = false ->
  (if has evt EVENT_RX then
     if PD_HEADER_CNT (rec_head x) =? 0 then
       if PD_HEADER_TYPE (rec_head x) =? CMT_ACCEPT then
         with_timer_state (T_PS_TRANSITION h)
           (set_state policy_snk_transition_sink x)
       else if (PD_HEADER_TYPE (rec_head x) =? CMT_WAIT)
               || (PD_HEADER_TYPE (rec_head x) =? CMT_REJECT) then
         if is_pd_connected (notify x) then set_state policy_snk_ready x
         else
           with_hardrst_count (N_HARDRESET_COUNT h + 1)
             (set_state policy_snk_wait_caps x)
       else x
     else x
   else if has evt EVENT_TIMER_STATE
   then set_state policy_snk_send_hardrst x
   else x)
  = with_hardrst_count (N_HARDRESET_COUNT h + 1)
      (set_state policy_snk_wait_caps x).
Proof.
  intros Hrx Hmsg Hpd. rewrite Hrx, Hpd.
  destruct Hmsg as [Hm|Hm]; apply control_msg_parts in Hm;
    destruct Hm as [-> ->]; reflexivity.
Qed.

(** [policy_snk_select_cap] on a Reject or a Wait with no contract, in
    every tick but the one in which the transmission of the Request has
    failed. *)
Lemma snk_select_cap_rejected (evt : Z) (c : fusb30x_chip) :
  (sub_state c = 1 -> tx_state c <> tx_failed) ->
  has evt EVENT_RX = true ->
  PACKET_IS_CONTROL_MSG (rec_head c) CMT_REJECT = true
  \/ PACKET_IS_CONTROL_MSG (rec_head c) CMT_WAIT = true ->
  is_pd_connected (notify c) = false ->
  let c' := fusb_state_snk_select_cap h evt c in
  conn_state c' = policy_snk_wait_caps
  /\ hardrst_count c' = N_HARDRESET_COUNT h + 1
  /\ trace c' = trace c ++ select_cap_sends c.
Proof.
  intros Hsub Hrx Hmsg Hpd. cbv zeta.
  pose proof (has_rx_flag evt Hrx) as Hflag.
  unfold fusb_state_snk_select_cap, select_cap_sends. cbv beta zeta.
  destruct (sub_state c =? 0) eqn:E0.
  - cbn [orb].
    destruct (set_mesg_shape DMT_REQUEST DATAMESSAGE c) as (hd & ld & Em).
    rewrite Em.
    set (x := with_tx_state tx_idle
                (with_sub_state 1 (with_send_load ld (with_send_head hd c)))).
    assert (X1 : tx_state x = tx_idle) by reflexivity.
    assert (X2 : rec_head x = rec_head c) by reflexivity.
    assert (X3 : notify x = notify c) by reflexivity.
    assert (X4 : trace x = trace c) by reflexivity.
    assert (X5 : send_head x = hd) by reflexivity.
    assert (X6 : send_load x = ld) by reflexivity.
    clearbody x.
    rewrite (policy_send_data_idle x X1). cbv beta iota zeta.
    rewrite Hflag. cbn [negb].
    set (y := with_tx_state tx_busy
                (emit (OutTx (send_head x)
                         (firstn (Z.to_nat (PD_HEADER_CNT (send_head x)))
                            (send_load x))) x)).
    assert (Y2 : rec_head y = rec_head c) by exact X2.
    assert (Y3 : notify y = notify c) by exact X3.
    assert (Y4 : trace y
                 = trace x ++ [OutTx (send_head x)
                                 (firstn (Z.to_nat (PD_HEADER_CNT (send_head x)))
                                    (send_load x))]) by reflexivity.
    clearbody y.
    rewrite (snk_select_cap_default_rejected evt y Hrx);
      [| rewrite Y2; exact Hmsg | rewrite Y3; exact Hpd].
    split; [reflexivity|]. split; [reflexivity|].
    change (trace (with_hardrst_count (N_HARDRESET_COUNT h + 1)
                     (set_state policy_snk_wait_caps y))) with (trace y).
    rewrite Y4, X4, X5, X6.
    change (send_head (with_send_load ld (with_send_head hd c))) with hd.
    change (send_load (with_send_load ld (with_send_head hd c))) with ld.
    reflexivity.
  - cbn [orb].
    destruct (sub_state c =? 1) eqn:E1.
    + apply Z.eqb_eq in E1. specialize (Hsub E1).
      destruct (tx_state c) eqn:Et.
      * rewrite (policy_send_data_idle c Et). cbv beta iota zeta.
        rewrite Hflag. cbn [negb].
        set (y := with_tx_state tx_busy
                    (emit (OutTx (send_head c)
                             (firstn (Z.to_nat (PD_HEADER_CNT (send_head c)))
                                (send_load c))) c)).
        assert (Y2 : rec_head y = rec_head c) by reflexivity.
        assert (Y3 : notify y = notify c) by reflexivity.
        assert (Y4 : trace y
                     = trace c ++ [OutTx (send_head c)
                                     (firstn (Z.to_nat (PD_HEADER_CNT (send_head c)))
                                        (send_load c))]) by reflexivity.
        clearbody y.
        rewrite (snk_select_cap_default_rejected evt y Hrx);
          [| rewrite Y2; exact Hmsg | rewrite Y3; exact Hpd].
        split; [reflexivity|]. split; [reflexivity|]. exact Y4.
      * rewrite policy_send_data_wait by (rewrite Et; discriminate).
        rewrite Et. cbv beta iota zeta. rewrite Hflag. cbn [negb].
        rewrite (snk_select_cap_default_rejected evt c Hrx Hmsg Hpd).
        split; [reflexivity|]. split; [reflexivity|].
        symmetry. apply app_nil_r.
      * contradiction Hsub. reflexivity.
      * rewrite policy_send_data_wait by (rewrite Et; discriminate).
        rewrite Et. cbv beta iota zeta. rewrite Hflag. cbn [negb].
        set (y := with_sub_state (sub_state (with_timer_state (T_SENDER_RESPONSE h) c) + 1)
                    (with_timer_state (T_SENDER_RESPONSE h) c)).
        assert (Y2 : rec_head y = rec_head c) by reflexivity.
        assert (Y3 : notify y = notify c) by reflexivity.
        assert (Y4 : trace y = trace c) by reflexivity.
        clearbody y.
        rewrite (snk_select_cap_default_rejected evt y Hrx);
          [| rewrite Y2; exact Hmsg | rewrite Y3; exact Hpd].
        split; [reflexivity|]. split; [reflexivity|].
        change (trace y = trace c ++ []). rewrite app_nil_r. exact Y4.
    + rewrite (snk_select_cap_default_rejected evt c Hrx Hmsg Hpd).
      split; [reflexivity|]. split; [reflexivity|].
      symmetry. apply app_nil_r.
Qed.

(** The tick left out: the transmission of the Request has failed. *)
Lemma snk_select_cap_tx_failed (evt : Z) (c : fusb30x_chip) :
  sub_state c = 1 -> tx_state c = tx_failed ->
  fusb_state_snk_select_cap h evt c = set_state policy_snk_discovery c.
Proof.
  intros Hs Ht. unfold fusb_state_snk_select_cap. cbv beta zeta.
  rewrite Hs. change (1 =? 0) with false. change (1 =? 1) with true.
  cbn [orb].
  rewrite policy_send_data_wait by (rewrite Ht; discriminate).
  rewrite Ht. reflexivity.
Qed.

(** [policy_snk_wait_caps] with the hard-reset count above
    [N_HARDRESET_COUNT]: the handler sends nothing, keeps the count, and
    a timeout ends in [error_recovery] or [disabled]. *)
Lemma snk_wait_caps_blocked (evt : Z) (c : fusb30x_chip) :
  conn_state c = policy_snk_wait_caps ->
  N_HARDRESET_COUNT h < hardrst_count c ->
  let c' := fusb_state_snk_wait_caps h evt c in
  trace c' = trace c
  /\ hardrst_count c' = hardrst_count c
  /\ (conn_state c' = policy_snk_wait_caps
      \/ conn_state c' = policy_snk_evaluate_caps
      \/ conn_state c' = error_recovery
      \/ conn_state c' = disabled)
  /\ (has evt EVENT_RX = false ->
      has evt EVENT_TIMER_STATE = true \/ has evt EVENT_TIMER_MUX = true ->
      conn_state c'
      = if is_pd_support c then error_recovery else disabled).
Proof.
  intros Hs Hc c'. subst c'.
  assert (H1 : (hardrst_count c <=? N_HARDRESET_COUNT h) = false)
    by (apply Z.leb_gt; exact Hc).
  assert (H2 : (N_HARDRESET_COUNT h <? hardrst_count c) = true)
    by (apply Z.ltb_lt; exact Hc).
  unfold fusb_state_snk_wait_caps. rewrite H1, H2.
  repeat split.
  - chip_run; reflexivity.
  - chip_run; reflexivity.
  - chip_run; auto.
  - intros Hrx Ht. rewrite Hrx.
    destruct Ht as [Ht|Ht]; rewrite Ht; chip_run; reflexivity.
Qed.

(** C10 (amended). In [policy_snk_select_cap], whatever [sub_state]
    is, a Reject or a Wait received with no contract ([is_pd_connected]
    false) takes the port to [policy_snk_wait_caps] with
    [hardrst_count = N_HARDRESET_COUNT + 1]; the only tick in which it
    does not is the one in which the transmission of the Request has
    failed ([sub_state] 1 and [tx_failed]), which ends in
    [policy_snk_discovery] with the count unchanged.  The tick writes
    the frames of [select_cap_sends], that is nothing once the Request
    is on its way.  For as long as [hardrst_count] stays above
    [N_HARDRESET_COUNT], a dispatch in [policy_snk_wait_caps] sends
    nothing, keeps the count and never enters [policy_snk_send_hardrst]
    or [policy_snk_send_softrst]: a timeout ends in [error_recovery] (PD
    supported) or [disabled].  The count does not stay above
    [N_HARDRESET_COUNT] for the connection: [policy_snk_evaluate_caps]
    sets it to 0 when capabilities are received again. *)
Theorem reject_blocks_hard_reset (hw : hw_inputs) (evt : Z)
    (chip : fusb30x_chip) :
  conn_state chip = policy_snk_select_cap ->
  has evt EVENT_RX = true ->
  PACKET_IS_CONTROL_MSG (rec_head chip) CMT_REJECT = true
  \/ PACKET_IS_CONTROL_MSG (rec_head chip) CMT_WAIT = true ->
  is_pd_connected (notify chip) = false ->
  let c1 := dispatch h hw evt chip in
  ((sub_state chip = 1 -> tx_state chip <> tx_failed) ->
   conn_state c1 = policy_snk_wait_caps
   /\ hardrst_count c1 = N_HARDRESET_COUNT h + 1
   /\ trace c1 = trace chip ++ select_cap_sends chip
   /\ ((sub_state chip =? 0) = false -> tx_state chip <> tx_idle ->
       trace c1 = trace chip))
  /\ (sub_state chip = 1 -> tx_state chip = tx_failed ->
      conn_state c1 = policy_snk_discovery
      /\ hardrst_count c1 = hardrst_count chip
      /\ trace c1 = trace chip)
  /\ (forall (hw' : hw_inputs) (evt' : Z) (c : fusb30x_chip),
        conn_state c = policy_snk_wait_caps ->
        N_HARDRESET_COUNT h < hardrst_count c ->
        let c' := dispatch h hw' evt' c in
        trace c' = trace c
        /\ hardrst_count c' = hardrst_count c
        /\ conn_state c' <> policy_snk_send_hardrst
        /\ conn_state c' <> policy_snk_send_softrst
        /\ (has evt' EVENT_RX = false ->
            has evt' EVENT_TIMER_STATE = true
            \/ has evt' EVENT_TIMER_MUX = true ->
            conn_state c'
            = if is_pd_support c then error_recovery else disabled))
  /\ (forall (hw' : hw_inputs) (evt' : Z) (c : fusb30x_chip),
        hardrst_count (fusb_state_snk_evaluate_caps hw' evt' c) = 0).
Proof.
  intros Hs Hrx Hmsg Hpd c1. subst c1.
  split; [|split; [|split]].
  - intros Hsub. unfold dispatch. rewrite Hs.
    destruct (snk_select_cap_rejected evt chip Hsub Hrx Hmsg Hpd)
      as (K1 & K2 & K3).
    split; [exact K1|]. split; [exact K2|]. split; [exact K3|].
    intros H0 Hi. rewrite K3. unfold select_cap_sends. rewrite H0.
    destruct (sub_state chip =? 1); [|apply app_nil_r].
    destruct (tx_state chip); [contradiction Hi; reflexivity | ..];
      apply app_nil_r.
  - intros H1 Hf. unfold dispatch. rewrite Hs.
    rewrite (snk_select_cap_tx_failed evt chip H1 Hf).
    repeat split.
  - intros hw' evt' c Hc Hn c'. subst c'. unfold dispatch. rewrite Hc.
    destruct (snk_wait_caps_blocked evt' c Hc Hn) as (K1 & K2 & K3 & K4).
    repeat split; auto.
    + intros E. rewrite E in K3.
      destruct K3 as [K|[K|[K|K]]]; discriminate K.
    + intros E. rewrite E in K3.
      destruct K3 as [K|[K|[K|K]]]; discriminate K.
  - intros hw' evt' c. unfold fusb_state_snk_evaluate_caps.
    chip_run; reflexivity.
Qed.
End RejectedRequest.

(** C10, the counterexample: the run of [sample_snk_select_cap] over
    [run_reject] ends in [policy_snk_wait_caps] with the count at
    [N_HARDRESET_COUNT + 1]; continued over [run_after_reject], where
    the source advertises again and the timer of [policy_snk_wait_caps]
    expires, it ends in [policy_snk_send_hardrst] with a hard reset
    sent. *)
Lemma hard_reset_after_reject :
  let c1 := port_run sample_h run_reject sample_snk_select_cap in
  let c2 := port_run sample_h run_after_reject c1 in
  (conn_state c1 = policy_snk_wait_caps
   /\ hardrst_count c1 = N_HARDRESET_COUNT sample_h + 1
   /\ is_cc_connected (notify c1) = true)
  /\ conn_state
       (port_run sample_h (firstn 6 run_after_reject) c1)
     = policy_snk_wait_caps
  /\ conn_state
       (port_run sample_h (firstn 7 run_after_reject) c1)
     = policy_snk_send_hardrst
  /\ conn_state c2 = policy_snk_send_hardrst
  /\ trace c2 = [OutTx 4162 [335544620]; OutHardReset]
  /\ is_cc_connected (notify c2) = true.
Proof. vm_compute. repeat split. Qed.

(** The tick of [sample_snk_request_in_flight] whose interrupts report
    the acknowledgement of the Request and a Reject: the hypotheses of
    [reject_blocks_hard_reset] hold on the port as the dispatch finds
    it, with [sub_state] 1. *)
Lemma reject_blocks_hard_reset_witness :
  let evt := snd (tick_events sample_h hw_txsent_reject
                    sample_snk_request_in_flight) in
  let c := tick_msg_id evt
             (tick_receive hw_txsent_reject evt
                (tick_detach sample_h hw_txsent_reject evt
                   (fst (tick_events sample_h hw_txsent_reject
                           sample_snk_request_in_flight)))) in
  sub_state c = 1
  /\ conn_state (dispatch sample_h hw_txsent_reject evt c)
     = policy_snk_wait_caps
  /\ hardrst_count (dispatch sample_h hw_txsent_reject evt c) = 1
  /\ trace (dispatch sample_h hw_txsent_reject evt c) = trace c.
Proof.
  cbv zeta.
  pose proof (reject_blocks_hard_reset sample_h hw_txsent_reject
                (snd (tick_events sample_h hw_txsent_reject
                        sample_snk_request_in_flight))
                (tick_msg_id
                   (snd (tick_events sample_h hw_txsent_reject
                           sample_snk_request_in_flight))
                   (tick_receive hw_txsent_reject
                      (snd (tick_events sample_h hw_txsent_reject
                              sample_snk_request_in_flight))
                      (tick_detach sample_h hw_txsent_reject
                         (snd (tick_events sample_h hw_txsent_reject
                                 sample_snk_request_in_flight))
                         (fst (tick_events sample_h hw_txsent_reject
                                 sample_snk_request_in_flight)))))
                ltac:(vm_compute; reflexivity)
                ltac:(vm_compute; reflexivity)
                ltac:(left; vm_compute; reflexivity)
                ltac:(vm_compute; reflexivity))
    as (H & _).
  cbv zeta in H.
  destruct (H ltac:(intros _; vm_compute; discriminate)) as (H1 & H2 & _ & H4).
  split; [vm_compute; reflexivity|].
  split; [exact H1|]. split; [exact H2|].
  apply H4; vm_compute; [reflexivity | discriminate].
Defined.

Section QuietTicks.
Variable h : fusb302_h.

Lemma interrupts_clear_parts (hw : hw_inputs) :
  interrupts_clear hw = true ->
  interrupt_comp_chng hw = false /\ interrupt_vbusok hw = false
  /\ interrupta_togdone hw = false /\ interrupta_txsent hw = false
  /\ interrupta_hardrst hw = false /\ interrupta_retryfail hw = false
  /\ interrupta_hardsent hw = false /\ interruptb_gcrcsent hw = false.
Proof.
  unfold interrupts_clear. intros H.
  repeat (apply andb_prop in H; destruct H as [H ?]).
  repeat match goal with
         | H : negb _ = true |- _ => apply negb_true_iff in H
         end.
  repeat split; assumption.
Qed.

Lemma tcpc_alert_clear (hw : hw_inputs) (c : fusb30x_chip) (evt : Z) :
  interrupts_clear hw = true -> tcpc_alert h hw c evt = (c, evt).
Proof.
  intros H. apply interrupts_clear_parts in H.
  destruct H as (H1 & H2 & H3 & H4 & H5 & H6 & H7 & H8).
  unfold tcpc_alert. rewrite H1, H2, H3, H4, H5, H6, H7, H8. reflexivity.
Qed.


Lemma has_lor (a b f : Z) : has (Z.lor a b) f = has a f || has b f.
Proof.
  unfold has. rewrite Z.land_lor_distr_l.
  destruct (Z.eqb_spec (Z.land a f) 0) as [Ea|Ea];
    destruct (Z.eqb_spec (Z.land b f) 0) as [Eb|Eb]; cbn [negb orb];
    destruct (Z.eqb_spec (Z.lor (Z.land a f) (Z.land b f)) 0) as [E|E];
    try reflexivity; exfalso.
  - apply E. rewrite Ea, Eb. reflexivity.
  - apply Z.lor_eq_0_iff in E. tauto.
  - apply Z.lor_eq_0_iff in E. tauto.
  - apply Z.lor_eq_0_iff in E. tauto.
Qed.

Lemma has_if_lor (b : bool) (e x f : Z) :
  has x f = false -> has (if b then Z.lor e x else e) f = has e f.
Proof.
  intros Hx. destruct b; [|reflexivity].
  rewrite has_lor, Hx. apply orb_false_r.
Qed.

(** [tcpc_alert] raises no timer event, keeps the mux timer, and
    keeps the state timer unless the hard reset has been sent. *)
Lemma tcpc_alert_timers (timer : port_timer) (hw : hw_inputs)
    (c : fusb30x_chip) (evt : Z) :
  has (snd (tcpc_alert h hw c evt)) (timer_event timer)
  = has evt (timer_event timer)
  /\ timer_mux (fst (tcpc_alert h hw c evt)) = timer_mux c
  /\ (timer_state (fst (tcpc_alert h hw c evt)) = timer_state c
      \/ timer_state (fst (tcpc_alert h hw c evt)) = T_DISABLED h)
  /\ (interrupta_hardsent hw = false ->
      timer_state (fst (tcpc_alert h hw c evt)) = timer_state c)
  /\ has (work_continue (fst (tcpc_alert h hw c evt))) (timer_event timer)
     = has (work_continue c) (timer_event timer).
Proof.
  assert (Hcc : has EVENT_CC (timer_event timer) = false)
    by (destruct timer; reflexivity).
  assert (Htx : has EVENT_TX (timer_event timer) = false)
    by (destruct timer; reflexivity).
  assert (Hrx : has EVENT_RX (timer_event timer) = false)
    by (destruct timer; reflexivity).
  assert (Hrr : has EVENT_REC_RESET (timer_event timer) = false)
    by (destruct timer; reflexivity).
  assert (Hwc : has EVENT_WORK_CONTINUE (timer_event timer) = false)
    by (destruct timer; reflexivity).
  unfold tcpc_alert, pd_execute_hard_reset. cbv zeta.
  destruct (interrupta_togdone hw), (interrupta_txsent hw),
    (interrupta_hardrst hw), (interrupta_retryfail hw),
    (interrupta_hardsent hw); cbv beta iota;
    repeat match goal with
           | |- context [if negb (retry ?x) then _ else _] =>
               destruct (negb (retry x))
           | |- context [if is_source ?x then _ else _] =>
               destruct (is_source x)
           end; cbn [fst snd].
  all: repeat split; try discriminate; intros;
    unfold set_state; repeat proj_step;
    repeat first [ rewrite has_lor | rewrite has_if_lor by assumption ];
    rewrite ?Hcc, ?Htx, ?Hrx, ?Hrr, ?Hwc, ?orb_false_r;
    auto.
Qed.

Lemma mux_alert_timers (timer : port_timer) (c : fusb30x_chip) (evt : Z) :
  T_DISABLED h <> 0 ->
  has (snd (mux_alert h c evt)) (timer_event timer)
  = has evt (timer_event timer) || (timer_field timer c =? 0)
    || has (work_continue c) (timer_event timer)
  /\ (timer_field timer c = 0 ->
      timer_field timer (fst (mux_alert h c evt)) = T_DISABLED h)
  /\ (timer_field timer c <> 0 ->
      timer_field timer (fst (mux_alert h c evt)) = timer_field timer c)
  /\ work_continue (fst (mux_alert h c evt)) = 0.
Proof.
  intros Hd.
  assert (Hss : has EVENT_TIMER_STATE EVENT_TIMER_STATE = true) by reflexivity.
  assert (Hmm : has EVENT_TIMER_MUX EVENT_TIMER_MUX = true) by reflexivity.
  assert (Hms : has EVENT_TIMER_MUX EVENT_TIMER_STATE = false) by reflexivity.
  assert (Hsm : has EVENT_TIMER_STATE EVENT_TIMER_MUX = false) by reflexivity.
  unfold mux_alert, truthy.
  destruct (timer_mux c =? 0) eqn:Em; cbv beta iota zeta;
    repeat proj_step;
    destruct (timer_state c =? 0) eqn:Es; cbv beta iota zeta;
    repeat proj_step;
    destruct (work_continue c =? 0) eqn:Ew; cbn [negb]; cbv beta iota;
    cbn [fst snd];
    destruct timer; cbn [timer_event timer_field];
    rewrite ?Em, ?Es;
    (split; [|split; [|split]]).
  all: try (intros E; try (apply Z.eqb_eq in Em); try (apply Z.eqb_eq in Es);
            try (apply Z.eqb_neq in Em); try (apply Z.eqb_neq in Es);
            repeat proj_step; try reflexivity; congruence).
  all: repeat proj_step; try reflexivity; try (apply Z.eqb_eq in Ew; exact Ew).
  all: try (apply Z.eqb_eq in Ew; rewrite Ew).
  all: repeat rewrite has_lor; rewrite ?Hss, ?Hmm, ?Hms, ?Hsm;
    try (change (has 0 EVENT_TIMER_STATE) with false);
    try (change (has 0 EVENT_TIMER_MUX) with false);
    rewrite ?orb_false_r, ?orb_true_r, ?orb_true_l; try reflexivity.
  all: intros E; exfalso; apply E; apply Z.eqb_eq; assumption.
Qed.

(** X2. The expiry of an armed timer is seen by the next tick, once: that
    tick has the timer's event and disables the timer field, and the
    tick after it has no event of that timer.  (The first tick must not
    carry the hard-reset-sent interrupt, which disables the state timer
    itself; [T_DISABLED] is not 0.) *)
Theorem timer_expiry_delivered_once (timer : port_timer) (hw hw' : hw_inputs)
    (c : fusb30x_chip) :
  T_DISABLED h <> 0 ->
  interrupta_hardsent hw = false ->
  timer_field timer c <> T_DISABLED h ->
  let c1 := fusb_timer_handler h timer c in
  let c2 := fst (tick_events h hw c1) in
  has (snd (tick_events h hw c1)) (timer_event timer) = true
  /\ timer_field timer c2 = T_DISABLED h
  /\ has (snd (tick_events h hw' c2)) (timer_event timer) = false.
Proof.
  intros Hd Hhs Harm c1 c2.
  assert (H1 : timer_field timer c1 = 0).
  { subst c1. unfold fusb_timer_handler.
    destruct timer; cbn [timer_field] in *.
    - destruct (Z.eqb_spec (timer_state c) (T_DISABLED h));
        [contradiction|reflexivity].
    - destruct (Z.eqb_spec (timer_mux c) (T_DISABLED h));
        [contradiction|reflexivity]. }
  assert (Hfield : forall hw0 x evt,
            interrupta_hardsent hw0 = false ->
            timer_field timer (fst (tcpc_alert h hw0 x evt)) = timer_field timer x).
  { intros hw0 x evt Hh.
    destruct (tcpc_alert_timers timer hw0 x evt) as (_ & Tm & _ & Ts & _).
    destruct timer; cbn [timer_field]; auto. }
  assert (T1 : has (snd (tick_events h hw c1)) (timer_event timer) = true
               /\ timer_field timer c2 = T_DISABLED h
               /\ work_continue c2 = 0).
  { subst c2. unfold tick_events.
    destruct (tcpc_alert h hw c1 0) as [x e] eqn:Ea.
    pose proof (Hfield hw c1 0 Hhs) as F. rewrite Ea in F. cbn [fst] in F.
    destruct (mux_alert_timers timer x e Hd) as (M1 & M2 & _ & M4).
    rewrite M1, F, H1. change (0 =? 0) with true.
    rewrite orb_true_r. cbn [orb].
    repeat split; auto. apply M2. congruence. }
  destruct T1 as (T1 & T2 & T3).
  split; [exact T1|]. split; [exact T2|].
  unfold tick_events.
  destruct (tcpc_alert h hw' c2 0) as [x e] eqn:Ea.
  destruct (tcpc_alert_timers timer hw' c2 0) as (A1 & Am & As & _ & Aw).
  rewrite Ea in A1, Am, As, Aw. cbn [fst snd] in A1, Am, As, Aw.
  destruct (mux_alert_timers timer x e Hd) as (M1 & _).
  rewrite M1, A1, Aw, T3.
  assert (Hx : (timer_field timer x =? 0) = false).
  { apply Z.eqb_neq. destruct timer; cbn [timer_field] in *.
    - destruct As as [E|E]; rewrite E; congruence.
    - rewrite Am. congruence. }
  rewrite Hx. destruct timer; reflexivity.
Qed.
End QuietTicks.


(** The state timer of [sample_timer_armed] expires. *)
Lemma timer_expiry_delivered_once_witness :
  has (snd (tick_events sample_h hw_quiet
              (fusb_timer_handler sample_h timer_state_machine
                 sample_timer_armed)))
    EVENT_TIMER_STATE = true.
Proof.
  apply (timer_expiry_delivered_once sample_h timer_state_machine hw_quiet
           hw_quiet sample_timer_armed);
    [vm_compute; discriminate | reflexivity | vm_compute; discriminate].
Defined.

Section Notify.
Variable h : fusb302_h.

Lemma with_notify_same (c : fusb30x_chip) : with_notify (notify c) c = c.
Proof. destruct c; reflexivity. Qed.

(** [platform_fusb_notify] in one equation. *)
Lemma platform_fusb_notify_eq (c : fusb30x_chip) :
  platform_fusb_notify c
  = if notify_info_eqb (computed_snapshot c) (notify_cmp c)
    then with_notify (computed_snapshot c) c
    else
      with_trace
        (trace c
         ++ [OutNotify (notify_with_attention false (computed_snapshot c))
               (extcon_of
                  (with_notify
                     (notify_with_attention false (computed_snapshot c)) c))])
        (with_notify_cmp (notify_with_attention false (computed_snapshot c))
           (with_notify (notify_with_attention false (computed_snapshot c)) c)).
Proof.
  unfold platform_fusb_notify, computed_snapshot, emit.
  destruct (is_cc_connected (notify c)); cbv zeta.
  - reflexivity.
  - destruct (notify_info_eqb (notify c) (notify_cmp c)).
    + symmetry. apply with_notify_same.
    + reflexivity.
Qed.

(** X3. Publishing is idempotent: a second call of [platform_fusb_notify]
    right after the first publishes nothing and changes nothing. *)
Theorem platform_fusb_notify_idempotent (c : fusb30x_chip) :
  platform_fusb_notify (platform_fusb_notify c) = platform_fusb_notify c.
Proof.
  assert (R : forall x, notify_info_eqb x x = true)
    by (intros x; apply notify_info_eqb_eq; reflexivity).
  rewrite (platform_fusb_notify_eq c).
  destruct (notify_info_eqb (computed_snapshot c) (notify_cmp c)) eqn:E.
  - rewrite platform_fusb_notify_eq.
    assert (S1 : computed_snapshot (with_notify (computed_snapshot c) c)
                 = computed_snapshot c).
    { unfold computed_snapshot.
      destruct (is_cc_connected (notify c)) eqn:Hc.
      - assert (Hc' : is_cc_connected
                        (notify (with_notify
                           (notify_with_orientation
                              match cc_polarity c with
                              | TYPEC_POLARITY_CC1 => TYPEC_ORIENTATION_CC1
                              | TYPEC_POLARITY_CC2 => TYPEC_ORIENTATION_CC2
                              end (notify c)) c))
                      = is_cc_connected (notify c)) by reflexivity.
        rewrite Hc', Hc. reflexivity.
      - assert (Hc' : is_cc_connected (notify (with_notify (notify c) c))
                      = is_cc_connected (notify c)) by reflexivity.
        rewrite Hc', Hc. reflexivity. }
    rewrite S1.
    assert (S2 : notify_cmp (with_notify (computed_snapshot c) c) = notify_cmp c)
      by reflexivity.
    rewrite S2, E. reflexivity.
  - set (n' := notify_with_attention false (computed_snapshot c)).
    set (t := trace c ++ [OutNotify n' (extcon_of (with_notify n' c))]).
    rewrite platform_fusb_notify_eq.
    assert (S1 : computed_snapshot
                   (with_trace t (with_notify_cmp n' (with_notify n' c)))
                 = n').
    { unfold computed_snapshot. subst n'. unfold computed_snapshot.
      destruct (is_cc_connected (notify c)) eqn:Hc.
      - match goal with |- (if ?b then _ else _) = _ =>
          assert (Hc' : b = is_cc_connected (notify c)) by reflexivity;
          rewrite Hc', Hc end.
        reflexivity.
      - match goal with |- (if ?b then _ else _) = _ =>
          assert (Hc' : b = is_cc_connected (notify c)) by reflexivity;
          rewrite Hc', Hc end.
        reflexivity. }
    rewrite S1.
    assert (S2 : notify_cmp (with_trace t (with_notify_cmp n' (with_notify n' c)))
                 = n') by reflexivity.
    rewrite S2, R. reflexivity.
Qed.

Lemma lor_work_continue_truthy (x : Z) :
  truthy (Z.lor x EVENT_WORK_CONTINUE) = true.
Proof.
  unfold truthy. apply negb_true_iff, Z.eqb_neq. intros E.
  apply Z.lor_eq_0_iff in E. destruct E as [_ E]. discriminate E.
Qed.

(** The unconditional middle of [set_state_unattached]. *)
Lemma unattached_core (c1 : fusb30x_chip) :
  let c0 := with_notify notify_zero (set_state unattached (tcpm_init c1)) in
  conn_state c0 = unattached /\ sub_state c0 = 0
  /\ notify c0 = notify_zero /\ notify_cmp c0 = notify_cmp c1
  /\ cc_state c0 = 0 /\ vconn_enabled c0 = false
  /\ work_continue c0 = Z.lor (work_continue c1) EVENT_WORK_CONTINUE
  /\ trace c0 = trace c1 ++ [OutVbus false false]
  /\ extcon_of (with_notify notify_zero c0)
     = extcon_of (with_notify notify_zero c1).
Proof. cbv zeta. repeat split; reflexivity. Qed.

Lemma unattached_headphone (c : fusb30x_chip) (b : bool) :
  let c1 := if b then emit (OutHeadphone false) c else c in
  notify_cmp c1 = notify_cmp c
  /\ work_continue c1 = work_continue c
  /\ trace c1 = trace c ++ (if b then [OutHeadphone false] else [])
  /\ extcon_of (with_notify notify_zero c1)
     = extcon_of (with_notify notify_zero c).
Proof.
  destruct b; cbv zeta; repeat split; try reflexivity.
  symmetry. apply app_nil_r.
Qed.

Lemma unattached_tail (c0 : fusb30x_chip) (t : list output) (n : notify_info) :
  let c' := with_try_role_complete false
              (with_trace t (with_notify_cmp n (with_notify n c0))) in
  conn_state c' = conn_state c0 /\ sub_state c' = sub_state c0
  /\ notify c' = n /\ notify_cmp c' = n
  /\ cc_state c' = cc_state c0 /\ vconn_enabled c' = vconn_enabled c0
  /\ try_role_complete c' = false
  /\ work_continue c' = work_continue c0
  /\ trace c' = t.
Proof. cbv zeta. repeat split; reflexivity. Qed.

Lemma unattached_tail_quiet (c0 : fusb30x_chip) (n : notify_info) :
  let c' := with_try_role_complete false (with_notify n c0) in
  conn_state c' = conn_state c0 /\ sub_state c' = sub_state c0
  /\ notify c' = n /\ notify_cmp c' = notify_cmp c0
  /\ cc_state c' = cc_state c0 /\ vconn_enabled c' = vconn_enabled c0
  /\ try_role_complete c' = false
  /\ work_continue c' = work_continue c0
  /\ trace c' = trace c0.
Proof. cbv zeta. repeat split; reflexivity. Qed.

(** X4. Whatever the port was doing, [set_state_unattached] leaves it in
    [unattached] with the worker queued, the toggle state, VCONN and the
    role trial cleared, and both the snapshot and its shadow copy
    zeroed.  VBUS is switched off, the headphone switch is released if
    an audio accessory was attached, and the zeroed snapshot is
    published exactly when the shadow copy was not already zero. *)
Theorem set_state_unattached_clears (c : fusb30x_chip) :
  let c' := set_state_unattached h c in
  conn_state c' = unattached /\ sub_state c' = 0
  /\ notify c' = notify_zero /\ notify_cmp c' = notify_zero
  /\ cc_state c' = 0 /\ vconn_enabled c' = false
  /\ try_role_complete c' = false
  /\ work_pending c' = true
  /\ trace c'
     = trace c
       ++ (if is_cc_connected (notify c)
              && (CC_STATE_ROLE h c =? CC_STATE_TOGSS_IS_ACC h)
           then [OutHeadphone false] else [])
       ++ [OutVbus false false]
       ++ (if notify_info_eqb notify_zero (notify_cmp c) then []
           else [OutNotify notify_zero (extcon_of (with_notify notify_zero c))]).
Proof.
  assert (Hz : forall x, notify_info_eqb notify_zero x = true -> x = notify_zero).
  { intros x E. apply notify_info_eqb_eq in E. congruence. }
  unfold set_state_unattached, work_pending. cbv zeta.
  rewrite platform_fusb_notify_eq.
  destruct (unattached_headphone c
              (is_cc_connected (notify c)
               && (CC_STATE_ROLE h c =? CC_STATE_TOGSS_IS_ACC h)))
    as (H1 & H2 & H3 & H4).
  set (c1 := if is_cc_connected (notify c)
                && (CC_STATE_ROLE h c =? CC_STATE_TOGSS_IS_ACC h)
             then emit (OutHeadphone false) c else c) in *.
  clearbody c1.
  destruct (unattached_core c1) as (G1 & G2 & G3 & G4 & G5 & G6 & G7 & G8 & G9).
  set (c0 := with_notify notify_zero (set_state unattached (tcpm_init c1))) in *.
  assert (S1 : computed_snapshot c0 = notify_zero)
    by (unfold computed_snapshot; rewrite G3; reflexivity).
  clearbody c0.
  rewrite S1, G4, H1.
  change (notify_with_attention false notify_zero) with notify_zero.
  destruct (notify_info_eqb notify_zero (notify_cmp c)) eqn:E.
  - apply Hz in E.
    destruct (unattached_tail_quiet c0 notify_zero)
      as (-> & -> & -> & -> & -> & -> & -> & -> & ->).
    rewrite G1, G2, G4, H1, E, G5, G6, G7, G8, H3, app_nil_r, <- app_assoc.
    repeat split. apply lor_work_continue_truthy.
  - destruct (unattached_tail c0
                (trace c0 ++ [OutNotify notify_zero
                                (extcon_of (with_notify notify_zero c0))])
                notify_zero)
      as (-> & -> & -> & -> & -> & -> & -> & -> & ->).
    rewrite G1, G2, G5, G6, G7, G8, G9, H3, H4, <- app_assoc, <- app_assoc.
    repeat split. apply lor_work_continue_truthy.
Qed.
End Notify.

(** ** The sink's choice among the source capabilities *)

Lemma PD_HEADER_CNT_le_7 (hd : Z) : 0 <= PD_HEADER_CNT hd <= 7.
Proof.
  unfold PD_HEADER_CNT.
  pose proof (land_ones_range (Z.shiftr hd 12) 3 ltac:(lia)) as H.
  change (Z.ones 3) with 7 in H. change (2 ^ 3) with 8 in H. lia.
Qed.

Lemma CAP_POWER_TYPE_of_within (pdo : Z) :
  pdo_within_5v pdo = true -> CAP_POWER_TYPE pdo = 0 \/ CAP_POWER_TYPE pdo = 1.
Proof.
  unfold pdo_within_5v.
  destruct (CAP_POWER_TYPE pdo =? 0) eqn:E0; [apply Z.eqb_eq in E0; auto|].
  destruct (CAP_POWER_TYPE pdo =? 1) eqn:E1; [apply Z.eqb_eq in E1; auto|].
  discriminate.
Qed.

Lemma CAP_POWER_TYPE_of_fits (mv mc pdo : Z) :
  pdo_fits mv mc pdo = true -> CAP_POWER_TYPE pdo = 0 \/ CAP_POWER_TYPE pdo = 1.
Proof.
  unfold pdo_fits.
  destruct (CAP_POWER_TYPE pdo =? 0) eqn:E0; [apply Z.eqb_eq in E0; auto|].
  destruct (CAP_POWER_TYPE pdo =? 1) eqn:E1; [apply Z.eqb_eq in E1; auto|].
  discriminate.
Qed.

Lemma with_pos_power_same (c : fusb30x_chip) : with_pos_power (pos_power c) c = c.
Proof. destruct c; reflexivity. Qed.

(** The loop of [fusb_state_snk_evaluate_caps] leaves the position
    alone when none of the first [n] PDOs passes its test, and
    otherwise leaves the position of the last one that does. *)
Lemma evaluate_caps_loop_last (n : nat) (c : fusb30x_chip) :
  exists p,
    evaluate_caps_loop n c = with_pos_power p c
    /\ ((p = pos_power c
         /\ forall i, 0 <= i < Z.of_nat n ->
              pdo_within_5v (load_nth (rec_load c) i) = false)
        \/ (1 <= p <= Z.of_nat n
            /\ pdo_within_5v (load_nth (rec_load c) (p - 1)) = true
            /\ forall i, p <= i < Z.of_nat n ->
                 pdo_within_5v (load_nth (rec_load c) i) = false)).
Proof.
  induction n as [|k (p & E & IH)].
  - exists (pos_power c). split.
    + symmetry. apply with_pos_power_same.
    + left. split; [reflexivity|]. intros i Hi. cbn in Hi. lia.
  - cbn [evaluate_caps_loop]. cbv zeta. rewrite E.
    change (rec_load (with_pos_power p c)) with (rec_load c).
    change (with_pos_power (Z.of_nat k + 1) (with_pos_power p c))
      with (with_pos_power (Z.of_nat k + 1) c).
    set (pdo := load_nth (rec_load c) (Z.of_nat k)).
    assert (Hw : pdo_within_5v pdo
                 = if CAP_POWER_TYPE pdo =? 0 then CAP_FPDO_VOLTAGE pdo <=? 100
                   else if CAP_POWER_TYPE pdo =? 1
                        then CAP_VPDO_VOLTAGE pdo <=? 100 else false)
      by reflexivity.
    assert (Hyes : pdo_within_5v pdo = true ->
                   exists p0,
                     with_pos_power (Z.of_nat k + 1) c = with_pos_power p0 c
                     /\ ((p0 = pos_power c
                          /\ forall i, 0 <= i < Z.of_nat (S k) ->
                               pdo_within_5v (load_nth (rec_load c) i) = false)
                         \/ (1 <= p0 <= Z.of_nat (S k)
                             /\ pdo_within_5v (load_nth (rec_load c) (p0 - 1)) = true
                             /\ forall i, p0 <= i < Z.of_nat (S k) ->
                                  pdo_within_5v (load_nth (rec_load c) i) = false))).
    { intros Hy. exists (Z.of_nat k + 1). split; [reflexivity|]. right.
      split; [lia|]. split.
      - replace (Z.of_nat k + 1 - 1) with (Z.of_nat k) by lia. exact Hy.
      - intros i Hi. lia. }
    assert (Hno : pdo_within_5v pdo = false ->
                  exists p0,
                     with_pos_power p c = with_pos_power p0 c
                     /\ ((p0 = pos_power c
                          /\ forall i, 0 <= i < Z.of_nat (S k) ->
                               pdo_within_5v (load_nth (rec_load c) i) = false)
                         \/ (1 <= p0 <= Z.of_nat (S k)
                             /\ pdo_within_5v (load_nth (rec_load c) (p0 - 1)) = true
                             /\ forall i, p0 <= i < Z.of_nat (S k) ->
                                  pdo_within_5v (load_nth (rec_load c) i) = false))).
    { intros Hn. exists p. split; [reflexivity|].
      destruct IH as [(-> & IH)|(Hp & Hin & IH)].
      - left. split; [reflexivity|]. intros i Hi.
        destruct (Z.eq_dec i (Z.of_nat k)) as [->|Hne]; [exact Hn|].
        apply IH. lia.
      - right. split; [lia|]. split; [exact Hin|]. intros i Hi.
        destruct (Z.eq_dec i (Z.of_nat k)) as [->|Hne]; [exact Hn|].
        apply IH. lia. }
    rewrite Hw in Hyes, Hno.
    destruct (CAP_POWER_TYPE pdo =? 0).
    + destruct (CAP_FPDO_VOLTAGE pdo <=? 100); auto.
    + destruct (CAP_POWER_TYPE pdo =? 1); auto.
      destruct (CAP_VPDO_VOLTAGE pdo <=? 100); auto.
Qed.

(** The loop of [fusb_set_pos_power]: the highest-numbered PDO within
    the limits is taken, and nothing changes when none fits. *)
Lemma fusb_set_pos_power_fit (max_vol max_cur : Z) (c : fusb30x_chip) :
  let c' := fusb_set_pos_power max_vol max_cur c in
  let cnt := PD_HEADER_CNT (rec_head c) in
  (c' = c
   /\ forall i, 0 <= i < cnt ->
        pdo_fits max_vol max_cur (load_nth (rec_load c) i) = false)
  \/ (1 <= pos_power c' <= cnt
      /\ pdo_fits max_vol max_cur (load_nth (rec_load c) (pos_power c' - 1)) = true
      /\ (forall i, pos_power c' <= i < cnt ->
            pdo_fits max_vol max_cur (load_nth (rec_load c) i) = false)
      /\ pd_output_vol c' <= max_vol /\ pd_output_cur c' <= max_cur
      /\ hardrst_count c' = hardrst_count c /\ rec_load c' = rec_load c
      /\ rec_head c' = rec_head c).
Proof.
  cbv zeta. unfold fusb_set_pos_power.
  pose proof (PD_HEADER_CNT_le_7 (rec_head c)) as Hc.
  rewrite <- (Z2Nat.id (PD_HEADER_CNT (rec_head c))) by lia.
  rewrite Nat2Z.id.
  induction (Z.to_nat (PD_HEADER_CNT (rec_head c))) as [|k IH].
  - left. split; [reflexivity|]. intros i Hi. cbn in Hi. lia.
  - cbn [fusb_set_pos_power_from]. cbv zeta.
    set (pdo := load_nth (rec_load c) (Z.of_nat k)).
    assert (Hw : pdo_fits max_vol max_cur pdo
                 = if CAP_POWER_TYPE pdo =? 0 then
                     (CAP_FPDO_VOLTAGE pdo * 50 <=? max_vol)
                     && (CAP_FPDO_CURRENT pdo * 10 <=? max_cur)
                   else if CAP_POWER_TYPE pdo =? 1 then
                     (CAP_VPDO_VOLTAGE pdo * 50 <=? max_vol)
                     && (CAP_VPDO_CURRENT pdo * 10 <=? max_cur)
                   else false) by reflexivity.
    assert (Hno : pdo_fits max_vol max_cur pdo = false ->
                  (fusb_set_pos_power_from k max_vol max_cur c = c
                   /\ forall i, 0 <= i < Z.of_nat (S k) ->
                        pdo_fits max_vol max_cur (load_nth (rec_load c) i) = false)
                  \/ (1 <= pos_power (fusb_set_pos_power_from k max_vol max_cur c)
                        <= Z.of_nat (S k)
                      /\ pdo_fits max_vol max_cur
                           (load_nth (rec_load c)
                              (pos_power (fusb_set_pos_power_from k max_vol max_cur c) - 1))
                         = true
                      /\ (forall i,
                            pos_power (fusb_set_pos_power_from k max_vol max_cur c)
                              <= i < Z.of_nat (S k) ->
                            pdo_fits max_vol max_cur (load_nth (rec_load c) i) = false)
                      /\ pd_output_vol (fusb_set_pos_power_from k max_vol max_cur c)
                         <= max_vol
                      /\ pd_output_cur (fusb_set_pos_power_from k max_vol max_cur c)
                         <= max_cur
                      /\ hardrst_count (fusb_set_pos_power_from k max_vol max_cur c)
                         = hardrst_count c
                      /\ rec_load (fusb_set_pos_power_from k max_vol max_cur c)
                         = rec_load c
                      /\ rec_head (fusb_set_pos_power_from k max_vol max_cur c)
                         = rec_head c)).
    { intros Hn.
      destruct IH as [(E & IH)|(Hp & Hin & IH & Hrest)].
      - left. split; [exact E|]. intros i Hi.
        destruct (Z.eq_dec i (Z.of_nat k)) as [->|Hne]; [exact Hn|].
        apply IH. lia.
      - right. split; [lia|]. split; [exact Hin|]. split; [|exact Hrest].
        intros i Hi.
        destruct (Z.eq_dec i (Z.of_nat k)) as [->|Hne]; [exact Hn|].
        apply IH. lia. }
    assert (Htake : forall vol cur,
              pdo_fits max_vol max_cur pdo = true ->
              vol * 50 <= max_vol -> cur * 10 <= max_cur ->
              let c' := with_pd_output_cur (cur * 10)
                          (with_pd_output_vol (vol * 50)
                             (with_pos_power (Z.of_nat k + 1) c)) in
              1 <= pos_power c' <= Z.of_nat (S k)
              /\ pdo_fits max_vol max_cur (load_nth (rec_load c) (pos_power c' - 1))
                 = true
              /\ (forall i, pos_power c' <= i < Z.of_nat (S k) ->
                    pdo_fits max_vol max_cur (load_nth (rec_load c) i) = false)
              /\ pd_output_vol c' <= max_vol /\ pd_output_cur c' <= max_cur
              /\ hardrst_count c' = hardrst_count c /\ rec_load c' = rec_load c
              /\ rec_head c' = rec_head c).
    { intros vol cur Hy Hv Hi. cbv zeta.
      change (pos_power (with_pd_output_cur (cur * 10)
                (with_pd_output_vol (vol * 50)
                   (with_pos_power (Z.of_nat k + 1) c))))
        with (Z.of_nat k + 1).
      split; [lia|]. split.
      - replace (Z.of_nat k + 1 - 1) with (Z.of_nat k) by lia. exact Hy.
      - split; [intros i Hr; lia|].
        repeat split; assumption. }
    rewrite Hw in Hno, Htake.
    destruct (CAP_POWER_TYPE pdo =? 0).
    + destruct (CAP_FPDO_VOLTAGE pdo * 50 <=? max_vol) eqn:Ev;
        destruct (CAP_FPDO_CURRENT pdo * 10 <=? max_cur) eqn:Ei;
        cbn [andb]; cbn [andb] in Hno, Htake; auto.
      right. apply Htake; [reflexivity| |]; apply Z.leb_le; assumption.
    + destruct (CAP_POWER_TYPE pdo =? 1); auto.
      destruct (CAP_VPDO_VOLTAGE pdo * 50 <=? max_vol) eqn:Ev;
        destruct (CAP_VPDO_CURRENT pdo * 10 <=? max_cur) eqn:Ei;
        cbn [andb]; cbn [andb] in Hno, Htake; auto.
      right. apply Htake; [reflexivity| |]; apply Z.leb_le; assumption.
Qed.


(** What [fusb_state_snk_evaluate_caps] leaves, by the way the position
    was found: by the charger limits, or by the 5 V loop. *)
Lemma snk_evaluate_caps_parts (hw : hw_inputs) (evt : Z) (c : fusb30x_chip) :
  let c' := fusb_state_snk_evaluate_caps hw evt c in
  let cnt := PD_HEADER_CNT (rec_head c) in
  hardrst_count c' = 0
  /\ conn_state c'
     = (if pos_power c' =? 0 then policy_snk_wait_caps
        else policy_snk_select_cap)
  /\ ((exists max_vol max_cur,
          charge_dev hw = Some (max_vol, max_cur)
          /\ 0 < max_vol /\ 0 < max_cur
          /\ 1 <= pos_power c' <= cnt
          /\ pdo_fits max_vol max_cur
               (load_nth (rec_load c) (pos_power c' - 1)) = true
          /\ forall i, pos_power c' <= i < cnt ->
               pdo_fits max_vol max_cur (load_nth (rec_load c) i) = false)
      \/ (match charge_dev hw with
          | Some (max_vol, max_cur) =>
              0 < max_vol -> 0 < max_cur ->
              forall i, 0 <= i < cnt ->
                pdo_fits max_vol max_cur (load_nth (rec_load c) i) = false
          | None => True
          end
          /\ ((pos_power c' = 0
               /\ forall i, 0 <= i < cnt ->
                    pdo_within_5v (load_nth (rec_load c) i) = false)
              \/ (1 <= pos_power c' <= cnt
                  /\ pdo_within_5v (load_nth (rec_load c) (pos_power c' - 1))
                     = true
                  /\ forall i, pos_power c' <= i < cnt ->
                       pdo_within_5v (load_nth (rec_load c) i) = false)))).
Proof.
  cbv zeta. unfold fusb_state_snk_evaluate_caps. cbv zeta.
  pose proof (PD_HEADER_CNT_le_7 (rec_head c)) as Hc.
  set (c1 := with_pos_power 0 (with_hardrst_count 0 c)).
  change (rec_head c1) with (rec_head c).
  destruct (evaluate_caps_loop_last (Z.to_nat (PD_HEADER_CNT (rec_head c))) c1)
    as (p & E & Hp).
  rewrite E. clear E.
  change (with_pos_power p c1) with (with_pos_power p (with_hardrst_count 0 c)).
  change (pos_power c1) with 0 in Hp. change (rec_load c1) with (rec_load c) in Hp.
  clear c1. rewrite Z2Nat.id in Hp by lia.
  set (c2 := with_pos_power p (with_hardrst_count 0 c)).
  assert (K1 : pos_power c2 = p) by reflexivity.
  assert (K2 : hardrst_count c2 = 0) by reflexivity.
  assert (K3 : rec_load c2 = rec_load c) by reflexivity.
  assert (K4 : rec_head c2 = rec_head c) by reflexivity.
  clearbody c2.
  (* the end of the handler, for any position within the list *)
  assert (Tail : forall c3,
            0 <= pos_power c3 <= 7 -> hardrst_count c3 = 0 ->
            let c' :=
              if negb (truthy (pos_power c3)) || (7 <? pos_power c3)
              then set_state policy_snk_wait_caps (with_pos_power 0 c3)
              else set_state policy_snk_select_cap c3 in
            hardrst_count c' = 0
            /\ conn_state c'
               = (if pos_power c' =? 0 then policy_snk_wait_caps
                  else policy_snk_select_cap)
            /\ pos_power c' = pos_power c3).
  { intros c3 Hr Hh. cbv zeta. unfold truthy.
    destruct (pos_power c3 =? 0) eqn:E0.
    - cbn [negb orb]. apply Z.eqb_eq in E0.
      change (pos_power (set_state policy_snk_wait_caps (with_pos_power 0 c3)))
        with 0.
      repeat split; [exact Hh | symmetry; exact E0].
    - cbn [negb orb]. apply Z.eqb_neq in E0.
      destruct (7 <? pos_power c3) eqn:E7; [apply Z.ltb_lt in E7; lia|].
      change (pos_power (set_state policy_snk_select_cap c3))
        with (pos_power c3).
      apply Z.eqb_neq in E0. rewrite E0.
      repeat split. exact Hh. }
  assert (Keep : forall c3, c3 = c2 ->
            let c' :=
              if negb (truthy (pos_power c3)) || (7 <? pos_power c3)
              then set_state policy_snk_wait_caps (with_pos_power 0 c3)
              else set_state policy_snk_select_cap c3 in
            hardrst_count c' = 0
            /\ conn_state c'
               = (if pos_power c' =? 0 then policy_snk_wait_caps
                  else policy_snk_select_cap)
            /\ ((pos_power c' = 0
                 /\ forall i, 0 <= i < PD_HEADER_CNT (rec_head c) ->
                      pdo_within_5v (load_nth (rec_load c) i) = false)
                \/ (1 <= pos_power c' <= PD_HEADER_CNT (rec_head c)
                    /\ pdo_within_5v (load_nth (rec_load c) (pos_power c' - 1))
                       = true
                    /\ forall i, pos_power c' <= i < PD_HEADER_CNT (rec_head c) ->
                         pdo_within_5v (load_nth (rec_load c) i) = false))).
  { intros c3 ->. cbv zeta.
    destruct (Tail c2) as (T1 & T2 & T3); [lia | exact K2 |].
    split; [exact T1|]. split; [exact T2|].
    rewrite T3, K1. exact Hp. }
  unfold fusb302_set_pos_power_by_charge_ic.
  destruct (charge_dev hw) as [[max_vol max_cur]|].
  - destruct (0 <? max_vol) eqn:Ev; [|cbn [andb]].
    + destruct (0 <? max_cur) eqn:Ei; cbn [andb].
      * apply Z.ltb_lt in Ev, Ei.
        pose proof (fusb_set_pos_power_fit max_vol max_cur c2) as F.
        cbv zeta in F. rewrite K3, K4 in F.
        destruct F as [(E & F)|(F1 & F2 & F3 & _ & _ & F6 & _ & _)].
        -- destruct (Keep _ E) as (T1 & T2 & T3).
           split; [exact T1|]. split; [exact T2|]. right.
           split; [intros _ _; exact F | exact T3].
        -- destruct (Tail (fusb_set_pos_power max_vol max_cur c2))
             as (T1 & T2 & T3); [lia | congruence |].
           split; [exact T1|]. split; [exact T2|]. left.
           exists max_vol, max_cur. rewrite T3.
           repeat split; try assumption; lia.
      * destruct (Keep _ eq_refl) as (T1 & T2 & T3).
        split; [exact T1|]. split; [exact T2|]. right.
        split; [|exact T3]. intros _ Hi. apply Z.ltb_ge in Ei. lia.
    + destruct (Keep _ eq_refl) as (T1 & T2 & T3).
      split; [exact T1|]. split; [exact T2|]. right.
      split; [|exact T3]. intros Hv. apply Z.ltb_ge in Ev. lia.
  - destruct (Keep _ eq_refl) as (T1 & T2 & T3).
    split; [exact T1|]. split; [exact T2|]. right.
    split; [exact I | exact T3].
Qed.

Section SinkChoice.

(** X5. [fusb_state_snk_evaluate_caps] never leaves a request position
    outside the received list: the position is 0 or the number of one
    of the received PDOs, a fixed or battery supply, and the count is
    at most 7.  The port goes on to [policy_snk_select_cap] exactly
    when a position was found, else back to [policy_snk_wait_caps],
    and the hard-reset count starts again at 0. *)
Theorem snk_evaluate_caps_position (hw : hw_inputs) (evt : Z)
    (c : fusb30x_chip) :
  let c' := fusb_state_snk_evaluate_caps hw evt c in
  let cnt := PD_HEADER_CNT (rec_head c) in
  hardrst_count c' = 0
  /\ 0 <= pos_power c' <= cnt /\ cnt <= 7
  /\ conn_state c'
     = (if pos_power c' =? 0 then policy_snk_wait_caps
        else policy_snk_select_cap)
  /\ (pos_power c' <> 0 ->
      let pdo := load_nth (rec_load c) (pos_power c' - 1) in
      CAP_POWER_TYPE pdo = 0 \/ CAP_POWER_TYPE pdo = 1).
Proof.
  cbv zeta.
  pose proof (PD_HEADER_CNT_le_7 (rec_head c)) as Hc.
  destruct (snk_evaluate_caps_parts hw evt c) as (T1 & T2 & T3).
  split; [exact T1|].
  destruct T3 as [(mv & mc & _ & _ & _ & Hp & Hf & _)
                 |(_ & [(Hp & _)|(Hp & Hf & _)])].
  - split; [lia|]. split; [lia|]. split; [exact T2|]. intros _.
    apply (CAP_POWER_TYPE_of_fits mv mc). exact Hf.
  - split; [lia|]. split; [lia|]. split; [exact T2|]. intros Hn. lia.
  - split; [lia|]. split; [lia|]. split; [exact T2|]. intros _.
    apply CAP_POWER_TYPE_of_within. exact Hf.
Qed.

(** X6. Without a charger to ask, the sink requests the last received
    PDO that is a fixed or battery supply of at most 5 V (100 units of
    50 mV), and waits for capabilities again when there is none. *)
Theorem snk_evaluate_caps_last_5v (hw : hw_inputs) (evt : Z)
    (c : fusb30x_chip) :
  charge_dev hw = None ->
  let c' := fusb_state_snk_evaluate_caps hw evt c in
  let cnt := PD_HEADER_CNT (rec_head c) in
  (conn_state c' = policy_snk_wait_caps /\ pos_power c' = 0
   /\ forall i, 0 <= i < cnt ->
        pdo_within_5v (load_nth (rec_load c) i) = false)
  \/ (conn_state c' = policy_snk_select_cap
      /\ 1 <= pos_power c' <= cnt
      /\ pdo_within_5v (load_nth (rec_load c) (pos_power c' - 1)) = true
      /\ forall i, pos_power c' <= i < cnt ->
           pdo_within_5v (load_nth (rec_load c) i) = false).
Proof.
  intros Hn. cbv zeta.
  destruct (snk_evaluate_caps_parts hw evt c) as (_ & T2 & T3).
  destruct T3 as [(mv & mc & Hs & _)|(_ & [(Hp & Hf)|(Hp & Hf)])].
  - congruence.
  - left. rewrite Hp in T2. auto.
  - right. split; [|exact (conj Hp Hf)].
    destruct (pos_power (fusb_state_snk_evaluate_caps hw evt c) =? 0) eqn:E;
      [apply Z.eqb_eq in E; lia | exact T2].
Qed.

(** X7. With a charger that reports positive limits, the sink requests
    the highest-numbered received PDO within them, whatever its
    voltage; the 5 V choice stands only when no PDO fits. *)
Theorem snk_evaluate_caps_charger (hw : hw_inputs) (evt : Z)
    (c : fusb30x_chip) (max_vol max_cur : Z) :
  charge_dev hw = Some (max_vol, max_cur) -> 0 < max_vol -> 0 < max_cur ->
  let c' := fusb_state_snk_evaluate_caps hw evt c in
  let cnt := PD_HEADER_CNT (rec_head c) in
  (exists i, 0 <= i < cnt
             /\ pdo_fits max_vol max_cur (load_nth (rec_load c) i) = true) ->
  conn_state c' = policy_snk_select_cap
  /\ 1 <= pos_power c' <= cnt
  /\ pdo_fits max_vol max_cur (load_nth (rec_load c) (pos_power c' - 1)) = true
  /\ forall i, pos_power c' <= i < cnt ->
       pdo_fits max_vol max_cur (load_nth (rec_load c) i) = false.
Proof.
  intros Hs Hv Hi. cbv zeta. intros (i & Hr & Hf).
  destruct (snk_evaluate_caps_parts hw evt c) as (_ & T2 & T3).
  destruct T3 as [(mv & mc & Hs' & _ & _ & Hp & Hfit & Hlast)|(Hnone & _)].
  - rewrite Hs in Hs'. injection Hs' as <- <-.
    split; [|exact (conj Hp (conj Hfit Hlast))].
    destruct (pos_power (fusb_state_snk_evaluate_caps hw evt c) =? 0) eqn:E;
      [apply Z.eqb_eq in E; lia | exact T2].
  - rewrite Hs in Hnone. rewrite (Hnone Hv Hi i Hr) in Hf. discriminate Hf.
Qed.

End SinkChoice.

(** [sample_three_caps] without a charger: the 5 V PDO is requested. *)
Lemma snk_evaluate_caps_last_5v_witness :
  let c' := fusb_state_snk_evaluate_caps hw_quiet 0 sample_three_caps in
  let cnt := PD_HEADER_CNT (rec_head sample_three_caps) in
  (conn_state c' = policy_snk_wait_caps /\ pos_power c' = 0
   /\ forall i, 0 <= i < cnt ->
        pdo_within_5v (load_nth (rec_load sample_three_caps) i) = false)
  \/ (conn_state c' = policy_snk_select_cap
      /\ 1 <= pos_power c' <= cnt
      /\ pdo_within_5v (load_nth (rec_load sample_three_caps) (pos_power c' - 1))
         = true
      /\ forall i, pos_power c' <= i < cnt ->
           pdo_within_5v (load_nth (rec_load sample_three_caps) i) = false).
Proof.
  apply (snk_evaluate_caps_last_5v hw_quiet 0 sample_three_caps).
  reflexivity.
Defined.

(** [sample_three_caps] with a charger that takes 9 V at 3 A. *)
Lemma snk_evaluate_caps_charger_witness :
  conn_state
    (fusb_state_snk_evaluate_caps
       (hw_with_charge_dev (Some (9000, 3000)) hw_quiet) 0 sample_three_caps)
  = policy_snk_select_cap.
Proof.
  apply (snk_evaluate_caps_charger
           (hw_with_charge_dev (Some (9000, 3000)) hw_quiet) 0
           sample_three_caps 9000 3000);
    [reflexivity | lia | lia |].
  exists 1. split; [vm_compute; split; [discriminate | reflexivity] | reflexivity].
Defined.

(** ** The automatic VDM sequence *)

Section VdmProgress.

Variable h : fusb302_h.

Lemma policy_send_data_vdm_state (c : fusb30x_chip) :
  vdm_state (fst (policy_send_data c)) = vdm_state c.
Proof. unfold policy_send_data. destruct (tx_state c); reflexivity. Qed.

Lemma set_vdm_mesg_vdm_state (cmd type mode : Z) (c : fusb30x_chip) :
  vdm_state (set_vdm_mesg cmd type mode c) = vdm_state c.
Proof.
  destruct (set_vdm_mesg_shape cmd type mode c) as (hd & ld & pin & ->).
  reflexivity.
Qed.

(** A sender that reports success or work in progress has left
    [vdm_state] alone. *)
Lemma vdm_send_switch_keeps (case0 : fusb30x_chip -> fusb30x_chip)
    (dflt : fusb30x_chip -> fusb30x_chip * vdm_result) (c : fusb30x_chip) :
  (forall x, vdm_state (case0 x) = vdm_state x) ->
  (forall x, snd (dflt x) = VDM_OK \/ snd (dflt x) = VDM_EINPROGRESS ->
             vdm_state (fst (dflt x)) = vdm_state x) ->
  snd (vdm_send_switch h case0 dflt c) = VDM_OK
  \/ snd (vdm_send_switch h case0 dflt c) = VDM_EINPROGRESS ->
  vdm_state (fst (vdm_send_switch h case0 dflt c)) = vdm_state c.
Proof.
  intros H0 Hd. unfold vdm_send_switch. cbv zeta.
  set (c1 := if vdm_send_state c =? 0 then case0 c else c).
  assert (E1 : vdm_state c1 = vdm_state c)
    by (subst c1; destruct (vdm_send_state c =? 0); [apply H0 | reflexivity]).
  clearbody c1.
  destruct ((vdm_send_state c =? 0) || (vdm_send_state c =? 1)).
  - pose proof (policy_send_data_vdm_state c1) as E2.
    destruct (policy_send_data c1) as [c2 tmp]. cbn [fst] in E2.
    destruct tmp.
    + destruct (negb (vdm_send_state c2 =? 2)).
      * intros _. cbn [fst]. congruence.
      * intros Hr. rewrite (Hd _ Hr). congruence.
    + destruct (negb (vdm_send_state c2 =? 2)).
      * intros _. cbn [fst]. congruence.
      * intros Hr. rewrite (Hd _ Hr). congruence.
    + cbn [snd]. intros [Hr|Hr]; discriminate Hr.
    + set (c3 := with_timer_state (T_SENDER_RESPONSE h)
                   (with_vdm_send_state (vdm_send_state c2 + 1) c2)).
      assert (E3 : vdm_state c3 = vdm_state c2) by reflexivity.
      clearbody c3.
      destruct (negb (vdm_send_state c3 =? 2)).
      * intros _. cbn [fst]. congruence.
      * intros Hr. rewrite (Hd _ Hr). congruence.
  - intros Hr. rewrite (Hd _ Hr). exact E1.
Qed.

Lemma vdm_send_wait_keeps (answered : fusb30x_chip -> bool)
    (done : fusb30x_chip -> fusb30x_chip) (evt : Z) (c : fusb30x_chip) :
  (forall x, vdm_state (done x) = vdm_state x) ->
  snd (vdm_send_wait answered done evt c) = VDM_OK
  \/ snd (vdm_send_wait answered done evt c) = VDM_EINPROGRESS ->
  vdm_state (fst (vdm_send_wait answered done evt c)) = vdm_state c.
Proof.
  intros Hdone. unfold vdm_send_wait.
  destruct (answered c).
  - intros _. cbn [fst].
    change (vdm_state (with_vdm_send_state 0 (done c)))
      with (vdm_state (done c)).
    apply Hdone.
  - destruct (has evt EVENT_TIMER_STATE).
    + cbn [snd]. intros [Hr|Hr]; discriminate Hr.
    + intros _. reflexivity.
Qed.

Lemma AUTO_VDM_HANDLE_progress
    (func : Z -> fusb30x_chip -> fusb30x_chip * vdm_result)
    (evt : Z) (c : fusb30x_chip) :
  (snd (func evt c) = VDM_OK \/ snd (func evt c) = VDM_EINPROGRESS ->
   vdm_state (fst (func evt c)) = vdm_state c) ->
  let s' := vdm_state (AUTO_VDM_HANDLE func evt c) in
  s' = vdm_state c \/ s' = vdm_state c + 1 \/ s' = VDM_STATE_ERR.
Proof.
  intros Hk. cbv zeta. unfold AUTO_VDM_HANDLE.
  destruct (func evt c) as [c1 r]. cbn [fst snd] in Hk.
  destruct r; try (right; right; reflexivity).
  - right. left.
    change (vdm_state c1 + 1 = vdm_state c + 1). rewrite Hk; auto.
  - left. apply Hk. auto.
Qed.

Lemma vdm_state_setters :
  (forall v y, vdm_state (with_vdm_send_state v y) = vdm_state y)
  /\ (forall v y, vdm_state (with_tx_state v y) = vdm_state y)
  /\ (forall v y, vdm_state (with_vdm_id v y) = vdm_state y)
  /\ (forall v y, vdm_state (with_vdm_svid v y) = vdm_state y)
  /\ (forall v y, vdm_state (with_vdm_svid_num v y) = vdm_state y)
  /\ (forall v y, vdm_state (with_notify v y) = vdm_state y)
  /\ (forall v y, vdm_state (with_val_tmp v y) = vdm_state y)
  /\ (forall v y, vdm_state (with_work_continue v y) = vdm_state y).
Proof. repeat split. Qed.

Lemma vdm_send_discoveryid_keeps (evt : Z) (c : fusb30x_chip) :
  snd (vdm_send_discoveryid h evt c) = VDM_OK \/ snd (vdm_send_discoveryid h evt c) = VDM_EINPROGRESS ->
  vdm_state (fst (vdm_send_discoveryid h evt c)) = vdm_state c.
Proof.
  destruct vdm_state_setters as (P1 & P2 & P3 & P4 & P5 & P6 & P7 & P8).
  unfold vdm_send_discoveryid. apply vdm_send_switch_keeps.
  - intros x.
    generalize (set_vdm_mesg_vdm_state VDM_DISCOVERY_ID VDM_TYPE_INIT 0 x).
    generalize (set_vdm_mesg VDM_DISCOVERY_ID VDM_TYPE_INIT 0 x).
    intros y <-. reflexivity.
  - intros x. apply vdm_send_wait_keeps. intros y. rewrite ?P7. reflexivity.
Qed.

Lemma vdm_send_discoverysvid_keeps (evt : Z) (c : fusb30x_chip) :
  snd (vdm_send_discoverysvid h evt c) = VDM_OK \/ snd (vdm_send_discoverysvid h evt c) = VDM_EINPROGRESS ->
  vdm_state (fst (vdm_send_discoverysvid h evt c)) = vdm_state c.
Proof.
  destruct vdm_state_setters as (P1 & P2 & P3 & P4 & P5 & P6 & P7 & P8).
  unfold vdm_send_discoverysvid. apply vdm_send_switch_keeps.
  - intros x.
    generalize (set_vdm_mesg_vdm_state VDM_DISCOVERY_SVIDS VDM_TYPE_INIT 0 x).
    generalize (set_vdm_mesg VDM_DISCOVERY_SVIDS VDM_TYPE_INIT 0 x).
    intros y <-. reflexivity.
  - intros x. apply vdm_send_wait_keeps. intros y. rewrite ?P7. reflexivity.
Qed.

Lemma vdm_send_entermode_keeps (evt : Z) (c : fusb30x_chip) :
  snd (vdm_send_entermode h evt c) = VDM_OK \/ snd (vdm_send_entermode h evt c) = VDM_EINPROGRESS ->
  vdm_state (fst (vdm_send_entermode h evt c)) = vdm_state c.
Proof.
  destruct vdm_state_setters as (P1 & P2 & P3 & P4 & P5 & P6 & P7 & P8).
  unfold vdm_send_entermode. apply vdm_send_switch_keeps.
  - intros x.
    generalize (set_vdm_mesg_vdm_state VDM_ENTER_MODE VDM_TYPE_INIT 1 x).
    generalize (set_vdm_mesg VDM_ENTER_MODE VDM_TYPE_INIT 1 x).
    intros y <-. reflexivity.
  - intros x. apply vdm_send_wait_keeps. intros y. rewrite ?P7. reflexivity.
Qed.

Lemma vdm_send_getdpstatus_keeps (evt : Z) (c : fusb30x_chip) :
  snd (vdm_send_getdpstatus h evt c) = VDM_OK \/ snd (vdm_send_getdpstatus h evt c) = VDM_EINPROGRESS ->
  vdm_state (fst (vdm_send_getdpstatus h evt c)) = vdm_state c.
Proof.
  destruct vdm_state_setters as (P1 & P2 & P3 & P4 & P5 & P6 & P7 & P8).
  unfold vdm_send_getdpstatus. apply vdm_send_switch_keeps.
  - intros x.
    generalize (set_vdm_mesg_vdm_state VDM_DP_STATUS_UPDATE VDM_TYPE_INIT 1 x).
    generalize (set_vdm_mesg VDM_DP_STATUS_UPDATE VDM_TYPE_INIT 1 x).
    intros y <-. reflexivity.
  - intros x. apply vdm_send_wait_keeps. intros y. rewrite ?P7. reflexivity.
Qed.

Lemma vdm_send_dpconfig_keeps (evt : Z) (c : fusb30x_chip) :
  snd (vdm_send_dpconfig h evt c) = VDM_OK \/ snd (vdm_send_dpconfig h evt c) = VDM_EINPROGRESS ->
  vdm_state (fst (vdm_send_dpconfig h evt c)) = vdm_state c.
Proof.
  destruct vdm_state_setters as (P1 & P2 & P3 & P4 & P5 & P6 & P7 & P8).
  unfold vdm_send_dpconfig. apply vdm_send_switch_keeps.
  - intros x.
    generalize (set_vdm_mesg_vdm_state VDM_DP_CONFIG VDM_TYPE_INIT 0 x).
    generalize (set_vdm_mesg VDM_DP_CONFIG VDM_TYPE_INIT 0 x).
    intros y <-. reflexivity.
  - intros x. apply vdm_send_wait_keeps. intros y. rewrite ?P7. reflexivity.
Qed.

Lemma vdm_send_discoverymodes_keeps (evt : Z) (c : fusb30x_chip) :
  snd (vdm_send_discoverymodes h evt c) = VDM_OK
  \/ snd (vdm_send_discoverymodes h evt c) = VDM_EINPROGRESS ->
  vdm_state (fst (vdm_send_discoverymodes h evt c)) = vdm_state c.
Proof.
  destruct vdm_state_setters as (P1 & P2 & P3 & P4 & P5 & P6 & P7 & P8).
  unfold vdm_send_discoverymodes.
  destruct (negb (Z.shiftr (val_tmp c) 1 =? vdm_svid_num c)).
  - apply vdm_send_switch_keeps.
    + intros x.
      generalize (set_vdm_mesg_vdm_state VDM_DISCOVERY_MODES VDM_TYPE_INIT 0 x).
      generalize (set_vdm_mesg VDM_DISCOVERY_MODES VDM_TYPE_INIT 0 x).
      intros y <-. reflexivity.
    + intros x. cbv zeta.
      destruct (has (val_tmp x) 1).
      * intros _. cbn [fst]. rewrite P8, P1, P7, P7. reflexivity.
      * destruct (has evt EVENT_TIMER_STATE);
          [cbn [snd]; intros [Hr|Hr]; discriminate Hr | intros _; reflexivity].
  - intros _. cbn [fst]. apply P7.
Qed.

(** X8. One call of [auto_vdm_machine] leaves [vdm_state] where it is,
    moves it on by one step, or sets [VDM_STATE_ERR]; it never goes
    back or skips a step.  In [VDM_STATE_READY], [VDM_STATE_ERR] or any
    value outside the sequence the call changes nothing at all. *)
Theorem auto_vdm_machine_progress (evt : Z) (c : fusb30x_chip) :
  let s := vdm_state c in
  let s' := vdm_state (auto_vdm_machine h evt c) in
  (s' = s \/ s' = s + 1 \/ s' = VDM_STATE_ERR)
  /\ (s < VDM_STATE_DISCOVERY_ID \/ VDM_STATE_READY <= s ->
      auto_vdm_machine h evt c = c).
Proof.
  cbv zeta. split.
  - unfold auto_vdm_machine. cbv zeta.
    repeat match goal with
           | |- context [if vdm_state c =? ?k then _ else _] =>
               let E := fresh "E" in destruct (vdm_state c =? k) eqn:E
           end.
    + apply AUTO_VDM_HANDLE_progress, vdm_send_discoveryid_keeps.
    + apply AUTO_VDM_HANDLE_progress, vdm_send_discoverysvid_keeps.
    + apply AUTO_VDM_HANDLE_progress, vdm_send_discoverymodes_keeps.
    + apply AUTO_VDM_HANDLE_progress, vdm_send_entermode_keeps.
    + apply AUTO_VDM_HANDLE_progress, vdm_send_getdpstatus_keeps.
    + apply AUTO_VDM_HANDLE_progress, vdm_send_dpconfig_keeps.
    + right. left. apply Z.eqb_eq in E5. rewrite E5.
      change (vdm_state (with_vdm_state VDM_STATE_READY (platform_fusb_notify c)))
        with VDM_STATE_READY.
      reflexivity.
    + left. reflexivity.
  - intros Hs. unfold auto_vdm_machine. cbv zeta.
    unfold VDM_STATE_DISCOVERY_ID, VDM_STATE_READY in Hs.
    repeat match goal with
           | |- context [if vdm_state c =? ?k then _ else _] =>
               let E := fresh "E" in
               destruct (vdm_state c =? k) eqn:E;
               [apply Z.eqb_eq in E;
                cbv delta [VDM_STATE_DISCOVERY_ID VDM_STATE_DISCOVERY_SVID
                           VDM_STATE_DISCOVERY_MODES VDM_STATE_ENTER_MODE
                           VDM_STATE_UPDATE_STATUS VDM_STATE_DP_CONFIG
                           VDM_STATE_NOTIFY] in E; lia
               | clear E]
           end.
    reflexivity.
Qed.

End VdmProgress.

